(** * MR Tracking: the client-side data shaping of the admin and MR screens

    A shallow embedding of the array, string and state handling of the
    React components (dashboard aggregator, doctor lists, report pages),
    followed by the properties the specification states about them.

    JavaScript arrays are lists, numbers that count or index are [Z],
    strings are [string] (the ASCII fragment), nullable values are
    [option], React state is a record threaded through a small
    state-and-exception monad, and the remote store is a record of the
    responses its queries give. *)

From Stdlib Require Import String Ascii.
From Stdlib Require Import List ZArith Arith Bool Lia.
From Stdlib Require Import Permutation Sorted DecimalString DecimalNat.
Import ListNotations.

Open Scope string_scope.
Open Scope list_scope.
Open Scope Z_scope.

Notation "s1 +++ s2" := (String.append s1 s2)
  (at level 60, right associativity).

(* ================================================================== *)
(** * Part I: the embedding *)
(* ================================================================== *)

(** ** The JavaScript built-ins the components call *)

Module Js.

(** [Array.prototype.slice]: a negative index counts from the end, an
    index past the end is the length. *)
Definition relative_index (len k : Z) : Z :=
  if k <? 0 then Z.max (len + k) 0 else Z.min k len.

Definition slice {A : Type} (arr : list A) (start end_ : Z) : list A :=
  let len := Z.of_nat (length arr) in
  let from := relative_index len start in
  let final := relative_index len end_ in
  firstn (Z.to_nat (final - from)) (skipn (Z.to_nat from) arr).

(** [Math.ceil(n / p)] on integers. *)
Definition ceil_div (n p : Z) : Z := - ((- n) / p).

(** [Array.prototype.sort(compareFn)] is stable: [a] stays in front of
    [b] unless [compareFn(a, b) > 0].  For a consistent comparator the
    result is the unique stable sorted arrangement, which insertion from
    the right computes. *)
Fixpoint insert_stable {A : Type} (compareFn : A -> A -> Z) (x : A)
    (sorted : list A) : list A :=
  match sorted with
  | [] => [x]
  | y :: rest =>
      if compareFn x y <=? 0 then x :: y :: rest
      else y :: insert_stable compareFn x rest
  end.

Fixpoint sort {A : Type} (compareFn : A -> A -> Z) (arr : list A) : list A :=
  match arr with
  | [] => []
  | x :: rest => insert_stable compareFn x (sort compareFn rest)
  end.

(** [a] may stand in front of [b]: what a sorted array guarantees of
    neighbours. *)
Definition in_order {A : Type} (compareFn : A -> A -> Z) (a b : A) : Prop :=
  compareFn a b <= 0.

(** A consistent comparator for the values of an array, as ECMAScript
    defines it: the values fall into classes of values that compare
    equal, and the classes are totally ordered.  For such a comparator
    the language fixes the result of [Array.prototype.sort], the stable
    sort [sort] computes; for any other comparator the order of the
    result is left to the engine. *)
Definition consistent {A : Type} (compareFn : A -> A -> Z) (arr : list A)
    : Prop :=
  forall a b c, In a arr -> In b arr -> In c arr ->
    compareFn a a = 0 /\
    (compareFn a b = 0 -> compareFn b a = 0) /\
    (compareFn a b = 0 -> compareFn b c = 0 -> compareFn a c = 0) /\
    (compareFn a b < 0 -> compareFn b c < 0 -> compareFn a c < 0) /\
    (0 < compareFn a b -> 0 < compareFn b c -> 0 < compareFn a c).

(** [String.prototype.toLowerCase] on the ASCII fragment. *)
Definition is_upper (c : ascii) : bool :=
  ((65 <=? nat_of_ascii c) && (nat_of_ascii c <=? 90))%nat.

Definition lower_char (c : ascii) : ascii :=
  if is_upper c then ascii_of_nat (nat_of_ascii c + 32) else c.

Fixpoint toLowerCase (s : string) : string :=
  match s with
  | EmptyString => EmptyString
  | String c rest => String (lower_char c) (toLowerCase rest)
  end.

(** [sub] stands at the start of [s]. *)
Fixpoint starts_with (sub s : string) : bool :=
  match sub, s with
  | EmptyString, _ => true
  | String _ _, EmptyString => false
  | String a sub', String b s' => Ascii.eqb a b && starts_with sub' s'
  end.

(** [String.prototype.includes]: [sub] occurs somewhere in [s]. *)
Fixpoint includes (s sub : string) : bool :=
  starts_with sub s ||
  match s with
  | EmptyString => false
  | String _ rest => includes rest sub
  end.

(** The white space of the ASCII fragment: tab, line feed, vertical
    tab, form feed, carriage return and space. *)
Definition is_white_space (c : ascii) : bool :=
  let n := nat_of_ascii c in
  ((9 <=? n) && (n <=? 13) || (n =? 32))%nat.

Fixpoint whitespace_only (s : string) : bool :=
  match s with
  | EmptyString => true
  | String c rest => is_white_space c && whitespace_only rest
  end.

(** [String.prototype.split] on a one-character separator. *)
Fixpoint split (sep : ascii) (s : string) : list string :=
  match s with
  | EmptyString => [EmptyString]
  | String c rest =>
      if Ascii.eqb c sep then EmptyString :: split sep rest
      else match split sep rest with
           | [] => [String c EmptyString]
           | word :: words => String c word :: words
           end
  end.

(** [parseInt] on an unsigned decimal numeral: the value of the leading
    digits, [None] (NaN) when the string does not start with a digit.
    Leading white space, signs and the [0x] prefix, which the built-in
    also accepts, do not occur in the strings parsed here. *)
Definition digit_value (c : ascii) : option nat :=
  let n := nat_of_ascii c in
  if ((48 <=? n) && (n <=? 57))%nat then Some (n - 48)%nat else None.

Fixpoint parse_digits (acc : nat) (s : string) : nat :=
  match s with
  | EmptyString => acc
  | String c rest =>
      match digit_value c with
      | Some d => parse_digits (10 * acc + d)%nat rest
      | None => acc
      end
  end.

Definition parseInt (s : option string) : option Z :=
  match s with
  | Some (String c rest) =>
      match digit_value c with
      | Some _ => Some (Z.of_nat (parse_digits 0 (String c rest)))
      | None => None
      end
  | _ => None
  end.

(** A number printed in decimal, as [year: 'numeric'] prints a year. *)
Definition decimal (n : nat) : string :=
  NilEmpty.string_of_uint (Nat.to_uint n).

(** An object used as a dictionary with string keys that are not array
    indices: [Object.keys] lists them in the order they were first
    assigned.  The same representation serves a [Map] keyed by strings,
    of which only [get], [has] and [set] are used. *)
Definition Obj (V : Type) : Type := list (string * V).

Fixpoint obj_get {V : Type} (o : Obj V) (key : string) : option V :=
  match o with
  | [] => None
  | (k, v) :: rest => if String.eqb k key then Some v else obj_get rest key
  end.

Fixpoint obj_set {V : Type} (o : Obj V) (key : string) (v : V) : Obj V :=
  match o with
  | [] => [(key, v)]
  | (k, w) :: rest =>
      if String.eqb k key then (k, v) :: rest
      else (k, w) :: obj_set rest key v
  end.

Definition obj_keys {V : Type} (o : Obj V) : list string := map fst o.

(** [new Map(entries)]: a later entry replaces an earlier one with the
    same key. *)
Definition Map_of {V : Type} (entries : list (string * V)) : Obj V :=
  fold_left (fun m kv => obj_set m (fst kv) (snd kv)) entries [].

(** [new Set(array)] followed by [Array.from]: the distinct elements in
    the order of their first occurrence. *)
Definition Set_add (s : list string) (x : string) : list string :=
  if existsb (String.eqb x) s then s else s ++ [x].

Definition Set_of (arr : list string) : list string :=
  fold_left Set_add arr [].

(** [value || fallback] on a nullable string: [null] and the empty
    string are both falsy. *)
Definition or_else (value : option string) (fallback : string) : string :=
  match value with
  | Some (String c rest) => String c rest
  | _ => fallback
  end.

(** [data || []] and [count || 0]. *)
Definition or_nil {A : Type} (data : option (list A)) : list A :=
  match data with Some l => l | None => [] end.

Definition or_zero (count : option Z) : Z :=
  match count with
  | Some n => n
  | None => 0
  end.

End Js.

(** ** Client-side pagination

    [paginatedData] is the same three lines in every list screen:
    [DoctorsList], [DoctorsManagement] and both report pages. *)

Module Pagination.

Definition paginatedData {A : Type} (sortedData : list A)
    (currentPage itemsPerPage : Z) : list A :=
  let startIndex := (currentPage - 1) * itemsPerPage in
  let endIndex := startIndex + itemsPerPage in
  Js.slice sortedData startIndex endIndex.

(** The page sizes offered by the "items per page" select. *)
Definition pageSizes : list Z := [10; 30; 100].

(** [Math.ceil(total / itemsPerPage)], the page count the pager shows. *)
Definition totalPages (total itemsPerPage : Z) : Z :=
  Js.ceil_div total itemsPerPage.

(** Page numbers [1 .. n]. *)
Definition pagesUpTo (n : Z) : list Z :=
  map Z.of_nat (seq 1 (Z.to_nat n)).

End Pagination.

(** ** State, exceptions and the remote store

    An [async] function of a component reads and writes the component's
    state and may throw; what it has written before it throws stays
    written.  [try], [catch] and [finally] are the combinators below.
    Output to the console is not part of the state and is left out. *)

Module Effect.

(** The error object a query of the remote store answers with.  Whether
    such an object is an instance of [Error] depends on the client
    library and travels with the value. *)
Record PostgrestError : Type := mkPostgrestError {
  pg_message : string;
  pg_instanceofError : bool
}.

(** The answer of a row query, [{ data, error }], and of a counting
    query, [{ count, error }]. *)
Record Response (A : Type) : Type := mkResponse {
  data : option A;
  error : option PostgrestError
}.
Arguments mkResponse {A} _ _.
Arguments data {A} _.
Arguments error {A} _.

Record CountResponse : Type := mkCountResponse {
  count : option Z;
  countError : option PostgrestError
}.

Definition ok {A : Type} (rows : A) : Response A := mkResponse (Some rows) None.
Definition failed {A : Type} (e : PostgrestError) : Response A :=
  mkResponse None (Some e).

(** A thrown value: [new Error(message)], or a query's error object
    thrown as it is. *)
Inductive Thrown : Type :=
| NewError (message : string)
| Rethrown (e : PostgrestError).

(** [error instanceof Error ? error.message : String(error)]. *)
Definition errorMessage (e : Thrown) : string :=
  match e with
  | NewError message => message
  | Rethrown pe =>
      if pg_instanceofError pe then pg_message pe else "[object Object]"
  end.

(** [error.message], read without looking at the class. *)
Definition messageOf (e : Thrown) : string :=
  match e with
  | NewError message => message
  | Rethrown pe => pg_message pe
  end.

Inductive Completion (A : Type) : Type :=
| Normal (a : A)
| Abrupt (e : Thrown).
Arguments Normal {A} _.
Arguments Abrupt {A} _.

Definition Io (S A : Type) : Type := S -> Completion A * S.

Definition ret {S A : Type} (a : A) : Io S A := fun s => (Normal a, s).

Definition bind {S A B : Type} (c : Io S A) (k : A -> Io S B) : Io S B :=
  fun s =>
    match c s with
    | (Normal a, s') => k a s'
    | (Abrupt e, s') => (Abrupt e, s')
    end.

Definition throw {S A : Type} (e : Thrown) : Io S A := fun s => (Abrupt e, s).

Definition modify {S : Type} (f : S -> S) : Io S unit :=
  fun s => (Normal tt, f s).

Definition gets {S A : Type} (f : S -> A) : Io S A :=
  fun s => (Normal (f s), s).

(** [if (error) throw ...]. *)
Definition throw_if {S : Type} (e : option PostgrestError)
    (mk : PostgrestError -> Thrown) : Io S unit :=
  match e with
  | Some pe => throw (mk pe)
  | None => ret tt
  end.

(** [try { body } catch (e) { handler }]. *)
Definition try_catch {S A : Type} (body : Io S A)
    (handler : Thrown -> Io S A) : Io S A :=
  fun s =>
    match body s with
    | (Normal a, s') => (Normal a, s')
    | (Abrupt e, s') => handler e s'
    end.

(** [try { body } finally { finalizer }]: the finalizer always runs, and
    a throw of its own replaces the completion of the body. *)
Definition try_finally {S A : Type} (body : Io S A)
    (finalizer : Io S unit) : Io S A :=
  fun s =>
    let (r, s') := body s in
    match finalizer s' with
    | (Normal _, s'') => (r, s'')
    | (Abrupt e, s'') => (Abrupt e, s'')
    end.

Definition try_catch_finally {S A : Type} (body : Io S A)
    (handler : Thrown -> Io S A) (finalizer : Io S unit) : Io S A :=
  try_finally (try_catch body handler) finalizer.

(** The state a computation leaves, and whether it threw. *)
Definition exec {S A : Type} (c : Io S A) (s : S) : S := snd (c s).

Definition throws {S A : Type} (c : Io S A) (s : S) : bool :=
  match fst (c s) with
  | Normal _ => false
  | Abrupt _ => true
  end.

End Effect.

Notation "x <- c1 ;; c2" := (Effect.bind c1 (fun x => c2))
  (at level 61, c1 at next level, right associativity).
Notation "c1 ;; c2" := (Effect.bind c1 (fun _ => c2))
  (at level 61, right associativity).

(** ** The admin dashboard

    [AdminDashboard]: the stats cards, the visit trend, the ranking of
    the MRs and the queue of pending approvals. *)

Module AdminDashboard.

Import Effect.

(** *** The rows the queries select and the items the page shows *)

Record Stats : Type := mkStats {
  totalMRs : Z;
  mrIncrease : Z;
  totalDoctors : Z;
  doctorIncrease : Z;
  totalVisits : Z;
  visitIncrease : Z;
  totalMedicals : Z;
  medicalIncrease : Z
}.

Record VisitOrder : Type := mkVisitOrder { quantity : Z }.

Module Visit.
Record t : Type := mk {
  id : string;
  mr_id : string;
  visit_orders : list VisitOrder
}.
End Visit.

Module MRPerformance.
Record t : Type := mk {
  name : string;
  visits : Z;
  orderValue : Z
}.
End MRPerformance.

Module VisitTrendItem.
Record t : Type := mk {
  month : string;
  visits : Z;
  orders : Z
}.
End VisitTrendItem.

(** An entry of [MonthlyData]. *)
Module MonthCounts.
Record t : Type := mk {
  visits : Z;
  orders : Z
}.
End MonthCounts.

Definition MonthlyData : Type := Js.Obj MonthCounts.t.

Record VisitData : Type := mkVisitData { date : string }.

Module MRProfile.
Record t : Type := mk {
  id : string;
  name : string
}.
End MRProfile.

(** A row of [select('id, mr_id')] on [visits]. *)
Module ApprovedVisit.
Record t : Type := mk {
  id : string;
  mr_id : string
}.
End ApprovedVisit.

(** A row of [select('visit_id, quantity')] on [visit_orders]. *)
Module OrderRow.
Record t : Type := mk {
  visit_id : string;
  quantity : Z
}.
End OrderRow.

Inductive ApprovalType : Type := Report | Visit | User | Doctor | MedicalVisit.

Record PendingApproval : Type := mkPendingApproval {
  pa_id : string;
  pa_name : string;
  pa_type : ApprovalType;
  pa_date : option string;
  pa_doctorName : option string;
  pa_email : option string
}.

(** [doctors(name)], the joined doctor of a pending visit. *)
Record DoctorName : Type := mkDoctorName { doctor_name : string }.

Module PendingVisitData.
Record t : Type := mk {
  id : string;
  date : string;
  mr_id : string;
  doctors : option DoctorName
}.
End PendingVisitData.

(** A row of [select('id, name, email')] on [profiles]. *)
Module PendingUser.
Record t : Type := mk {
  id : string;
  name : option string;
  email : option string
}.
End PendingUser.

(** A row of [select('id, name')] on [doctors]. *)
Module PendingDoctor.
Record t : Type := mk {
  id : string;
  name : string
}.
End PendingDoctor.

(** A row of [select('id, visit_date, mr_id')] on [medical_visits]. *)
Module PendingMedicalVisit.
Record t : Type := mk {
  id : string;
  visit_date : string;
  mr_id : string
}.
End PendingMedicalVisit.

(** *** What the browser and the remote store answer *)

Inductive Month : Type :=
| Jan | Feb | Mar | Apr | May | Jun | Jul | Aug | Sep | Oct | Nov | Dec.

(** What the page takes from the browser it runs in.  The [Date]
    functions, in the browser's time zone and default locale: the
    calendar month and year a date string denotes ([None] for a string
    that is not a date), the text the locale prints for a month and a
    year under the options [{ month: 'short', year: 'numeric' }], and
    [toLocaleDateString].  And [Array.prototype.sort] of its engine on
    the items of the trend, whose comparator is not consistent for every
    array (see [sortsAsSpecified]). *)
Record Browser : Type := mkBrowser {
  localMonthYear : string -> option (Month * nat);
  monthYearText : Month * nat -> string;
  toLocaleDateString : string -> string;
  arraySort : (VisitTrendItem.t -> VisitTrendItem.t -> Z) ->
              list VisitTrendItem.t -> list VisitTrendItem.t
}.

(** The queries of [fetchCoreDashboardData]; [visits_since] is the one
    filtered by [gte('date', sixMonthsAgoISO)]. *)
Record CoreQueries : Type := mkCoreQueries {
  count_mrs : CountResponse;
  count_doctors : CountResponse;
  count_visits : CountResponse;
  count_medicals : CountResponse;
  visits_since : Response (list VisitData)
}.

(** The queries of [fetchAndProcessMRPerformance]; dates are instants in
    milliseconds, which is how their ISO strings compare. *)
Record MRQueries : Type := mkMRQueries {
  profiles_mr : Response (list MRProfile.t);
  visits_approved : option Z -> option Z -> Response (list ApprovedVisit.t);
  visit_orders_in : list string -> Response (list OrderRow.t)
}.

(** The queries of [fetchPendingApprovals]. *)
Record PendingQueries : Type := mkPendingQueries {
  visits_pending : Response (list PendingVisitData.t);
  profiles_pending : Response (list PendingUser.t);
  doctors_unverified : Response (list PendingDoctor.t);
  medical_visits_pending : Response (list PendingMedicalVisit.t);
  profiles_in : list string -> Response (list MRProfile.t)
}.

(** The writes of [handleApprove] and [handleReject]. *)
Inductive Table : Type :=
| reports | visits | profiles | doctors | medical_visits.

Inductive Change : Type :=
| UpdateStatus (status : string)
| UpdateIsVerified (is_verified : bool)
| Delete.

Record Mutations : Type := mkMutations {
  mutate : Table -> Change -> string -> option PostgrestError
}.

(** *** The state of the page *)

Record State : Type := mkState {
  stats : Stats;
  visitTrend : list VisitTrendItem.t;
  topMRs : list MRPerformance.t;
  allTopMRsDataCache : option (list MRPerformance.t);
  weeklyTopMRsDataCache : option (list MRPerformance.t);
  dailyTopMRsDataCache : option (list MRPerformance.t);
  pendingApprovals : list PendingApproval;
  loading : bool;
  error : option string;
  selectedItems : list string;
  isSelectionModalOpen : bool;
  coreLoading : bool;
  pendingLoading : bool;
  topMRsLoading : bool
}.

Definition setStats (v : Stats) : Io State unit :=
  modify (fun s => mkState v (visitTrend s) (topMRs s)
    (allTopMRsDataCache s) (weeklyTopMRsDataCache s)
    (dailyTopMRsDataCache s) (pendingApprovals s) (loading s) (error s)
    (selectedItems s) (isSelectionModalOpen s) (coreLoading s)
    (pendingLoading s) (topMRsLoading s)).

Definition setVisitTrend (v : list VisitTrendItem.t) : Io State unit :=
  modify (fun s => mkState (stats s) v (topMRs s) (allTopMRsDataCache s)
    (weeklyTopMRsDataCache s) (dailyTopMRsDataCache s) (pendingApprovals s)
    (loading s) (error s) (selectedItems s) (isSelectionModalOpen s)
    (coreLoading s) (pendingLoading s) (topMRsLoading s)).

Definition setTopMRs (v : list MRPerformance.t) : Io State unit :=
  modify (fun s => mkState (stats s) (visitTrend s) v (allTopMRsDataCache s)
    (weeklyTopMRsDataCache s) (dailyTopMRsDataCache s) (pendingApprovals s)
    (loading s) (error s) (selectedItems s) (isSelectionModalOpen s)
    (coreLoading s) (pendingLoading s) (topMRsLoading s)).

Definition setAllTopMRsDataCache (v : option (list MRPerformance.t)) : Io State unit :=
  modify (fun s => mkState (stats s) (visitTrend s) (topMRs s) v
    (weeklyTopMRsDataCache s) (dailyTopMRsDataCache s) (pendingApprovals s)
    (loading s) (error s) (selectedItems s) (isSelectionModalOpen s)
    (coreLoading s) (pendingLoading s) (topMRsLoading s)).

Definition setWeeklyTopMRsDataCache (v : option (list MRPerformance.t)) : Io State unit :=
  modify (fun s => mkState (stats s) (visitTrend s) (topMRs s)
    (allTopMRsDataCache s) v (dailyTopMRsDataCache s) (pendingApprovals s)
    (loading s) (error s) (selectedItems s) (isSelectionModalOpen s)
    (coreLoading s) (pendingLoading s) (topMRsLoading s)).

Definition setDailyTopMRsDataCache (v : option (list MRPerformance.t)) : Io State unit :=
  modify (fun s => mkState (stats s) (visitTrend s) (topMRs s)
    (allTopMRsDataCache s) (weeklyTopMRsDataCache s) v (pendingApprovals s)
    (loading s) (error s) (selectedItems s) (isSelectionModalOpen s)
    (coreLoading s) (pendingLoading s) (topMRsLoading s)).

Definition setPendingApprovals (v : list PendingApproval) : Io State unit :=
  modify (fun s => mkState (stats s) (visitTrend s) (topMRs s)
    (allTopMRsDataCache s) (weeklyTopMRsDataCache s)
    (dailyTopMRsDataCache s) v (loading s) (error s) (selectedItems s)
    (isSelectionModalOpen s) (coreLoading s) (pendingLoading s)
    (topMRsLoading s)).

Definition setLoading (v : bool) : Io State unit :=
  modify (fun s => mkState (stats s) (visitTrend s) (topMRs s)
    (allTopMRsDataCache s) (weeklyTopMRsDataCache s)
    (dailyTopMRsDataCache s) (pendingApprovals s) v (error s)
    (selectedItems s) (isSelectionModalOpen s) (coreLoading s)
    (pendingLoading s) (topMRsLoading s)).

Definition setError (v : option string) : Io State unit :=
  modify (fun s => mkState (stats s) (visitTrend s) (topMRs s)
    (allTopMRsDataCache s) (weeklyTopMRsDataCache s)
    (dailyTopMRsDataCache s) (pendingApprovals s) (loading s) v
    (selectedItems s) (isSelectionModalOpen s) (coreLoading s)
    (pendingLoading s) (topMRsLoading s)).

Definition setSelectedItems (v : list string) : Io State unit :=
  modify (fun s => mkState (stats s) (visitTrend s) (topMRs s)
    (allTopMRsDataCache s) (weeklyTopMRsDataCache s)
    (dailyTopMRsDataCache s) (pendingApprovals s) (loading s) (error s) v
    (isSelectionModalOpen s) (coreLoading s) (pendingLoading s)
    (topMRsLoading s)).

Definition setIsSelectionModalOpen (v : bool) : Io State unit :=
  modify (fun s => mkState (stats s) (visitTrend s) (topMRs s)
    (allTopMRsDataCache s) (weeklyTopMRsDataCache s)
    (dailyTopMRsDataCache s) (pendingApprovals s) (loading s) (error s)
    (selectedItems s) v (coreLoading s) (pendingLoading s) (topMRsLoading s)).

Definition setCoreLoading (v : bool) : Io State unit :=
  modify (fun s => mkState (stats s) (visitTrend s) (topMRs s)
    (allTopMRsDataCache s) (weeklyTopMRsDataCache s)
    (dailyTopMRsDataCache s) (pendingApprovals s) (loading s) (error s)
    (selectedItems s) (isSelectionModalOpen s) v (pendingLoading s)
    (topMRsLoading s)).

Definition setPendingLoading (v : bool) : Io State unit :=
  modify (fun s => mkState (stats s) (visitTrend s) (topMRs s)
    (allTopMRsDataCache s) (weeklyTopMRsDataCache s)
    (dailyTopMRsDataCache s) (pendingApprovals s) (loading s) (error s)
    (selectedItems s) (isSelectionModalOpen s) (coreLoading s) v
    (topMRsLoading s)).

Definition setTopMRsLoading (v : bool) : Io State unit :=
  modify (fun s => mkState (stats s) (visitTrend s) (topMRs s)
    (allTopMRsDataCache s) (weeklyTopMRsDataCache s)
    (dailyTopMRsDataCache s) (pendingApprovals s) (loading s) (error s)
    (selectedItems s) (isSelectionModalOpen s) (coreLoading s)
    (pendingLoading s) v).

(** A call that is not awaited: its writes are taken where the call
    stands, its completion is not observed by the caller. *)
Definition not_awaited {S A : Type} (c : Io S A) : Io S unit :=
  fun s => (Normal tt, exec c s).

(** *** [fetchAndProcessMRPerformance] *)

Definition sum_quantities (orders : list VisitOrder) : Z :=
  fold_left (fun orderSum orderItem => orderSum + quantity orderItem) orders 0.

Definition groupOrders (allVisitOrdersData : list OrderRow.t)
    : Js.Obj (list VisitOrder) :=
  fold_left
    (fun visitOrdersMap order =>
       let visitOrdersMap :=
         match Js.obj_get visitOrdersMap (OrderRow.visit_id order) with
         | None => Js.obj_set visitOrdersMap (OrderRow.visit_id order) []
         | Some _ => visitOrdersMap
         end in
       Js.obj_set visitOrdersMap (OrderRow.visit_id order)
         (Js.or_nil (Js.obj_get visitOrdersMap (OrderRow.visit_id order))
            ++ [mkVisitOrder (OrderRow.quantity order)]))
    allVisitOrdersData [].

Definition performanceOf (fullApprovedVisits : list Visit.t)
    (mr : MRProfile.t) : MRPerformance.t :=
  let mrSpecificVisits :=
    filter (fun visit => String.eqb (Visit.mr_id visit) (MRProfile.id mr))
           fullApprovedVisits in
  let totalOrderValue :=
    fold_left (fun sum visit => sum + sum_quantities (Visit.visit_orders visit))
              mrSpecificVisits 0 in
  MRPerformance.mk (MRProfile.name mr)
                   (Z.of_nat (length mrSpecificVisits))
                   totalOrderValue.

(** The comparator of the ranking, and the order it is meant to give. *)
Definition byVisitsDesc (a b : MRPerformance.t) : Z :=
  MRPerformance.visits b - MRPerformance.visits a.

Definition more_visits (a b : MRPerformance.t) : Prop :=
  MRPerformance.visits b <= MRPerformance.visits a.

Definition rankMRs (mrsData : option (list MRProfile.t))
    (approvedVisitsData : option (list ApprovedVisit.t))
    (allVisitOrdersData : list OrderRow.t) : list MRPerformance.t :=
  let visitOrdersMap := groupOrders allVisitOrdersData in
  let fullApprovedVisits :=
    Js.or_nil
      (option_map
         (map (fun v =>
                 Visit.mk (ApprovedVisit.id v) (ApprovedVisit.mr_id v)
                   (Js.or_nil (Js.obj_get visitOrdersMap (ApprovedVisit.id v)))))
         approvedVisitsData) in
  let mrPerformance :=
    Js.or_nil (option_map (map (performanceOf fullApprovedVisits)) mrsData) in
  let mrPerformance :=
    Js.sort byVisitsDesc mrPerformance in
  filter (fun mr => 0 <? MRPerformance.visits mr) mrPerformance.

Definition fetchAndProcessMRPerformance {S : Type} (q : MRQueries)
    (startDate endDate : option Z) : Io S (list MRPerformance.t) :=
  let mrs := profiles_mr q in
  throw_if (Effect.error mrs) Rethrown ;;
  let approved := visits_approved q startDate endDate in
  throw_if (Effect.error approved) Rethrown ;;
  let visitIds :=
    Js.or_nil (option_map (map ApprovedVisit.id) (Effect.data approved)) in
  allVisitOrdersData <-
    (if (0 <? Z.of_nat (length visitIds))
     then
       let orders := visit_orders_in q visitIds in
       throw_if (Effect.error orders) Rethrown ;;
       ret (Js.or_nil (Effect.data orders))
     else ret []) ;;
  ret (rankMRs (Effect.data mrs) (Effect.data approved) allVisitOrdersData).

(** *** [fetchCoreDashboardData] *)

Definition monthShort (m : Month) : string :=
  match m with
  | Jan => "Jan" | Feb => "Feb" | Mar => "Mar" | Apr => "Apr"
  | May => "May" | Jun => "Jun" | Jul => "Jul" | Aug => "Aug"
  | Sep => "Sep" | Oct => "Oct" | Nov => "Nov" | Dec => "Dec"
  end.

(** What the locale [en-US] prints for a month and a year, as in
    ["Jan 2024"]; these are the keys [monthMap] below is written for. *)
Definition formatMonthYear (my : Month * nat) : string :=
  monthShort (fst my) +++ " " +++ Js.decimal (snd my).

Definition printsEnglishMonths (browser : Browser) : Prop :=
  forall my, monthYearText browser my = formatMonthYear my.

(** The locale prints two different months differently. *)
Definition printsMonthsApart (browser : Browser) : Prop :=
  forall my my', monthYearText browser my = monthYearText browser my' ->
                 my = my'.

(** [new Date(s).toLocaleString('default', { month: 'short', year:
    'numeric' })]. *)
Definition toLocaleMonthYear (browser : Browser) (date : string) : string :=
  match localMonthYear browser date with
  | Some my => monthYearText browser my
  | None => "Invalid Date"
  end.

(** The body of the [forEach] over the fetched visits. *)
Definition countVisit (browser : Browser) (monthlyData : MonthlyData)
    (visit : VisitData) : MonthlyData :=
  let month := toLocaleMonthYear browser (date visit) in
  let monthlyData :=
    match Js.obj_get monthlyData month with
    | None => Js.obj_set monthlyData month (MonthCounts.mk 0 0)
    | Some _ => monthlyData
    end in
  let monthlyData :=
    match Js.obj_get monthlyData month with
    | Some c =>
        Js.obj_set monthlyData month
          (MonthCounts.mk (MonthCounts.visits c + 1) (MonthCounts.orders c))
    | None => monthlyData
    end in
  match Js.obj_get monthlyData month with
  | Some c =>
      Js.obj_set monthlyData month
        (MonthCounts.mk (MonthCounts.visits c) (MonthCounts.orders c + 1))
  | None => monthlyData
  end.

Definition monthMap : Js.Obj Z :=
  [("Jan", 0); ("Feb", 1); ("Mar", 2); ("Apr", 3); ("May", 4); ("Jun", 5);
   ("Jul", 6); ("Aug", 7); ("Sep", 8); ("Oct", 9); ("Nov", 10); ("Dec", 11)].

(** [new Date(year, month, 1).getTime()], [None] for NaN.  A year from 0
    to 99 means 1900 + year.  The instant is given as the number of the
    month, counted from year 0: the comparator only subtracts two such
    instants and the sort only looks at the sign. *)
Definition monthStart (year month : option Z) : option Z :=
  match year, month with
  | Some y, Some m =>
      let y := if (0 <=? y) && (y <=? 99) then 1900 + y else y in
      Some (12 * y + m)
  | _, _ => None
  end.

Definition monthTime (item : VisitTrendItem.t) : option Z :=
  let parts := Js.split " " (VisitTrendItem.month item) in
  let aMonth := nth_error parts 0 in
  let aYear := nth_error parts 1 in
  monthStart (Js.parseInt aYear)
    (match aMonth with
     | Some key => Js.obj_get monthMap key
     | None => None
     end).

(** The comparator of the trend; a NaN difference counts as 0.  A key
    that does not parse compares equal to every key, so the comparator
    is not consistent once such a key stands among keys that parse. *)
Definition compareTrend (a b : VisitTrendItem.t) : Z :=
  match monthTime a, monthTime b with
  | Some aTime, Some bTime => aTime - bTime
  | _, _ => 0
  end.

(** What the language asks of the engine's sort: the result holds the
    elements of the array, and for a consistent comparator it is the
    stably sorted array. *)
Definition sortsAsSpecified (browser : Browser) : Prop :=
  forall compareFn arr,
    Permutation arr (arraySort browser compareFn arr) /\
    (Js.consistent compareFn arr ->
     arraySort browser compareFn arr = Js.sort compareFn arr).

Definition visitTrendOf (browser : Browser)
    (allVisits : option (list VisitData)) : list VisitTrendItem.t :=
  let monthlyData := fold_left (countVisit browser) (Js.or_nil allVisits) [] in
  let visitTrendArray :=
    map (fun month =>
           match Js.obj_get monthlyData month with
           | Some c =>
               VisitTrendItem.mk month (MonthCounts.visits c)
                                 (MonthCounts.orders c)
           | None => VisitTrendItem.mk month 0 0
           end)
        (Js.obj_keys monthlyData) in
  arraySort browser compareTrend visitTrendArray.

(** *** What the trend is meant to be

    The number of a calendar month, the order of two months in time, the
    visits that fall in a month, and the visits the trend is stated
    for: those whose date the browser can read, in the year 100 or
    later (every date of the trailing six months is such a date). *)

Definition monthIndex (m : Month) : Z :=
  match m with
  | Jan => 0 | Feb => 1 | Mar => 2 | Apr => 3 | May => 4 | Jun => 5
  | Jul => 6 | Aug => 7 | Sep => 8 | Oct => 9 | Nov => 10 | Dec => 11
  end.

Definition monthNumber (my : Month * nat) : Z :=
  12 * Z.of_nat (snd my) + monthIndex (fst my).

Definition earlier (a b : Month * nat) : Prop := monthNumber a < monthNumber b.

Definition sameMonth (a b : Month * nat) : bool :=
  (monthIndex (fst a) =? monthIndex (fst b)) && Nat.eqb (snd a) (snd b).

Definition fallsIn (browser : Browser) (my : Month * nat) (visit : VisitData)
    : bool :=
  match localMonthYear browser (date visit) with
  | Some my' => sameMonth my' my
  | None => false
  end.

Definition visitsIn (browser : Browser) (allVisits : list VisitData)
    (my : Month * nat) : Z :=
  Z.of_nat (length (filter (fallsIn browser my) allVisits)).

Definition wellDated (browser : Browser) (visit : VisitData) : Prop :=
  exists my, localMonthYear browser (date visit) = Some my /\
             (100 <= snd my)%nat.

(** The key a visit is counted under, how many of some visits are
    counted under a key, and what the object holds once the visits [vs]
    have been counted. *)
Definition monthKey (browser : Browser) (visit : VisitData) : string :=
  toLocaleMonthYear browser (date visit).

Definition keyCount (browser : Browser) (k : string) (vs : list VisitData)
    : Z :=
  Z.of_nat (length (filter (fun v => String.eqb (monthKey browser v) k) vs)).

Definition counted (browser : Browser) (md : MonthlyData)
    (vs : list VisitData) : Prop :=
  NoDup (Js.obj_keys md) /\
  forall k,
    Js.obj_get md k =
    if keyCount browser k vs =? 0 then None
    else Some (MonthCounts.mk (keyCount browser k vs) (keyCount browser k vs)).

(** The bucket of a month with [n] visits, with the key [en-US] prints
    and with the key of the browser's locale. *)
Definition bucket (my : Month * nat) (n : Z) : VisitTrendItem.t :=
  VisitTrendItem.mk (formatMonthYear my) n n.

Definition bucketOf (browser : Browser) (my : Month * nat) (n : Z)
    : VisitTrendItem.t :=
  VisitTrendItem.mk (monthYearText browser my) n n.

(** The total of a column of the chart. *)
Definition total (counts : list Z) : Z := fold_right Z.add 0 counts.

(** The statements of the [try] block. *)
Definition fetchCoreDashboardData_try (browser : Browser) (q : CoreQueries)
    : Io State unit :=
  throw_if (countError (count_mrs q))
    (fun e => NewError ("Failed to fetch MRs count: " +++ pg_message e)) ;;
  throw_if (countError (count_doctors q))
    (fun e => NewError ("Failed to fetch doctors count: " +++ pg_message e)) ;;
  throw_if (countError (count_visits q))
    (fun e => NewError ("Failed to fetch visits count: " +++ pg_message e)) ;;
  throw_if (countError (count_medicals q))
    (fun e => NewError ("Failed to fetch medicals count: " +++ pg_message e)) ;;
  setStats (mkStats (Js.or_zero (count (count_mrs q))) 0
                    (Js.or_zero (count (count_doctors q))) 0
                    (Js.or_zero (count (count_visits q))) 0
                    (Js.or_zero (count (count_medicals q))) 0) ;;
  let allVisits := visits_since q in
  throw_if (Effect.error allVisits)
    (fun e => NewError ("Failed to fetch visit trend data: " +++ pg_message e)) ;;
  setVisitTrend (visitTrendOf browser (Effect.data allVisits)).

Definition fetchCoreDashboardData (browser : Browser) (q : CoreQueries)
    : Io State unit :=
  setCoreLoading true ;;
  setError None ;;
  try_catch_finally
    (fetchCoreDashboardData_try browser q)
    (fun error =>
       setError (Some ("Failed to fetch dashboard data: " +++ errorMessage error)))
    (setCoreLoading false).

(** *** [fetchPendingApprovals] *)

Definition formatPendingApprovals (browser : Browser)
    (mrMap : Js.Obj string)
    (pendingVisitsData : option (list PendingVisitData.t))
    (pendingUsersData : option (list PendingUser.t))
    (pendingDoctorsData : option (list PendingDoctor.t))
    (pendingMedicalVisitsData : option (list PendingMedicalVisit.t))
    : list PendingApproval :=
  let formattedPendingVisits :=
    Js.or_nil (option_map (map (fun visit =>
      mkPendingApproval (PendingVisitData.id visit)
        (Js.or_else (Js.obj_get mrMap (PendingVisitData.mr_id visit)) "Unknown MR")
        Visit
        (Some (toLocaleDateString browser (PendingVisitData.date visit)))
        (option_map doctor_name (PendingVisitData.doctors visit))
        None)) pendingVisitsData) in
  let formattedPendingUsers :=
    Js.or_nil (option_map (map (fun user =>
      mkPendingApproval (PendingUser.id user)
        (Js.or_else (PendingUser.name user) "Unknown User")
        User None None
        (Some (Js.or_else (PendingUser.email user) "N/A")))) pendingUsersData) in
  let formattedPendingDoctors :=
    Js.or_nil (option_map (map (fun doctor =>
      mkPendingApproval (PendingDoctor.id doctor) (PendingDoctor.name doctor)
        Doctor None None None)) pendingDoctorsData) in
  let formattedPendingMedicalVisits :=
    Js.or_nil (option_map (map (fun visit =>
      mkPendingApproval (PendingMedicalVisit.id visit)
        (Js.or_else (Js.obj_get mrMap (PendingMedicalVisit.mr_id visit)) "Unknown MR")
        MedicalVisit
        (Some (toLocaleDateString browser (PendingMedicalVisit.visit_date visit)))
        (Some "No doctors assigned")
        None)) pendingMedicalVisitsData) in
  formattedPendingVisits ++ formattedPendingUsers ++ formattedPendingDoctors
    ++ formattedPendingMedicalVisits.

Definition fetchPendingApprovals_try (browser : Browser) (q : PendingQueries)
    : Io State unit :=
  throw_if (Effect.error (visits_pending q))
    (fun e => NewError ("Failed to fetch pending visits: " +++ pg_message e)) ;;
  throw_if (Effect.error (profiles_pending q))
    (fun e => NewError ("Failed to fetch pending users: " +++ pg_message e)) ;;
  throw_if (Effect.error (doctors_unverified q))
    (fun e => NewError ("Failed to fetch pending doctors: " +++ pg_message e)) ;;
  throw_if (Effect.error (medical_visits_pending q))
    (fun e => NewError ("Failed to fetch pending medical visits: " +++ pg_message e)) ;;
  let allMrIds :=
    Js.Set_of
      (Js.or_nil (option_map (map PendingVisitData.mr_id)
                             (Effect.data (visits_pending q)))
       ++ Js.or_nil (option_map (map PendingMedicalVisit.mr_id)
                                (Effect.data (medical_visits_pending q)))) in
  mrMap <-
    (if (0 <? Z.of_nat (length allMrIds))
     then
       let mrs := profiles_in q allMrIds in
       throw_if (Effect.error mrs)
         (fun e => NewError ("Failed to fetch MR data: " +++ pg_message e)) ;;
       ret (Js.Map_of
              (Js.or_nil (option_map
                 (map (fun mr => (MRProfile.id mr, MRProfile.name mr)))
                 (Effect.data mrs))))
     else ret []) ;;
  setPendingApprovals
    (formatPendingApprovals browser mrMap
       (Effect.data (visits_pending q)) (Effect.data (profiles_pending q))
       (Effect.data (doctors_unverified q))
       (Effect.data (medical_visits_pending q))).

Definition fetchPendingApprovals (browser : Browser) (q : PendingQueries)
    : Io State unit :=
  setPendingLoading true ;;
  try_catch_finally
    (fetchPendingApprovals_try browser q)
    (fun error =>
       setError (Some ("Failed to fetch pending approvals: "
                         +++ errorMessage error)))
    (setPendingLoading false).

(** *** [fetchTopMRs]

    [today] is the local midnight of the current day and
    [weeklyStartDate] the same hour seven calendar days before. *)

Definition fetchTopMRs_try (q : MRQueries) (today weeklyStartDate : Z)
    : Io State unit :=
  allTopMRs <- fetchAndProcessMRPerformance q None None ;;
  weeklyTopMRs <-
    fetchAndProcessMRPerformance q (Some weeklyStartDate) (Some today) ;;
  dailyTopMRs <- fetchAndProcessMRPerformance q (Some today) (Some today) ;;
  setAllTopMRsDataCache (Some allTopMRs) ;;
  setWeeklyTopMRsDataCache (Some weeklyTopMRs) ;;
  setDailyTopMRsDataCache (Some dailyTopMRs) ;;
  setTopMRs allTopMRs.

Definition fetchTopMRs (q : MRQueries) (today weeklyStartDate : Z)
    : Io State unit :=
  setTopMRsLoading true ;;
  try_catch_finally
    (fetchTopMRs_try q today weeklyStartDate)
    (fun error =>
       setError (Some ("Failed to fetch top MRs: " +++ errorMessage error)))
    (setTopMRsLoading false).

(** *** [handleApprove], [handleReject] and the bulk actions *)

Definition approval (type : ApprovalType) : Table * Change :=
  match type with
  | Report => (reports, UpdateStatus "approved")
  | Visit => (visits, UpdateStatus "approved")
  | User => (profiles, UpdateStatus "active")
  | Doctor => (doctors, UpdateIsVerified true)
  | MedicalVisit => (medical_visits, UpdateStatus "approved")
  end.

Definition rejection (type : ApprovalType) : Table * Change :=
  match type with
  | Report => (reports, UpdateStatus "rejected")
  | Visit => (visits, UpdateStatus "rejected")
  | User => (profiles, UpdateStatus "inactive")
  | Doctor => (doctors, Delete)
  | MedicalVisit => (medical_visits, UpdateStatus "rejected")
  end.

Definition handleDecision_try (decision : ApprovalType -> Table * Change)
    (browser : Browser) (m : Mutations) (core : CoreQueries)
    (id : string) (type : ApprovalType) : Io State unit :=
  let (table, change) := decision type in
  throw_if (mutate m table change id) Rethrown ;;
  not_awaited (fetchCoreDashboardData browser core).

Definition handleDecision (decision : ApprovalType -> Table * Change)
    (browser : Browser) (m : Mutations) (core : CoreQueries)
    (id : string) (type : ApprovalType) : Io State unit :=
  setLoading true ;;
  setError None ;;
  try_catch
    (handleDecision_try decision browser m core id type)
    (fun error =>
       setError (Some (errorMessage error)) ;;
       setLoading false).

Definition handleApprove := handleDecision approval.
Definition handleReject := handleDecision rejection.

(** [for (const id of selectedItems)]: the loop runs over the selection
    and the queue as they were when the handler was called. *)
Fixpoint forEach {S A : Type} (items : list A) (body : A -> Io S unit)
    : Io S unit :=
  match items with
  | [] => ret tt
  | x :: rest => body x ;; forEach rest body
  end.

Definition handleBulk_try (handleOne : string -> ApprovalType -> Io State unit)
    (selected : list string) (queue : list PendingApproval) : Io State unit :=
  forEach selected
    (fun id =>
       match find (fun approval => String.eqb (pa_id approval) id) queue with
       | Some item => handleOne id (pa_type item)
       | None => ret tt
       end) ;;
  setSelectedItems [] ;;
  setIsSelectionModalOpen false.

Definition handleBulk (handleOne : string -> ApprovalType -> Io State unit)
    : Io State unit :=
  selected <- gets selectedItems ;;
  queue <- gets pendingApprovals ;;
  setLoading true ;;
  setError None ;;
  try_catch_finally
    (handleBulk_try handleOne selected queue)
    (fun error => setError (Some (errorMessage error)))
    (setLoading false).

Definition handleBulkApprove (browser : Browser) (m : Mutations)
    (core : CoreQueries) : Io State unit :=
  handleBulk (handleApprove browser m core).

Definition handleBulkReject (browser : Browser) (m : Mutations)
    (core : CoreQueries) : Io State unit :=
  handleBulk (handleReject browser m core).

(** *** Failures of the core fetch

    The message thrown for the first query that failed, in the order
    the function checks them, and whether a count query is among the
    failed ones. *)

Definition countFailure (q : CoreQueries) : option string :=
  match countError (count_mrs q), countError (count_doctors q),
        countError (count_visits q), countError (count_medicals q) with
  | Some e, _, _, _ => Some ("Failed to fetch MRs count: " +++ pg_message e)
  | None, Some e, _, _ =>
      Some ("Failed to fetch doctors count: " +++ pg_message e)
  | None, None, Some e, _ =>
      Some ("Failed to fetch visits count: " +++ pg_message e)
  | None, None, None, Some e =>
      Some ("Failed to fetch medicals count: " +++ pg_message e)
  | None, None, None, None => None
  end.

Definition trendFailure (q : CoreQueries) : option string :=
  match Effect.error (visits_since q) with
  | Some e => Some ("Failed to fetch visit trend data: " +++ pg_message e)
  | None => None
  end.

Definition coreFailure (q : CoreQueries) : option string :=
  match countFailure q with
  | Some message => Some message
  | None => trendFailure q
  end.

(** The stats a fetch writes once the four counts are there. *)
Definition fetchedStats (q : CoreQueries) : Stats :=
  mkStats (Js.or_zero (count (count_mrs q))) 0
          (Js.or_zero (count (count_doctors q))) 0
          (Js.or_zero (count (count_visits q))) 0
          (Js.or_zero (count (count_medicals q))) 0.

(** The state of the page when it is mounted. *)
Definition initialState : State :=
  mkState (mkStats 0 0 0 0 0 0 0 0) [] [] None None None [] true None []
          false true true true.

(** *** The ranking shown for the selected window

    The effect that follows [filter]: the cache of the selected window,
    or the empty list while it is not fetched. *)

Inductive Filter : Type := weekly | daily | all.

Definition topMRsFor (filter : Filter) (s : State) : list MRPerformance.t :=
  match filter with
  | all => Js.or_nil (allTopMRsDataCache s)
  | weekly => Js.or_nil (weeklyTopMRsDataCache s)
  | daily => Js.or_nil (dailyTopMRsDataCache s)
  end.

(** The bounds [fetchTopMRs] passes for each window. *)
Definition windowOf (filter : Filter) (today weeklyStartDate : Z)
    : option Z * option Z :=
  match filter with
  | all => (None, None)
  | weekly => (Some weeklyStartDate, Some today)
  | daily => (Some today, Some today)
  end.

End AdminDashboard.

(** ** The remote store behind the ranking

    The tables the ranking is computed from, and the answers the store
    gives to the three queries of [fetchAndProcessMRPerformance] when it
    is reachable: [eq], [gte], [lte] and [in] are filters on the rows. *)

Module RemoteStore.

Module Profile.
Record t : Type := mk {
  id : string;
  name : string;
  role : string
}.
End Profile.

Module VisitRow.
Record t : Type := mk {
  id : string;
  mr_id : string;
  status : string;
  date : Z
}.
End VisitRow.

Record Database : Type := mkDatabase {
  profiles : list Profile.t;
  visits : list VisitRow.t;
  visit_orders : list AdminDashboard.OrderRow.t
}.

Definition in_window (startDate endDate : option Z) (date : Z) : bool :=
  match startDate with Some from => from <=? date | None => true end &&
  match endDate with Some to => date <=? to | None => true end.

Definition is_mr (p : Profile.t) : bool := String.eqb (Profile.role p) "mr".

Definition approved_in (startDate endDate : option Z) (v : VisitRow.t) : bool :=
  String.eqb (VisitRow.status v) "approved" &&
  in_window startDate endDate (VisitRow.date v).

Definition mrQueries (db : Database) : AdminDashboard.MRQueries :=
  AdminDashboard.mkMRQueries
    (Effect.ok
       (map (fun p => AdminDashboard.MRProfile.mk (Profile.id p) (Profile.name p))
            (filter is_mr (profiles db))))
    (fun startDate endDate =>
       Effect.ok
         (map (fun v => AdminDashboard.ApprovedVisit.mk (VisitRow.id v)
                          (VisitRow.mr_id v))
              (filter (approved_in startDate endDate) (visits db))))
    (fun visitIds =>
       Effect.ok
         (filter (fun o =>
                    existsb (String.eqb (AdminDashboard.OrderRow.visit_id o))
                            visitIds)
                 (visit_orders db))).

(** The number of approved visits of an MR in a window. *)
Definition approvedVisitCount (db : Database) (startDate endDate : option Z)
    (mr_id : string) : Z :=
  Z.of_nat (length (filter (fun v => approved_in startDate endDate v &&
                                     String.eqb (VisitRow.mr_id v) mr_id)
                           (visits db))).

End RemoteStore.

(** ** Rows of the other screens *)

Module Rows.

(** A row joined from another table: the row, [null], or the error
    object of a nested query that failed ([isNestedQueryError]). *)
Inductive Joined (A : Type) : Type :=
| JNull
| JQueryError
| JRow (a : A).
Arguments JNull {A}.
Arguments JQueryError {A}.
Arguments JRow {A} _.

(** An element of a fetched array that the code checks for being such an
    error object before it reads it. *)
Inductive Fetched (A : Type) : Type :=
| ErrorObject
| Row (a : A).
Arguments ErrorObject {A}.
Arguments Row {A} _.

(** A row of [select('id, name')]. *)
Record NamedRow : Type := mkNamedRow {
  row_id : string;
  row_name : string
}.

(** A non-empty string is truthy. *)
Definition truthy (s : string) : bool :=
  match s with
  | EmptyString => false
  | String _ _ => true
  end.

(** What reading a property of [null] throws. *)
Definition typeError : Effect.Thrown :=
  Effect.NewError "Cannot read properties of null".

(** [field.toLowerCase().includes(searchTerm.toLowerCase())] on a field
    that can be [null]. *)
Definition lowerIncludes (field : option string) (searchTerm : string)
    : Effect.Completion bool :=
  match field with
  | Some text =>
      Effect.Normal (Js.includes (Js.toLowerCase text)
                                 (Js.toLowerCase searchTerm))
  | None => Effect.Abrupt typeError
  end.

(** [a || b] on booleans: [b] is evaluated only when [a] is false. *)
Definition lazy_or (a b : Effect.Completion bool) : Effect.Completion bool :=
  match a with
  | Effect.Normal true => Effect.Normal true
  | Effect.Normal false => b
  | Effect.Abrupt e => Effect.Abrupt e
  end.

(** [Array.prototype.filter] with a callback that can throw: the
    elements are tested in their order, and the call ends at the first
    one on which the callback throws. *)
Fixpoint filter_throwing {A : Type} (callbackFn : A -> Effect.Completion bool)
    (arr : list A) : Effect.Completion (list A) :=
  match arr with
  | [] => Effect.Normal []
  | x :: rest =>
      match callbackFn x with
      | Effect.Abrupt e => Effect.Abrupt e
      | Effect.Normal keep =>
          match filter_throwing callbackFn rest with
          | Effect.Abrupt e => Effect.Abrupt e
          | Effect.Normal kept =>
              Effect.Normal (if keep then x :: kept else kept)
          end
      end
  end.

(** The term occurs in a field that can be [null]. *)
Definition occursIn (field : option string) (searchTerm : string) : bool :=
  match field with
  | Some text => Js.includes text searchTerm
  | None => false
  end.

(** [toast.error(message)]. *)
Definition pushToast (toasts : list string) (message : string) : list string :=
  toasts ++ [message].

Inductive UserRole : Type := admin | mr.

Definition is_admin (role : UserRole) : bool :=
  match role with admin => true | mr => false end.

(** The [eq('mr_id', ...)] filter both report pages put on their query:
    the logged-in MR, or the MR the admin selected. *)
Definition mrFilter (userRole : UserRole) (userId : option string)
    (selectedMr : string) : option string :=
  match userRole, userId with
  | mr, Some id => Some id
  | mr, None => None
  | admin, _ => if String.eqb selectedMr "all" then None else Some selectedMr
  end.

End Rows.

(** ** The doctor lists *)

(** The doctor rows of the two list screens. *)
Module Doctor.
(** Modelled from the spec: the type [Doctor] of [@/types], which is not
    among the sources.  The specification lists the entity as "Doctor
    (verification flag, area, owner)"; the fields are those the two
    list screens read.  The area of a row can be [null]: the reminder
    dialog asks the store for the doctors whose area is [null] or
    empty, and the list of the MR prints [doctor.area || "-"]; it prints
    the address the same way, so the address is nullable here too. *)
Record t : Type := mk {
  id : string;
  name : string;
  specialization : string;
  hospital : string;
  address : option string;
  area : option string;
  is_verified : bool;
  added_by : string
}.
End Doctor.

(** [DoctorsList]: the doctors of the logged-in MR. *)
Module DoctorsList.

(** The callback reads the fields from left to right and stops at the
    first that holds the term; reading [toLowerCase] of a [null] address
    throws, and the throw leaves [filter] and the component. *)
Definition filteredDoctors (doctors : list Doctor.t) (searchTerm : string)
    : Effect.Completion (list Doctor.t) :=
  Rows.filter_throwing
    (fun doctor =>
       Rows.lazy_or
         (Rows.lowerIncludes (Some (Doctor.name doctor)) searchTerm)
      (Rows.lazy_or
         (Rows.lowerIncludes (Some (Doctor.specialization doctor)) searchTerm)
      (Rows.lazy_or
         (Rows.lowerIncludes (Some (Doctor.hospital doctor)) searchTerm)
         (Rows.lowerIncludes (Doctor.address doctor) searchTerm))))
    doctors.

(** The search term occurs, as it is typed, in a searched field. *)
Definition mentions (searchTerm : string) (doctor : Doctor.t) : bool :=
  Js.includes (Doctor.name doctor) searchTerm ||
  Js.includes (Doctor.specialization doctor) searchTerm ||
  Js.includes (Doctor.hospital doctor) searchTerm ||
  Rows.occursIn (Doctor.address doctor) searchTerm.

(** The state [fetchDoctors] writes, and the toasts it raises. *)
Import Effect.

Record State : Type := mkState {
  doctors : list Doctor.t;
  isLoading : bool;
  toasts : list string
}.

Definition setDoctors (v : list Doctor.t) : Io State unit :=
  modify (fun s => mkState v (isLoading s) (toasts s)).

Definition setIsLoading (v : bool) : Io State unit :=
  modify (fun s => mkState (doctors s) v (toasts s)).

Definition setToasts (v : list string) : Io State unit :=
  modify (fun s => mkState (doctors s) (isLoading s) v).

Definition toast_error (message : string) : Io State unit :=
  modify (fun s => mkState (doctors s) (isLoading s)
    (Rows.pushToast (toasts s) message)).

Record Queries : Type := mkQueries {
  auth_user : option string;
  doctors_added_by : string -> Response (list Doctor.t)
}.

Definition fetchDoctors_try (q : Queries) : Io State unit :=
  setIsLoading true ;;
  match auth_user q with
  | None => throw (NewError "You must be logged in to view doctors")
  | Some user_id =>
      let r := doctors_added_by q user_id in
      throw_if (Effect.error r) Rethrown ;;
      setDoctors (Js.or_nil (Effect.data r))
  end.

Definition fetchDoctors (q : Queries) : Io State unit :=
  try_catch_finally
    (fetchDoctors_try q)
    (fun _ => toast_error "Failed to load doctors")
    (setIsLoading false).

End DoctorsList.

(** [DoctorsManagement]: all doctors, for the admin; the search also
    looks at the area. *)
Module DoctorsManagement.

(** As in [DoctorsList], with the area read last: for a doctor whose
    area is [null] and whose other fields do not hold the term,
    [doctor.area.toLowerCase()] throws. *)
Definition filteredDoctors (sortedData : list Doctor.t) (searchTerm : string)
    : Effect.Completion (list Doctor.t) :=
  Rows.filter_throwing
    (fun doctor =>
       Rows.lazy_or
         (Rows.lowerIncludes (Some (Doctor.name doctor)) searchTerm)
      (Rows.lazy_or
         (Rows.lowerIncludes (Some (Doctor.specialization doctor)) searchTerm)
      (Rows.lazy_or
         (Rows.lowerIncludes (Some (Doctor.hospital doctor)) searchTerm)
      (Rows.lazy_or
         (Rows.lowerIncludes (Doctor.address doctor) searchTerm)
         (Rows.lowerIncludes (Doctor.area doctor) searchTerm)))))
    sortedData.

Definition mentions (searchTerm : string) (doctor : Doctor.t) : bool :=
  Js.includes (Doctor.name doctor) searchTerm ||
  Js.includes (Doctor.specialization doctor) searchTerm ||
  Js.includes (Doctor.hospital doctor) searchTerm ||
  Rows.occursIn (Doctor.address doctor) searchTerm ||
  Rows.occursIn (Doctor.area doctor) searchTerm.

Import Effect.

Record State : Type := mkState {
  doctors : list Doctor.t;
  users : Js.Obj string;
  isLoading : bool;
  toasts : list string
}.

Definition setDoctors (v : list Doctor.t) : Io State unit :=
  modify (fun s => mkState v (users s) (isLoading s) (toasts s)).

Definition setUsers (v : Js.Obj string) : Io State unit :=
  modify (fun s => mkState (doctors s) v (isLoading s) (toasts s)).

Definition setIsLoading (v : bool) : Io State unit :=
  modify (fun s => mkState (doctors s) (users s) v (toasts s)).

Definition setToasts (v : list string) : Io State unit :=
  modify (fun s => mkState (doctors s) (users s) (isLoading s) v).

Definition toast_error (message : string) : Io State unit :=
  modify (fun s => mkState (doctors s) (users s) (isLoading s)
    (Rows.pushToast (toasts s) message)).

Record Queries : Type := mkQueries {
  doctors_all : Response (list Doctor.t);
  profiles_all : Response (list Rows.NamedRow)
}.

Definition fetchDoctorsAndUsers_try (q : Queries) : Io State unit :=
  setIsLoading true ;;
  throw_if (Effect.error (doctors_all q)) Rethrown ;;
  setDoctors (Js.or_nil (Effect.data (doctors_all q))) ;;
  throw_if (Effect.error (profiles_all q)) Rethrown ;;
  match Effect.data (profiles_all q) with
  | None => throw Rows.typeError
  | Some usersData =>
      setUsers
        (fold_left
           (fun usersMap user =>
              Js.obj_set usersMap (Rows.row_id user) (Rows.row_name user))
           usersData [])
  end.

Definition fetchDoctorsAndUsers (q : Queries) : Io State unit :=
  try_catch_finally
    (fetchDoctorsAndUsers_try q)
    (fun _ => toast_error "Failed to load data")
    (setIsLoading false).

End DoctorsManagement.

(** ** The medicals screen of the admin *)

Module MedicalsManagement.

Import Effect.

Record Medical : Type := mkMedical {
  id : string;
  name : string;
  address : option string;
  area : option string;
  created_at : option string;
  user_id : string;
  user_name : option string
}.

Record Profile : Type := mkProfile {
  profile_id : string;
  profile_name : option string
}.

Record State : Type := mkState {
  medicals : list Medical;
  userRole : option string;
  isLoading : bool;
  toasts : list string
}.

Definition setMedicals (v : list Medical) : Io State unit :=
  modify (fun s => mkState v (userRole s) (isLoading s) (toasts s)).

Definition setUserRole (v : option string) : Io State unit :=
  modify (fun s => mkState (medicals s) v (isLoading s) (toasts s)).

Definition setIsLoading (v : bool) : Io State unit :=
  modify (fun s => mkState (medicals s) (userRole s) v (toasts s)).

Definition setToasts (v : list string) : Io State unit :=
  modify (fun s => mkState (medicals s) (userRole s) (isLoading s) v).

Definition toast_error (message : string) : Io State unit :=
  modify (fun s => mkState (medicals s) (userRole s) (isLoading s)
    (Rows.pushToast (toasts s) message)).

(** [auth.getUser()] answers [{ data: { user }, error }]; the role query
    answers the [role] of the single profile row, if there is one. *)
Record Queries : Type := mkQueries {
  auth_user : option string;
  auth_error : option PostgrestError;
  profile_role : string -> Response string;
  medicals_all : Response (list Medical);
  profiles_all : Response (list Profile);
  medicals_of_user : string -> Response (list Medical)
}.

Definition withUserName (userMap : Js.Obj (option string)) (medical : Medical)
    : Medical :=
  mkMedical (id medical) (name medical) (address medical) (area medical)
    (created_at medical) (user_id medical)
    (Some (Js.or_else
             (match Js.obj_get userMap (user_id medical) with
              | Some n => n
              | None => None
              end) "N/A")).

Definition fetchMedicals_try (q : Queries) : Io State unit :=
  setIsLoading true ;;
  throw_if (auth_error q) Rethrown ;;
  match auth_user q with
  | None => toast_error "You must be logged in to view medicals"
  | Some user_id' =>
      let profile := profile_role q user_id' in
      throw_if (Effect.error profile) Rethrown ;;
      let role := Effect.data profile in
      setUserRole (match role with
                   | Some (String c r) => Some (String c r)
                   | _ => None
                   end) ;;
      medicalsData <-
        (if match role with
            | Some r => String.eqb r "admin"
            | None => false
            end
         then
           throw_if (Effect.error (medicals_all q)) Rethrown ;;
           throw_if (Effect.error (profiles_all q)) Rethrown ;;
           match Effect.data (profiles_all q), Effect.data (medicals_all q) with
           | Some profilesRes, Some medicalsRes =>
               let userMap :=
                 Js.Map_of (map (fun p => (profile_id p, profile_name p))
                                profilesRes) in
               ret (Some (map (withUserName userMap) medicalsRes))
           | _, _ => throw Rows.typeError
           end
         else
           let r := medicals_of_user q user_id' in
           throw_if (Effect.error r) Rethrown ;;
           ret (Effect.data r)) ;;
      setMedicals (Js.or_nil medicalsData)
  end.

Definition fetchMedicals (q : Queries) : Io State unit :=
  try_catch_finally
    (fetchMedicals_try q)
    (fun _ => toast_error "Failed to load medicals")
    (setIsLoading false).

End MedicalsManagement.

(** ** The visit report page *)

Module ReportPage.

Import Effect Rows.

Record FilterOption : Type := mkFilterOption {
  value : string;
  label : string
}.

Record MedicineOrderSummary : Type := mkMedicineOrderSummary {
  medicineName : string;
  quantity : Z
}.

Record ReportEntry : Type := mkReportEntry {
  id : string;
  mrId : string;
  mrName : string;
  doctorId : string;
  doctor : string;
  date : string;
  status : string;
  medicines : list MedicineOrderSummary;
  uniqueRowId : string
}.

(** The rows of the query of [fetchFilterOptions]. *)
Module FilterOrder.
Record t : Type := mk { medicines : Joined NamedRow }.
End FilterOrder.

Module FilterOptionsVisitData.
Record t : Type := mk {
  doctors : Joined NamedRow;
  visit_orders : option (list (Joined FilterOrder.t))
}.
End FilterOptionsVisitData.

(** The rows of the query of [fetchReports]. *)
Module ReportOrder.
Record t : Type := mk {
  id : string;
  quantity : Z;
  medicines : Joined NamedRow
}.
End ReportOrder.

Module ReportVisitData.
Record t : Type := mk {
  id : string;
  date : string;
  status : string;
  mr_id : string;
  doctors : Joined NamedRow;
  visit_orders : option (list (Joined ReportOrder.t))
}.
End ReportVisitData.

Record State : Type := mkState {
  loading : bool;
  error : option string;
  mrOptions : list FilterOption;
  doctorOptions : list FilterOption;
  medicineOptions : list FilterOption;
  processedData : list ReportEntry
}.

Definition setLoading (v : bool) : Io State unit :=
  modify (fun s => mkState v (error s) (mrOptions s) (doctorOptions s)
    (medicineOptions s) (processedData s)).

Definition setError (v : option string) : Io State unit :=
  modify (fun s => mkState (loading s) v (mrOptions s) (doctorOptions s)
    (medicineOptions s) (processedData s)).

Definition setMrOptions (v : list FilterOption) : Io State unit :=
  modify (fun s => mkState (loading s) (error s) v (doctorOptions s)
    (medicineOptions s) (processedData s)).

Definition setDoctorOptions (v : list FilterOption) : Io State unit :=
  modify (fun s => mkState (loading s) (error s) (mrOptions s) v
    (medicineOptions s) (processedData s)).

Definition setMedicineOptions (v : list FilterOption) : Io State unit :=
  modify (fun s => mkState (loading s) (error s) (mrOptions s)
    (doctorOptions s) v (processedData s)).

Definition setProcessedData (v : list ReportEntry) : Io State unit :=
  modify (fun s => mkState (loading s) (error s) (mrOptions s)
    (doctorOptions s) (medicineOptions s) v).

(** [auth_user_id] is [user?.id] of [auth.getUser()]; [visits_report]
    takes the [mr_id] the query is filtered by, if any. *)
Record Queries : Type := mkQueries {
  profiles_mr : Response (list NamedRow);
  doctors_all : Response (list NamedRow);
  medicines_all : Response (list NamedRow);
  visits_of_mr : string -> Response (list FilterOptionsVisitData.t);
  auth_user_id : option string;
  visits_report : option string -> Response (list (Fetched ReportVisitData.t));
  profiles_in : list string -> Response (list NamedRow)
}.

(** [if (error || !Array.isArray(data)) throw new Error(message)]. *)
Definition expect_array {S A : Type} (r : Response (list A))
    (message : string) : Io S (list A) :=
  match Effect.error r, Effect.data r with
  | None, Some rows => ret rows
  | _, _ => throw (NewError message)
  end.

Definition optionOf (row : NamedRow) : FilterOption :=
  mkFilterOption (row_id row) (row_name row).

(** [map.set(row.id, option)] when the joined row is there with an id
    and a name. *)
Definition noteOption (options : Js.Obj FilterOption)
    (row : Joined NamedRow) : Js.Obj FilterOption :=
  match row with
  | JRow r =>
      if truthy (row_id r) && truthy (row_name r)
      then Js.obj_set options (row_id r) (optionOf r)
      else options
  | _ => options
  end.

Definition collectOptions (visits : list FilterOptionsVisitData.t)
    : Js.Obj FilterOption * Js.Obj FilterOption :=
  fold_left
    (fun maps visit =>
       let doctorMap := noteOption (fst maps) (FilterOptionsVisitData.doctors visit) in
       let medicineMap :=
         fold_left
           (fun medicineMap order =>
              match order with
              | JRow o => noteOption medicineMap (FilterOrder.medicines o)
              | _ => medicineMap
              end)
           (Js.or_nil (FilterOptionsVisitData.visit_orders visit))
           (snd maps) in
       (doctorMap, medicineMap))
    visits ([], []).

Definition fetchFilterOptions_try (userRole : UserRole) (q : Queries)
    (mrId : string) : Io State unit :=
  mrData <- expect_array (profiles_mr q) "Failed to fetch MR options" ;;
  setMrOptions (map optionOf mrData) ;;
  if is_admin userRole && String.eqb mrId "all"
  then
    doctors <- expect_array (doctors_all q) "Failed to fetch doctors" ;;
    medicines <- expect_array (medicines_all q) "Failed to fetch medicines" ;;
    setDoctorOptions (map optionOf doctors) ;;
    setMedicineOptions (map optionOf medicines)
  else
    visits <- expect_array (visits_of_mr q mrId) "Visit fetch failed" ;;
    let maps := collectOptions visits in
    setDoctorOptions (map snd (fst maps)) ;;
    setMedicineOptions (map snd (snd maps)).

(** The [finally] block is empty but for the comment "Leave loading =
    true; let fetchReports clear it". *)
Definition fetchFilterOptions (userRole : UserRole) (q : Queries)
    (mrId : string) : Io State unit :=
  setLoading true ;;
  try_catch_finally
    (fetchFilterOptions_try userRole q mrId)
    (fun err =>
       setError (Some (Js.or_else (Some (messageOf err))
                                  "Failed to load filter options.")) ;;
       setMrOptions [] ;;
       setDoctorOptions [] ;;
       setMedicineOptions [])
    (ret tt).

Definition summarize (orders : list (Joined ReportOrder.t))
    : list MedicineOrderSummary :=
  flat_map
    (fun order =>
       match order with
       | JRow o =>
           match ReportOrder.medicines o with
           | JRow med =>
               if truthy (row_name med)
               then [mkMedicineOrderSummary (row_name med)
                                            (ReportOrder.quantity o)]
               else []
           | _ => []
           end
       | _ => []
       end)
    orders.

Definition entryOf (mrMap : Js.Obj string) (visit : ReportVisitData.t)
    : ReportEntry :=
  let orders := Js.or_nil (ReportVisitData.visit_orders visit) in
  let mrName := Js.or_else (Js.obj_get mrMap (ReportVisitData.mr_id visit)) "N/A" in
  let doctorName :=
    match ReportVisitData.doctors visit with
    | JRow d => row_name d
    | _ => "N/A"
    end in
  let doctorId :=
    match ReportVisitData.doctors visit with
    | JRow d => row_id d
    | _ => EmptyString
    end in
  mkReportEntry (ReportVisitData.id visit) (ReportVisitData.mr_id visit)
    mrName doctorId doctorName (ReportVisitData.date visit)
    (ReportVisitData.status visit) (summarize orders)
    (ReportVisitData.id visit).

Definition fetchReports_try (userRole : UserRole) (selectedMr : string)
    (q : Queries) : Io State unit :=
  userId <-
    (if is_admin userRole then ret None
     else match auth_user_id q with
          | Some (String c r) => ret (Some (String c r))
          | _ => throw (NewError "User not found")
          end) ;;
  let r := visits_report q (mrFilter userRole userId selectedMr) in
  throw_if (Effect.error r) Rethrown ;;
  let visitsData := Js.or_nil (Effect.data r) in
  let mrIds :=
    Js.Set_of
      (filter truthy
         (flat_map (fun visit =>
                      match visit with
                      | Row v => [ReportVisitData.mr_id v]
                      | ErrorObject => []
                      end) visitsData)) in
  let mrProfiles := profiles_in q mrIds in
  throw_if (Effect.error mrProfiles) Rethrown ;;
  let mrMap :=
    Js.Map_of (map (fun profile => (row_id profile, row_name profile))
                   (Js.or_nil (Effect.data mrProfiles))) in
  setProcessedData
    (flat_map (fun visit =>
                 match visit with
                 | Row v => [entryOf mrMap v]
                 | ErrorObject => []
                 end) visitsData).

Definition fetchReports (userRole : UserRole) (selectedMr : string)
    (q : Queries) : Io State unit :=
  setLoading true ;;
  setError None ;;
  try_catch_finally
    (fetchReports_try userRole selectedMr q)
    (fun _ => setError (Some "Failed to fetch reports. Please try again."))
    (setLoading false).

End ReportPage.

(** ** The medical-visit report page *)

Module MedicalVisitsReportPage.

Import Effect Rows.

Record FilterOption : Type := mkFilterOption {
  value : string;
  label : string
}.

Record MedicineOrderSummary : Type := mkMedicineOrderSummary {
  medicineName : string;
  quantity : Z
}.

Record ReportEntry : Type := mkReportEntry {
  id : string;
  visit_date : string;
  notes : option string;
  status : string;
  mrId : string;
  medicalId : string;
  medicalName : string;
  medicines : list MedicineOrderSummary;
  uniqueRowId : string;
  mrName : string
}.

(** [profiles] is the joined profile, [{ name }] or [null]; its [name]
    may be [null] too. *)
Module MedicalVisitData.
Record t : Type := mk {
  id : string;
  visit_date : string;
  notes : option string;
  status : string;
  mr_id : string;
  medical_area_id : string;
  profiles : option (option string)
}.
End MedicalVisitData.

(** [medicines] is the joined medicine's name, if the medicine is
    there. *)
Module MedicalVisitOrderData.
Record t : Type := mk {
  id : string;
  medical_visit_id : string;
  medicine_id : string;
  quantity : Z;
  medicines : option string
}.
End MedicalVisitOrderData.

Record State : Type := mkState {
  loading : bool;
  error : option string;
  processedData : list ReportEntry;
  mrOptions : list FilterOption
}.

Definition setLoading (v : bool) : Io State unit :=
  modify (fun s => mkState v (error s) (processedData s) (mrOptions s)).

Definition setError (v : option string) : Io State unit :=
  modify (fun s => mkState (loading s) v (processedData s) (mrOptions s)).

Definition setProcessedData (v : list ReportEntry) : Io State unit :=
  modify (fun s => mkState (loading s) (error s) v (mrOptions s)).

Definition setMrOptions (v : list FilterOption) : Io State unit :=
  modify (fun s => mkState (loading s) (error s) (processedData s) v).

Record Queries : Type := mkQueries {
  profiles_mr : Response (list NamedRow);
  auth_user_id : option string;
  medical_visits : option string -> Response (list MedicalVisitData.t);
  medical_visit_orders : Response (list MedicalVisitOrderData.t);
  medicals : Response (list NamedRow)
}.

(** This page's [fetchFilterOptions] never touches the loading flag
    ("No need to set loading here, fetchReports handles it"). *)
Definition fetchFilterOptions (q : Queries) : Io State unit :=
  try_catch
    (throw_if (Effect.error (profiles_mr q)) Rethrown ;;
     setMrOptions
       (map (fun mr => mkFilterOption (row_id mr) (row_name mr))
            (Js.or_nil (Effect.data (profiles_mr q)))))
    (fun _ => setMrOptions []).

Definition entryOf (ordersData : list MedicalVisitOrderData.t)
    (medicalsMap : Js.Obj string) (visit : MedicalVisitData.t) : ReportEntry :=
  let relatedOrders :=
    filter (fun order =>
              String.eqb (MedicalVisitOrderData.medical_visit_id order)
                         (MedicalVisitData.id visit))
           ordersData in
  let medicalName :=
    Js.or_else (Js.obj_get medicalsMap (MedicalVisitData.medical_area_id visit))
               "N/A" in
  let mrName :=
    Js.or_else (match MedicalVisitData.profiles visit with
                | Some n => n
                | None => None
                end) "N/A" in
  let medicineSummary :=
    map (fun order =>
           mkMedicineOrderSummary
             (Js.or_else (MedicalVisitOrderData.medicines order) "N/A")
             (MedicalVisitOrderData.quantity order))
        relatedOrders in
  mkReportEntry (MedicalVisitData.id visit) (MedicalVisitData.visit_date visit)
    (MedicalVisitData.notes visit) (MedicalVisitData.status visit)
    (MedicalVisitData.mr_id visit) (MedicalVisitData.medical_area_id visit)
    medicalName medicineSummary (MedicalVisitData.id visit) mrName.

Definition fetchReports_try (userRole : UserRole) (selectedMr : string)
    (q : Queries) : Io State unit :=
  userId <-
    (if is_admin userRole then ret None
     else match auth_user_id q with
          | Some (String c r) => ret (Some (String c r))
          | _ => throw (NewError "MR user not found")
          end) ;;
  let visits := medical_visits q (mrFilter userRole userId selectedMr) in
  throw_if (Effect.error visits) Rethrown ;;
  throw_if (Effect.error (medical_visit_orders q)) Rethrown ;;
  throw_if (Effect.error (medicals q)) Rethrown ;;
  let medicalsMap :=
    Js.Map_of (map (fun medical => (row_id medical, row_name medical))
                   (Js.or_nil (Effect.data (medicals q)))) in
  setProcessedData
    (map (entryOf (Js.or_nil (Effect.data (medical_visit_orders q))) medicalsMap)
         (Js.or_nil (Effect.data visits))).

Definition fetchReports (userRole : UserRole) (selectedMr : string)
    (q : Queries) (showLoading : bool) : Io State unit :=
  (if showLoading then setLoading true else ret tt) ;;
  setError None ;;
  try_catch_finally
    (fetchReports_try userRole selectedMr q)
    (fun err =>
       setError (Some (Js.or_else (Some (messageOf err))
                         "Failed to fetch reports. Please try again.")) ;;
       setProcessedData [])
    (if showLoading then setLoading false else ret tt).

End MedicalVisitsReportPage.

(** ** Sample data for the examples *)

Module Sample.

Import AdminDashboard.

Definition monthOfNumber (n : nat) : option Month :=
  nth_error [Jan; Feb; Mar; Apr; May; Jun; Jul; Aug; Sep; Oct; Nov; Dec]
            (n - 1).

(** A browser in the time zone UTC with the locale [en-US], reading
    dates written [YYYY-MM-DD], whose engine sorts by insertion.  (Where
    a comparator is not consistent, another engine may leave the array
    in another order.) *)
Definition isoMonthYear (date : string) : option (Month * nat) :=
  match Js.parseInt (Some (String.substring 0 4 date)),
        monthOfNumber (Js.parse_digits 0 (String.substring 5 2 date)) with
  | Some year, Some month => Some (month, Z.to_nat year)
  | _, _ => None
  end.

Definition browser : Browser :=
  mkBrowser isoMonthYear formatMonthYear
            (fun date => String.substring 0 10 date)
            Js.sort.

(** The same browser with the locale [en-GB], which prints September
    as "Sept 2024" and the other months as [en-US] does. *)
Definition britishMonthYear (my : Month * nat) : string :=
  match fst my with
  | Sep => "Sept " +++ Js.decimal (snd my)
  | _ => formatMonthYear my
  end.

Definition britishBrowser : Browser :=
  mkBrowser isoMonthYear britishMonthYear
            (fun date => String.substring 0 10 date)
            Js.sort.

Definition visitDates : list VisitData :=
  map mkVisitData ["2024-03-02"; "2024-01-15"; "2023-12-31"; "2024-01-20"].

Definition countOf (n : Z) : Effect.CountResponse :=
  Effect.mkCountResponse (Some n) None.

Definition unreachable : Effect.PostgrestError :=
  Effect.mkPostgrestError "connection refused" false.

(** All five queries of the core fetch answer. *)
Definition coreOk : CoreQueries :=
  mkCoreQueries (countOf 5) (countOf 3) (countOf 7) (countOf 2)
                (Effect.ok visitDates).

(** The trend query answers with a visit of September before one of
    August; the query asks the store for no order of the rows. *)
Definition coreSeptemberFirst : CoreQueries :=
  mkCoreQueries (countOf 5) (countOf 3) (countOf 7) (countOf 2)
                (Effect.ok (map mkVisitData ["2024-09-05"; "2024-08-17"])).

(** The counts answer, the trend query fails. *)
Definition trendFails : CoreQueries :=
  mkCoreQueries (countOf 5) (countOf 3) (countOf 7) (countOf 2)
                (Effect.failed unreachable).

(** The count of the doctors fails. *)
Definition countFails : CoreQueries :=
  mkCoreQueries (countOf 5) (Effect.mkCountResponse None (Some unreachable))
                (countOf 7) (countOf 2) (Effect.ok visitDates).

Definition pendingOk : PendingQueries :=
  mkPendingQueries
    (Effect.ok [PendingVisitData.mk "v1" "2024-03-02" "mr1"
                  (Some (mkDoctorName "Dr. Rao"));
                PendingVisitData.mk "v2" "2024-03-03" "mr2" None])
    (Effect.ok [PendingUser.mk "u1" (Some "Asha") None])
    (Effect.ok [PendingDoctor.mk "d1" "Dr. Kulkarni";
                PendingDoctor.mk "d2" "Dr. Shah";
                PendingDoctor.mk "d3" "Dr. Patil"])
    (Effect.ok [PendingMedicalVisit.mk "m1" "2024-03-01" "mr1"])
    (fun ids => Effect.ok [MRProfile.mk "mr1" "Ravi"]).

Definition twoDoctors : list Doctor.t :=
  [Doctor.mk "d1" "Asha Rao" "Cardiology" "Ruby Hall" (Some "Camp, Pune")
             (Some "Deccan") true "mr1";
   Doctor.mk "d2" "Kiran" "ENT" "Sassoon" (Some "Pune") (Some "Kothrud")
             false "mr1"].

(** A doctor added before the area was asked for. *)
Definition doctorWithoutArea : Doctor.t :=
  Doctor.mk "d3" "Kiran" "ENT" "Sassoon" (Some "Pune") None false "mr1".

(** No query of the visit report page gets through. *)
Definition reportDown : ReportPage.Queries :=
  ReportPage.mkQueries
    (Effect.failed unreachable) (Effect.failed unreachable)
    (Effect.failed unreachable) (fun _ => Effect.failed unreachable)
    None (fun _ => Effect.failed unreachable)
    (fun _ => Effect.failed unreachable).

(** The visit report page when it is mounted. *)
Definition reportInitial : ReportPage.State :=
  ReportPage.mkState false None [] [] [] [].

(** Three MRs, one admin and five visits; days are counted from the
    first visit. *)
Definition database : RemoteStore.Database :=
  RemoteStore.mkDatabase
    [RemoteStore.Profile.mk "mr1" "Ravi" "mr";
     RemoteStore.Profile.mk "mr2" "Meera" "mr";
     RemoteStore.Profile.mk "mr3" "Sunil" "mr";
     RemoteStore.Profile.mk "a1" "Admin" "admin"]
    [RemoteStore.VisitRow.mk "v1" "mr1" "approved" 0;
     RemoteStore.VisitRow.mk "v2" "mr2" "approved" 86400000;
     RemoteStore.VisitRow.mk "v3" "mr2" "approved" 172800000;
     RemoteStore.VisitRow.mk "v4" "mr3" "pending" 172800000;
     RemoteStore.VisitRow.mk "v5" "a1" "approved" 172800000]
    [OrderRow.mk "v2" 4; OrderRow.mk "v1" 1; OrderRow.mk "v2" 6].

Definition mutationsFail : Mutations :=
  mkMutations (fun _ _ _ => Some unreachable).

End Sample.

(** ** The sortable-table hook

    The hook [useSortableTable] of [@/hooks/useSortableTable] is
    imported by [DoctorsList], [DoctorsManagement], [MedicalsManagement]
    and both report pages, but its source file is not among the
    sources; only these callers are.  Its definitions below follow the
    contract the specification gives for it. *)

Module SortableTable.

Inductive SortDirection : Type := asc | desc.

Definition toggle (d : SortDirection) : SortDirection :=
  match d with asc => desc | desc => asc end.

Section Hook.

(** Records [T], column keys [K] compared with [===], the value a record
    holds in a column, and the comparison of two such values (negative,
    zero or positive, as a [compareFn]; "unsupported column types
    degrade to string comparison").  The specification does not say
    which direction a column gets when it is selected for the first
    time; that direction is [newColumnDirection]. *)
Variables T K V : Type.
Variable K_eqb : K -> K -> bool.
Variable field : T -> K -> V.
Variable compareValues : V -> V -> Z.
Variable newColumnDirection : SortDirection.

(** Modelled from the spec: the state of the missing hook, the sort
    column and the direction it exposes to the callers as [sortColumn]
    and [sortDirection]. *)
Record SortState : Type := mkSortState {
  sortColumn : K;
  sortDirection : SortDirection
}.

(** Modelled from the spec: the missing hook at its creation,
    "defaulting to a configured column/direction". *)
Definition useSortableTable (defaultSortColumn : K)
    (defaultSortDirection : SortDirection) : SortState :=
  mkSortState defaultSortColumn defaultSortDirection.

(** Modelled from the spec: [handleSort] of the missing hook, "toggling
    direction on repeated selection of the same column"; another column
    becomes the sort column. *)
Definition handleSort (column : K) (st : SortState) : SortState :=
  if K_eqb (sortColumn st) column
  then mkSortState (sortColumn st) (toggle (sortDirection st))
  else mkSortState column newColumnDirection.

(** Modelled from the spec: the comparator of the missing hook, by "that
    column's value", "ascending or descending". *)
Definition compareRows (column : K) (direction : SortDirection)
    (a b : T) : Z :=
  match direction with
  | asc => compareValues (field a column) (field b column)
  | desc => compareValues (field b column) (field a column)
  end.

(** Modelled from the spec: the sorting of the missing hook, "given an
    array of records and a column key, returns a new array sorted
    ascending or descending by that column's value", "a stably sorted"
    view in which "ties are not explicitly broken (stability depends on
    the underlying sort's stability)". *)
Definition sortRows (column : K) (direction : SortDirection)
    (data : list T) : list T :=
  Js.sort (compareRows column direction) data.

(** Modelled from the spec: [sortedData] of the missing hook, the data
    sorted by the current column in the current direction. *)
Definition sortedData (data : list T) (st : SortState) : list T :=
  sortRows (sortColumn st) (sortDirection st) data.

(** What "sorted in ascending order on a column" means. *)
Definition ascending_on (column : K) (rows : list T) : Prop :=
  Sorted (fun a b => compareValues (field a column) (field b column) <= 0) rows.

End Hook.

Arguments sortColumn {K} _.
Arguments sortDirection {K} _.
Arguments useSortableTable {K} _ _.
Arguments handleSort {K} _ _ _ _.
Arguments compareRows {T K V} _ _ _ _ _ _.
Arguments sortRows {T K V} _ _ _ _ _.
Arguments sortedData {T K V} _ _ _ _.
Arguments ascending_on {T K V} _ _ _ _.

(** A concrete table used in examples: rows give a number for every
    column name, numbers compare by subtraction. *)
Definition NumRow : Type := string -> Z.
Definition numField (r : NumRow) (column : string) : Z := r column.
Definition compareNumbers (a b : Z) : Z := a - b.

(** A row of that table with a [date] column holding [d]. *)
Definition datedRow (d : Z) : NumRow :=
  fun column => if String.eqb column "date" then d else 0.

End SortableTable.

(** ** More of the built-ins *)

Module JsText.

(** [parseInt(string)] without a radix: leading white space is skipped,
    a sign is read, a [0x] prefix selects base 16, and the digits that
    follow are read as far as they go; [None] (NaN) when there is no
    digit.  Numbers are exact integers here; a numeral too long for a
    double is rounded by the built-in. *)
Fixpoint skip_white_space (s : string) : string :=
  match s with
  | String c rest => if Js.is_white_space c then skip_white_space rest else s
  | EmptyString => s
  end.

Definition hex_value (c : ascii) : option nat :=
  let n := nat_of_ascii c in
  if ((48 <=? n) && (n <=? 57))%nat then Some (n - 48)%nat
  else if ((65 <=? n) && (n <=? 70))%nat then Some (n - 55)%nat
  else if ((97 <=? n) && (n <=? 102))%nat then Some (n - 87)%nat
  else None.

(** The value of the leading digits of [s] in the given base, and
    whether there was one. *)
Fixpoint read_digits (digit : ascii -> option nat) (base : nat)
    (acc : nat) (seen : bool) (s : string) : option nat :=
  match s with
  | String c rest =>
      match digit c with
      | Some d => read_digits digit base (base * acc + d)%nat true rest
      | None => if seen then Some acc else None
      end
  | EmptyString => if seen then Some acc else None
  end.

Definition read_unsigned (s : string) : option nat :=
  match s with
  | String "0" (String "x" rest) => read_digits hex_value 16 0 false rest
  | String "0" (String "X" rest) => read_digits hex_value 16 0 false rest
  | _ => read_digits Js.digit_value 10 0 false s
  end.

Definition parseInt (s : string) : option Z :=
  match skip_white_space s with
  | String "-" rest => option_map (fun n => - Z.of_nat n) (read_unsigned rest)
  | String "+" rest => option_map Z.of_nat (read_unsigned rest)
  | rest => option_map Z.of_nat (read_unsigned rest)
  end.

(** A number used as a condition: NaN and 0 are falsy. *)
Definition truthy_number (n : option Z) : bool :=
  match n with
  | Some v => negb (v =? 0)
  | None => false
  end.

End JsText.

(** ** The pager of the list screens

    The previous and next buttons of every list screen, and the page
    links and the page dialog of the two report pages. *)

Module Pager.

Record State : Type := mkState {
  currentPage : Z;
  itemsPerPage : Z;
  total : Z;
  isPageDialogOpen : bool;
  pageInputValue : string
}.

(** [Math.ceil(total / itemsPerPage)] of the state. *)
Definition totalPages (s : State) : Z :=
  Pagination.totalPages (total s) (itemsPerPage s).

Definition setCurrentPage (page : Z) (s : State) : State :=
  mkState page (itemsPerPage s) (total s) (isPageDialogOpen s)
          (pageInputValue s).

(** [if (currentPage > 1) setCurrentPage(currentPage - 1)]. *)
Definition previous (s : State) : State :=
  if 1 <? currentPage s then setCurrentPage (currentPage s - 1) s else s.

(** [if (currentPage < totalPages) setCurrentPage(currentPage + 1)]. *)
Definition next (s : State) : State :=
  if currentPage s <? totalPages s then setCurrentPage (currentPage s + 1) s
  else s.

Definition openPageDialog (s : State) : State :=
  mkState (currentPage s) (itemsPerPage s) (total s) true EmptyString.

Definition handlePageNavigation (s : State) : State :=
  let totalPages := totalPages s in
  let pageNumber := JsText.parseInt (pageInputValue s) in
  match pageNumber with
  | Some page =>
      if JsText.truthy_number pageNumber && (1 <=? page) && (page <=? totalPages)
      then mkState page (itemsPerPage s) (total s) false EmptyString
      else s
  | None => s
  end.

(** The page-size select of [DoctorsList], [DoctorsManagement] and the
    medical-visit report page goes back to the first page; the one of
    the visit report page keeps the page. *)
Definition changeItemsPerPage (value : Z) (s : State) : State :=
  mkState 1 value (total s) (isPageDialogOpen s) (pageInputValue s).

Definition changeItemsPerPage_keepingPage (value : Z) (s : State) : State :=
  mkState (currentPage s) value (total s) (isPageDialogOpen s)
          (pageInputValue s).

(** What the pager of the report pages shows between the two buttons. *)
Inductive Item : Type :=
| PageLink (page : Z) (isActive : bool)
| Ellipsis.

(** [for (let i = from; i <= to; i++)]. *)
Definition range (from to : Z) : list Z :=
  map (fun i => from + Z.of_nat i) (seq 0 (Z.to_nat (to - from + 1))).

Definition items (totalPages currentPage : Z) : list Item :=
  let link := fun i => PageLink i (currentPage =? i) in
  if totalPages <=? 5 then map link (range 1 totalPages)
  else
    let startPage := Z.max 1 (currentPage - 1) in
    let endPage := Z.min totalPages (currentPage + 1) in
    let startPage := if currentPage <=? 2 then 1 else startPage in
    let endPage := if currentPage <=? 2 then 3 else endPage in
    let startPage :=
      if totalPages - 1 <=? currentPage then totalPages - 2 else startPage in
    let endPage :=
      if totalPages - 1 <=? currentPage then totalPages else endPage in
    (if 1 <? startPage
     then link 1 :: (if 2 <? startPage then [Ellipsis] else [])
     else [])
    ++ map link (range startPage endPage)
    ++ (if endPage <? totalPages
        then (if endPage <? totalPages - 1 then [Ellipsis] else [])
             ++ [link totalPages]
        else []).

(** The pages the links lead to, and the pages shown as active. *)
Definition linkedPages (l : list Item) : list Z :=
  flat_map (fun item => match item with
                        | PageLink page _ => [page]
                        | Ellipsis => []
                        end) l.

Definition activePages (l : list Item) : list Z :=
  flat_map (fun item => match item with
                        | PageLink page true => [page]
                        | _ => []
                        end) l.

(** The page of a state lies among the pages there are. *)
Definition inRange (s : State) : Prop :=
  1 <= currentPage s <= Z.max 1 (totalPages s).

(** The rows the screen shows for a state of the pager. *)
Definition shown {A : Type} (data : list A) (s : State) : list A :=
  Pagination.paginatedData data (currentPage s) (itemsPerPage s).

End Pager.

(** ** The selection of pending approvals

    The checkboxes of the selection dialog of [AdminDashboard].  The
    selection is a [Set] of ids, kept as the list of its elements in the
    order they were added. *)

Module DashboardSelection.

Import Effect AdminDashboard.

Inductive SelectionFilter : Type := all | doctors | visits | medical.

(** The callback of [pendingApprovals.filter] in the dialog and in
    [handleSelectAll]. *)
Definition shownUnder (selectionFilter : SelectionFilter)
    (item : PendingApproval) : bool :=
  match selectionFilter with
  | all => true
  | doctors => match pa_type item with Doctor => true | _ => false end
  | visits => match pa_type item with Visit => true | _ => false end
  | medical => match pa_type item with MedicalVisit => true | _ => false end
  end.

Definition Set_has (s : list string) (x : string) : bool :=
  existsb (String.eqb x) s.

Definition Set_delete (s : list string) (x : string) : list string :=
  filter (fun y => negb (String.eqb x y)) s.

Definition handleSelectAll (selectionFilter : SelectionFilter)
    : Io State unit :=
  queue <- gets pendingApprovals ;;
  selected <- gets selectedItems ;;
  let filteredItems := filter (shownUnder selectionFilter) queue in
  let newSelectedItems :=
    fold_left (fun set item => Js.Set_add set (pa_id item))
              filteredItems selected in
  setSelectedItems newSelectedItems.

Definition handleDeselectAll : Io State unit := setSelectedItems [].

Definition handleItemSelect (id : string) : Io State unit :=
  selected <- gets selectedItems ;;
  setSelectedItems
    (if Set_has selected id then Set_delete selected id
     else Js.Set_add selected id).

End DashboardSelection.

(** ** Totals over the remote store *)

Module Totals.

Import RemoteStore.

Definition Zsum (l : list Z) : Z := fold_right Z.add 0 l.

(** The quantities ordered in a visit. *)
Definition quantitiesOf (db : Database) (visit_id : string) : list Z :=
  map AdminDashboard.OrderRow.quantity
      (filter (fun o => String.eqb (AdminDashboard.OrderRow.visit_id o) visit_id)
              (visit_orders db)).

(** The quantity ordered in all approved visits of an MR in a window. *)
Definition orderTotal (db : Database) (startDate endDate : option Z)
    (mr_id : string) : Z :=
  Zsum (map (fun v => Zsum (quantitiesOf db (VisitRow.id v)))
            (filter (fun v => approved_in startDate endDate v &&
                              String.eqb (VisitRow.mr_id v) mr_id)
                    (visits db))).

End Totals.

(** ** The layout shell

    [fetchUser] of [AppLayoutContent]: it resolves the session and the
    profile of the user, lets the user in or sends the browser to the
    login page, and moves a user who stands on the pages of the other
    role to the dashboard of the own role. *)

Module AppLayout.

Import Effect.

(** A row of [profiles]. *)
Module Profile.
Record t : Type := mk {
  id : string;
  name : string;
  role : string;
  status : string
}.
End Profile.

(** The user context, and the location of the router with the calls of
    [navigate] so far. *)
Record State : Type := mkState {
  user : option Profile.t;
  isLoading : bool;
  pathname : string;
  navigations : list string
}.

Definition setUser (profile : Profile.t) : Io State unit :=
  modify (fun s => mkState (Some profile) (isLoading s) (pathname s)
                           (navigations s)).

Definition setIsLoading (v : bool) : Io State unit :=
  modify (fun s => mkState (user s) v (pathname s) (navigations s)).

Definition navigate (to : string) : Io State unit :=
  modify (fun s => mkState (user s) (isLoading s) to (navigations s ++ [to])).

(** [auth.getSession()] answers with the id of the session's user, or
    with no session, or with an error; the query for the profile is
    [single()].  Either call can also reject. *)
Record SessionResponse : Type := mkSessionResponse {
  session : option string;
  sessionError : option PostgrestError
}.

Record Queries : Type := mkQueries {
  getSession : Completion SessionResponse;
  profile_of : string -> Completion (Response Profile.t)
}.

Definition await {S A : Type} (answer : Completion A) : Io S A :=
  fun s => (answer, s).

(** [if (mounted) { navigate("/"); setIsLoading(false); } return;] *)
Definition leave (mounted : bool) : Io State unit :=
  if mounted then navigate "/" ;; setIsLoading false else ret tt.

(** [mounted] is the flag of the effect at the time the answers have
    arrived: the cleanup of the effect clears it. *)
Definition fetchUser_try (mounted : bool) (q : Queries) : Io State unit :=
  answer <- await (getSession q) ;;
  match sessionError answer, session answer with
  | Some _, _ => leave mounted
  | None, None => leave mounted
  | None, Some user_id =>
      profile <- await (profile_of q user_id) ;;
      match Effect.error profile, Effect.data profile with
      | None, Some profile =>
          if String.eqb (Profile.status profile) "pending" then leave mounted
          else if mounted then
            setUser profile ;;
            setIsLoading false ;;
            pathname <- gets pathname ;;
            if String.eqb (Profile.role profile) "admin" &&
               Js.starts_with "/mr" pathname
            then navigate "/admin/dashboard"
            else if String.eqb (Profile.role profile) "mr" &&
                    Js.starts_with "/admin" pathname
            then navigate "/mr/dashboard"
            else ret tt
          else ret tt
      | _, _ => leave mounted
      end
  end.

Definition fetchUser (mounted : bool) (q : Queries) : Io State unit :=
  try_catch (fetchUser_try mounted q) (fun _ => leave mounted).

(** The profile [fetchUser] lets in, if any: the session and the
    profile are there, without an error, and the account is not pending. *)
Definition accepted (q : Queries) : option Profile.t :=
  match getSession q with
  | Normal answer =>
      match sessionError answer, session answer with
      | None, Some user_id =>
          match profile_of q user_id with
          | Normal profile =>
              match Effect.error profile, Effect.data profile with
              | None, Some profile =>
                  if String.eqb (Profile.status profile) "pending" then None
                  else Some profile
              | _, _ => None
              end
          | Abrupt _ => None
          end
      | _, _ => None
      end
  | Abrupt _ => None
  end.

(** The pages of a role: where a user of the role is left alone. *)
Definition atHome (role : string) (pathname : string) : bool :=
  negb (String.eqb role "admin" && Js.starts_with "/mr" pathname) &&
  negb (String.eqb role "mr" && Js.starts_with "/admin" pathname).

End AppLayout.

(** ** The reminder for doctors without an area

    [AreaReminderDialog]: shown to an MR who has doctors without an
    area, unless the reminder was put off less than a day ago. *)

Module AreaReminderDialog.

Import Effect.

(** [new Date(ms).toISOString()] and [new Date(text).getTime()], [None]
    for NaN. *)
Record Clock : Type := mkClock {
  toISOString : Z -> string;
  getTime : string -> option Z
}.

(** The instant [t] is printed by [toISOString] as a string that is not
    empty and that is read back as [t]. *)
Definition readsBack (clock : Clock) (t : Z) : Prop :=
  toISOString clock t <> EmptyString /\
  getTime clock (toISOString clock t) = Some t.

Definition day : Z := 24 * 60 * 60 * 1000.

Record State : Type := mkState {
  isOpen : bool;
  doctorsWithoutArea : list Doctor.t;
  isEditAreaDialogOpen : bool;
  editingDoctor : option Doctor.t;
  isSubmitting : bool;
  localStorage : Js.Obj string;
  toasts : list string;
  navigations : list string;
  editRequests : list Doctor.t
}.

Definition setIsOpen (v : bool) : Io State unit :=
  modify (fun s => mkState v (doctorsWithoutArea s) (isEditAreaDialogOpen s)
    (editingDoctor s) (isSubmitting s) (localStorage s) (toasts s)
    (navigations s) (editRequests s)).

Definition setDoctorsWithoutArea (v : list Doctor.t) : Io State unit :=
  modify (fun s => mkState (isOpen s) v (isEditAreaDialogOpen s)
    (editingDoctor s) (isSubmitting s) (localStorage s) (toasts s)
    (navigations s) (editRequests s)).

Definition setIsEditAreaDialogOpen (v : bool) : Io State unit :=
  modify (fun s => mkState (isOpen s) (doctorsWithoutArea s) v
    (editingDoctor s) (isSubmitting s) (localStorage s) (toasts s)
    (navigations s) (editRequests s)).

Definition setEditingDoctor (v : option Doctor.t) : Io State unit :=
  modify (fun s => mkState (isOpen s) (doctorsWithoutArea s)
    (isEditAreaDialogOpen s) v (isSubmitting s) (localStorage s) (toasts s)
    (navigations s) (editRequests s)).

Definition setIsSubmitting (v : bool) : Io State unit :=
  modify (fun s => mkState (isOpen s) (doctorsWithoutArea s)
    (isEditAreaDialogOpen s) (editingDoctor s) v (localStorage s) (toasts s)
    (navigations s) (editRequests s)).

(** [localStorage.setItem(key, value)]. *)
Definition setItem (key value : string) : Io State unit :=
  modify (fun s => mkState (isOpen s) (doctorsWithoutArea s)
    (isEditAreaDialogOpen s) (editingDoctor s) (isSubmitting s)
    (Js.obj_set (localStorage s) key value) (toasts s) (navigations s)
    (editRequests s)).

Definition toast (message : string) : Io State unit :=
  modify (fun s => mkState (isOpen s) (doctorsWithoutArea s)
    (isEditAreaDialogOpen s) (editingDoctor s) (isSubmitting s)
    (localStorage s) (Rows.pushToast (toasts s) message) (navigations s)
    (editRequests s)).

Definition navigate (to : string) : Io State unit :=
  modify (fun s => mkState (isOpen s) (doctorsWithoutArea s)
    (isEditAreaDialogOpen s) (editingDoctor s) (isSubmitting s)
    (localStorage s) (toasts s) (navigations s ++ [to]) (editRequests s)).

(** The callback [onEditDoctor] of the parent. *)
Definition onEditDoctor (doctor : Doctor.t) : Io State unit :=
  modify (fun s => mkState (isOpen s) (doctorsWithoutArea s)
    (isEditAreaDialogOpen s) (editingDoctor s) (isSubmitting s)
    (localStorage s) (toasts s) (navigations s) (editRequests s ++ [doctor])).

(** [auth.getUser()] answers with the id of the user, if there is one;
    the second query asks for the doctors the user added whose area is
    [null] or empty; the third writes the area of a doctor. *)
Record Queries : Type := mkQueries {
  getUser : Completion (option string);
  doctors_without_area : string -> Response (list Doctor.t);
  update_area : string -> option string -> option PostgrestError
}.

Definition await {S A : Type} (answer : Completion A) : Io S A :=
  fun s => (answer, s).

(** The reminder was put off less than a day before [now]. *)
Definition dismissedRecently (clock : Clock) (now : Z)
    (lastDismissed : option string) : bool :=
  match lastDismissed with
  | Some (String c rest) =>
      match getTime clock (String c rest) with
      | Some lastDismissedTime => now - lastDismissedTime <? day
      | None => false
      end
  | _ => false
  end.

Definition checkDoctorsWithoutArea_try (clock : Clock) (now : Z)
    (q : Queries) : Io State unit :=
  user <- await (getUser q) ;;
  match user with
  | None => ret tt
  | Some user_id =>
      lastDismissed <-
        gets (fun s => Js.obj_get (localStorage s) "areaReminderDismissed") ;;
      if dismissedRecently clock now lastDismissed then ret tt
      else
        let doctors := doctors_without_area q user_id in
        throw_if (Effect.error doctors) Rethrown ;;
        match Effect.data doctors with
        | Some (doctor :: rest) =>
            setDoctorsWithoutArea (doctor :: rest) ;;
            setIsOpen true
        | _ => ret tt
        end
  end.

Definition checkDoctorsWithoutArea (clock : Clock) (now : Z) (q : Queries)
    : Io State unit :=
  try_catch (checkDoctorsWithoutArea_try clock now q) (fun _ => ret tt).

Definition handleUpdateAreas : Io State unit :=
  setIsOpen false ;;
  navigate "/mr/doctors" ;;
  doctors <- gets doctorsWithoutArea ;;
  match doctors with
  | doctor :: _ => onEditDoctor doctor
  | [] => ret tt
  end.

Definition handleRemindLater (clock : Clock) (now : Z) : Io State unit :=
  setItem "areaReminderDismissed" (toISOString clock now) ;;
  setIsOpen false.

(** The handler reads [doctorsWithoutArea] and [editingDoctor] as they
    were when it was called. *)
Definition handleUpdateArea_try (q : Queries) (doctorsWithoutArea : list Doctor.t)
    (editingDoctor : Doctor.t) : Io State unit :=
  setIsSubmitting true ;;
  throw_if (update_area q (Doctor.id editingDoctor) (Doctor.area editingDoctor))
           Rethrown ;;
  setDoctorsWithoutArea
    (filter (fun doc => negb (String.eqb (Doctor.id doc) (Doctor.id editingDoctor)))
            doctorsWithoutArea) ;;
  toast "Area updated successfully" ;;
  setIsEditAreaDialogOpen false ;;
  setEditingDoctor None ;;
  if (Z.of_nat (length doctorsWithoutArea) =? 1) then setIsOpen false
  else setIsOpen true.

Definition handleUpdateArea (q : Queries) : Io State unit :=
  doctors <- gets doctorsWithoutArea ;;
  editing <- gets editingDoctor ;;
  match editing with
  | None => ret tt
  | Some editingDoctor =>
      try_catch_finally
        (handleUpdateArea_try q doctors editingDoctor)
        (fun _ => toast "Failed to update area")
        (setIsSubmitting false)
  end.

(** The click on a doctor of the list, and the choice of an area. *)
Definition selectDoctor (doctor : Doctor.t) : Io State unit :=
  setEditingDoctor (Some doctor) ;;
  setIsEditAreaDialogOpen true ;;
  setIsOpen false.

Definition selectArea (area : string) : Io State unit :=
  editing <- gets editingDoctor ;;
  match editing with
  | Some d =>
      setEditingDoctor
        (Some (Doctor.mk (Doctor.id d) (Doctor.name d) (Doctor.specialization d)
                 (Doctor.hospital d) (Doctor.address d) (Some area)
                 (Doctor.is_verified d) (Doctor.added_by d)))
  | None => ret tt
  end.

End AreaReminderDialog.

(** ** The search of the medicals *)

Module MedicalSearch.

Import MedicalsManagement.

(** [field && field.toLowerCase().includes(searchTerm.toLowerCase())]:
    [null] and the empty string are falsy. *)
Definition holds (field : option string) (searchTerm : string) : bool :=
  match field with
  | Some (String c rest) =>
      Js.includes (Js.toLowerCase (String c rest)) (Js.toLowerCase searchTerm)
  | _ => false
  end.

Definition sortedAndFilteredMedicals (sortedData : list Medical)
    (searchTerm : string) : list Medical :=
  filter
    (fun medical =>
       Js.includes (Js.toLowerCase (name medical)) (Js.toLowerCase searchTerm) ||
       holds (address medical) searchTerm ||
       holds (area medical) searchTerm)
    sortedData.

End MedicalSearch.

(** ** Verifying and deleting a doctor

    [handleVerify] and [handleDelete] of [DoctorsManagement]. *)

Module DoctorActions.

Import Effect DoctorsManagement.

(** The two writes, by the id of the doctor. *)
Record Writes : Type := mkWrites {
  update_is_verified : string -> option PostgrestError;
  delete_doctor : string -> option PostgrestError
}.

Definition toast_success (message : string) : Io State unit :=
  modify (fun s => mkState (doctors s) (users s) (isLoading s)
    (Rows.pushToast (toasts s) message)).

(** [error instanceof Error ? error.message : fallback]. *)
Definition messageOr (fallback : string) (error : Thrown) : string :=
  match error with
  | NewError message => message
  | Rethrown e => if pg_instanceofError e then pg_message e else fallback
  end.

(** [{ ...doctor, is_verified: true }]. *)
Definition verified (doctor : Doctor.t) : Doctor.t :=
  Doctor.mk (Doctor.id doctor) (Doctor.name doctor)
    (Doctor.specialization doctor) (Doctor.hospital doctor)
    (Doctor.address doctor) (Doctor.area doctor) true (Doctor.added_by doctor).

Definition handleVerify (w : Writes) (id : string) : Io State unit :=
  doctors <- gets doctors ;;
  try_catch
    (throw_if (update_is_verified w id) Rethrown ;;
     setDoctors
       (map (fun doctor =>
               if String.eqb (Doctor.id doctor) id then verified doctor
               else doctor)
            doctors) ;;
     toast_success "Doctor verified successfully")
    (fun error => toast_error (messageOr "Failed to verify doctor" error)).

Definition handleDelete (w : Writes) (id : string) : Io State unit :=
  doctors <- gets doctors ;;
  try_catch
    (throw_if (delete_doctor w id) Rethrown ;;
     setDoctors
       (filter (fun doctor => negb (String.eqb (Doctor.id doctor) id)) doctors) ;;
     toast_success "Doctor deleted successfully")
    (fun error => toast_error (messageOr "Failed to delete doctor" error)).

End DoctorActions.

(** ** Routes and the navigation bar *)

Module App.

(** The routes of [App] that are wrapped by [AppLayout]. *)
Definition protectedRoutes : list string :=
  ["/profile-settings";
   "/admin/dashboard"; "/admin/users"; "/admin/doctors"; "/admin/medicines";
   "/admin/reports"; "/admin/settings"; "/admin/medicals";
   "/admin/medical-reports";
   "/mr/dashboard"; "/mr/visits/new"; "/mr/doctors"; "/mr/visits";
   "/mr/reports"; "/mr/medicals"; "/mr/medical-reports";
   "/mr/medical-visits/new"; "/mr/area"].

(** The path of a target, without its query string. *)
Definition pathOf (target : string) : string :=
  match Js.split "?" target with
  | path :: _ => path
  | [] => EmptyString
  end.

End App.

Module MobileNavigation.

Record NavItem : Type := mkNavItem {
  title : string;
  href : string
}.

Definition adminNavItems : list NavItem :=
  [mkNavItem "Dashboard" "/admin/dashboard";
   mkNavItem "Users" "/admin/users";
   mkNavItem "Doctors" "/admin/doctors";
   mkNavItem "Medicines" "/admin/medicines";
   mkNavItem "Reports" "/admin/reports"].

Definition mrNavItems : list NavItem :=
  [mkNavItem "Dashboard" "/mr/dashboard";
   mkNavItem "Doctors" "/mr/doctors";
   mkNavItem "Visits" "/mr/visits";
   mkNavItem "Area" "/mr/area";
   mkNavItem "Reports" "/mr/reports"].

(** [user?.role === 'mr' && user?.status === 'inactive']. *)
Definition isInactiveMr (user : option AppLayout.Profile.t) : bool :=
  match user with
  | Some profile =>
      String.eqb (AppLayout.Profile.role profile) "mr" &&
      String.eqb (AppLayout.Profile.status profile) "inactive"
  | None => false
  end.

(** The targets the bar can send the browser to, in the order in which
    it renders them: the links, and the entries of the dropdown menus. *)
Definition targets (userRole : string) (user : option AppLayout.Profile.t)
    : list string :=
  let navItems :=
    if String.eqb userRole "admin" then adminNavItems else mrNavItems in
  flat_map
    (fun item =>
       if String.eqb (title item) "Reports" && String.eqb userRole "admin"
       then ["/admin/reports?type=mr-medical"; "/admin/reports?type=doctors"]
       else if String.eqb (title item) "Reports" && String.eqb userRole "mr"
       then ["/mr/reports"; "/mr/medical-reports"]
       else if String.eqb (title item) "Dashboard" && String.eqb userRole "mr"
               && negb (isInactiveMr user)
       then [href item; "/mr/visits/new"; "/mr/medical-visits/new"]
       else [href item])
    navItems.

End MobileNavigation.

(** ** Adding a doctor

    [handleAddDoctor] of [DoctorsList] (the MR) and of
    [DoctorsManagement] (the admin). *)

Module AddDoctor.

Import Effect.

(** The form [newDoctor].  The form of the MR has no [email]. *)
Record NewDoctor : Type := mkNewDoctor {
  name : string;
  specialty : string;
  hospital : string;
  city : string;
  address : string;
  email : option string;
  phone : string;
  area : string
}.

(** The row handed to [insert].  The row of the MR has no key [email];
    [email] and [phone] are [null] when the form leaves them empty. *)
Record Insert : Type := mkInsert {
  ins_name : string;
  ins_specialization : string;
  ins_hospital : string;
  ins_address : string;
  ins_email : option (option string);
  ins_phone : option string;
  ins_added_by : string;
  ins_is_verified : bool;
  ins_area : string
}.

(** The state the handler touches; [inserts] are the rows sent to the
    store so far. *)
Record State : Type := mkState {
  doctors : list Doctor.t;
  newDoctor : NewDoctor;
  isSubmitting : bool;
  isAddDoctorDialogOpen : bool;
  toasts : list string;
  inserts : list Insert
}.

(** [auth.getUser()] answers with the id of the user, if there is one;
    [insert(row).select()] answers with the stored rows or an error. *)
Record Store : Type := mkStore {
  getUser : Completion (option string);
  insert : Insert -> Response (list Doctor.t)
}.

Definition await {A : Type} (answer : Completion A) : Io State A :=
  fun s => (answer, s).

Definition send (store : Store) (row : Insert)
    : Io State (Response (list Doctor.t)) :=
  fun s => (Normal (insert store row),
            mkState (doctors s) (newDoctor s) (isSubmitting s)
              (isAddDoctorDialogOpen s) (toasts s) (inserts s ++ [row])).

Definition setDoctors (value : list Doctor.t) : Io State unit :=
  modify (fun s => mkState value (newDoctor s) (isSubmitting s)
    (isAddDoctorDialogOpen s) (toasts s) (inserts s)).

Definition setNewDoctor (value : NewDoctor) : Io State unit :=
  modify (fun s => mkState (doctors s) value (isSubmitting s)
    (isAddDoctorDialogOpen s) (toasts s) (inserts s)).

Definition setIsSubmitting (value : bool) : Io State unit :=
  modify (fun s => mkState (doctors s) (newDoctor s) value
    (isAddDoctorDialogOpen s) (toasts s) (inserts s)).

Definition setIsAddDoctorDialogOpen (value : bool) : Io State unit :=
  modify (fun s => mkState (doctors s) (newDoctor s) (isSubmitting s)
    value (toasts s) (inserts s)).

(** [toast.error(message)] and [toast.success(message)]. *)
Definition toast (message : string) : Io State unit :=
  modify (fun s => mkState (doctors s) (newDoctor s) (isSubmitting s)
    (isAddDoctorDialogOpen s) (Rows.pushToast (toasts s) message) (inserts s)).

(** [!newDoctor.name || !newDoctor.specialty || !newDoctor.hospital ||
    !newDoctor.address || !newDoctor.area]. *)
Definition incomplete (form : NewDoctor) : bool :=
  negb (Rows.truthy (name form)) || negb (Rows.truthy (specialty form)) ||
  negb (Rows.truthy (hospital form)) || negb (Rows.truthy (address form)) ||
  negb (Rows.truthy (area form)).

Definition fullAddress (form : NewDoctor) : string :=
  if Rows.truthy (city form) then address form +++ ", " +++ city form
  else address form.

(** [value || null]. *)
Definition or_null (value : string) : option string :=
  if Rows.truthy value then Some value else None.

(** [error instanceof Error ? error.message : "Failed to add doctor"]. *)
Definition errorMessage (error : Thrown) : string :=
  match error with
  | NewError message => message
  | Rethrown e =>
      if pg_instanceofError e then pg_message e else "Failed to add doctor"
  end.

Module OfMr.

Definition row (form : NewDoctor) (user_id : string) : Insert :=
  mkInsert (name form) (specialty form) (hospital form) (fullAddress form)
    None (or_null (phone form)) user_id false (area form).

Definition emptyForm : NewDoctor :=
  mkNewDoctor EmptyString EmptyString EmptyString EmptyString EmptyString
    None EmptyString EmptyString.

(** [handleAddDoctor] of [DoctorsList]. *)
Definition handleAddDoctor (store : Store) : Io State unit :=
  doctors <- gets doctors ;;
  newDoctor <- gets newDoctor ;;
  try_catch_finally
    (setIsSubmitting true ;;
     if incomplete newDoctor then
       toast "Please fill in all required fields (Name, Specialty, Hospital, Address, Area)" ;;
       setIsSubmitting false
     else
       user <- await (getUser store) ;;
       match user with
       | None => throw (NewError "You must be logged in to add a doctor")
       | Some user_id =>
           response <- send store (row newDoctor user_id) ;;
           throw_if (error response) Rethrown ;;
           match data response with
           | Some (added :: _) =>
               setDoctors (doctors ++ [added]) ;;
               toast "Doctor added successfully. Pending verification." ;;
               setIsAddDoctorDialogOpen false ;;
               setNewDoctor emptyForm
           | _ => throw (NewError "Failed to add doctor or retrieve added data.")
           end
       end)
    (fun error => toast (errorMessage error))
    (setIsSubmitting false).

End OfMr.

Module OfAdmin.

Definition row (form : NewDoctor) (user_id : string) : Insert :=
  mkInsert (name form) (specialty form) (hospital form) (fullAddress form)
    (Some (match email form with
           | Some value => or_null value
           | None => None
           end))
    (or_null (phone form)) user_id true (area form).

Definition emptyForm : NewDoctor :=
  mkNewDoctor EmptyString EmptyString EmptyString EmptyString EmptyString
    (Some EmptyString) EmptyString EmptyString.

(** [handleAddDoctor] of [DoctorsManagement]. *)
Definition handleAddDoctor (store : Store) : Io State unit :=
  doctors <- gets doctors ;;
  newDoctor <- gets newDoctor ;;
  try_catch_finally
    (setIsSubmitting true ;;
     if incomplete newDoctor then
       toast "Please fill in all required fields"
     else
       user <- await (getUser store) ;;
       match user with
       | None => throw (NewError "You must be logged in to add a doctor")
       | Some user_id =>
           response <- send store (row newDoctor user_id) ;;
           throw_if (error response) Rethrown ;;
           match data response with
           | Some (added :: _) =>
               setDoctors (doctors ++ [added]) ;;
               toast "Doctor added successfully" ;;
               setIsAddDoctorDialogOpen false ;;
               setNewDoctor emptyForm
           | _ => ret tt
           end
       end)
    (fun error => toast (errorMessage error))
    (setIsSubmitting false).

End OfAdmin.

End AddDoctor.

(** ** Scenarios for the examples *)

Module Scenario.

Import AdminDashboard.

(** Two pending visits, both selected in the selection dialog. *)
Definition twoSelected : State :=
  mkState (mkStats 0 0 0 0 0 0 0 0) [] [] None None None
    [mkPendingApproval "v1" "Ravi" Visit (Some "2024-03-02") None None;
     mkPendingApproval "v2" "Meera" Visit (Some "2024-03-03") None None]
    false None ["v1"; "v2"] true false false false.

(** The store refuses every write to the row [v1] and accepts the
    others. *)
Definition firstWriteFails : Mutations :=
  mkMutations (fun _ _ id =>
                 if String.eqb id "v1" then Some Sample.unreachable else None).

(** An active admin is signed in and stands on a page of the MRs. *)
Definition adminSignedIn : AppLayout.Queries :=
  AppLayout.mkQueries
    (Effect.Normal (AppLayout.mkSessionResponse (Some "a1") None))
    (fun _ => Effect.Normal
                (Effect.ok (AppLayout.Profile.mk "a1" "Admin" "admin" "active"))).

Definition onMrPage : AppLayout.State :=
  AppLayout.mkState None true "/mr/doctors" [].

(** A clock that prints the milliseconds since the epoch in decimal,
    behind a letter. *)
Definition decimalClock : AreaReminderDialog.Clock :=
  AreaReminderDialog.mkClock
    (fun t => "T" +++ Js.decimal (Z.to_nat t))
    (fun text =>
       match text with
       | String "T" digits => Js.parseInt (Some digits)
       | _ => None
       end).

(** The MR [mr1] is signed in and has one doctor without an area; the
    store accepts the update. *)
Definition oneDoctorLeft : AreaReminderDialog.Queries :=
  AreaReminderDialog.mkQueries
    (Effect.Normal (Some "mr1"))
    (fun _ => Effect.ok [Sample.doctorWithoutArea])
    (fun _ _ => None).

Definition reminderClosed : AreaReminderDialog.State :=
  AreaReminderDialog.mkState false [] false None false [] [] [] [].

(** The same MR while the area of that doctor is being edited. *)
Definition editingTheDoctor : AreaReminderDialog.State :=
  AreaReminderDialog.mkState false [Sample.doctorWithoutArea] true
    (Some Sample.doctorWithoutArea) false [] [] [] [].

(** A filled form, and the same form without the area. *)
Definition filledForm : AddDoctor.NewDoctor :=
  AddDoctor.mkNewDoctor "Asha Rao" "Cardiology" "Ruby Hall" "Pune" "Camp"
    None "98220" "Deccan".

Definition formWithoutArea : AddDoctor.NewDoctor :=
  AddDoctor.mkNewDoctor "Asha Rao" "Cardiology" "Ruby Hall" "Pune" "Camp"
    None "98220" EmptyString.

Definition addDialog (form : AddDoctor.NewDoctor) : AddDoctor.State :=
  AddDoctor.mkState Sample.twoDoctors form false true [] [].

(** A store that knows the user and answers an insert with no row and
    no error; one that answers with the stored row. *)
Definition storesNothing : AddDoctor.Store :=
  AddDoctor.mkStore (Effect.Normal (Some "mr1")) (fun _ => Effect.ok []).

Definition storesTheRow : AddDoctor.Store :=
  AddDoctor.mkStore (Effect.Normal (Some "mr1"))
    (fun _ => Effect.ok [Sample.doctorWithoutArea]).

End Scenario.

(* ================================================================== *)
(** * Part II: the properties *)
(* ================================================================== *)

(** ** Pagination *)

Section PaginationFacts.

Context {A : Type}.
Implicit Types (arr : list A) (p k : Z).

Lemma slice_nonneg arr (s e : Z) :
  0 <= s -> s <= e ->
  Js.slice arr s e = firstn (Z.to_nat (e - s)) (skipn (Z.to_nat s) arr).
Proof.
  intros Hs He. unfold Js.slice, Js.relative_index.
  destruct (Z.ltb_spec s 0); [lia|].
  destruct (Z.ltb_spec e 0); [lia|].
  set (len := Z.of_nat (length arr)).
  assert (Hlen : length arr = Z.to_nat len) by (subst len; lia).
  destruct (Z.le_gt_cases s len) as [Hsl|Hsl].
  - rewrite (Z.min_l s len) by lia.
    destruct (Z.le_gt_cases e len) as [Hel|Hel].
    + rewrite (Z.min_l e len) by lia. reflexivity.
    + rewrite (Z.min_r e len) by lia.
      rewrite !firstn_all2; try reflexivity;
        rewrite length_skipn; lia.
  - rewrite (Z.min_r s len), (Z.min_r e len) by lia.
    rewrite !skipn_all2 by lia. now rewrite !firstn_nil.
Qed.

Lemma page_is_chunk arr p k :
  0 < p -> 1 <= k ->
  Pagination.paginatedData arr k p =
  firstn (Z.to_nat p) (skipn (Z.to_nat ((k - 1) * p)) arr).
Proof.
  intros Hp Hk. unfold Pagination.paginatedData. cbv zeta.
  rewrite slice_nonneg by nia. f_equal. lia.
Qed.

Lemma firstn_plus (a b : nat) arr :
  firstn (a + b) arr = firstn a arr ++ firstn b (skipn a arr).
Proof.
  revert arr. induction a as [|a IH]; intros arr; [reflexivity|].
  destruct arr as [|x arr]; cbn [Nat.add firstn skipn app].
  - now rewrite firstn_nil.
  - now rewrite IH.
Qed.

Lemma pages_prefix arr p (m : nat) :
  0 < p ->
  concat (map (fun k => Pagination.paginatedData arr k p)
              (map Z.of_nat (seq 1 m))) =
  firstn (m * Z.to_nat p) arr.
Proof.
  intros Hp. induction m as [|m IH]; [reflexivity|].
  rewrite seq_S, !map_app, concat_app, IH. cbn [map concat Nat.add].
  rewrite app_nil_r, page_is_chunk by lia.
  replace (Z.to_nat ((Z.of_nat (S m) - 1) * p)) with (m * Z.to_nat p)%nat by nia.
  rewrite <- firstn_plus. f_equal. lia.
Qed.

Lemma totalPages_covers (n p : Z) :
  0 < p -> 0 <= n -> n <= Pagination.totalPages n p * p.
Proof.
  intros Hp Hn. unfold Pagination.totalPages, Js.ceil_div.
  pose proof (Z.div_mod (- n) p ltac:(lia)) as Hdm.
  pose proof (Z.mod_pos_bound (- n) p Hp). nia.
Qed.

Lemma pages_cover arr p :
  0 < p ->
  concat (map (fun k => Pagination.paginatedData arr k p)
              (Pagination.pagesUpTo
                 (Pagination.totalPages (Z.of_nat (length arr)) p))) = arr.
Proof.
  intros Hp. unfold Pagination.pagesUpTo. rewrite pages_prefix by assumption.
  apply firstn_all2.
  pose proof (totalPages_covers (Z.of_nat (length arr)) p Hp ltac:(lia)).
  nia.
Qed.

Lemma page_length arr p k :
  0 < p -> 1 <= k ->
  Z.of_nat (length (Pagination.paginatedData arr k p)) <= p.
Proof.
  intros Hp Hk. rewrite page_is_chunk by assumption.
  rewrite length_firstn. lia.
Qed.

End PaginationFacts.

(** C1. For a page size among 10, 30 and 100, every page [k >= 1] of
    the client-side pagination holds at most that many records, and the
    pages 1 .. ceil(n/p) put end to end are the input array itself: no
    record is lost and none is repeated. *)
Theorem pagination_pages_partition_input :
  forall (A : Type) (sortedData : list A) (p : Z),
    In p Pagination.pageSizes ->
    (forall k, 1 <= k ->
       Z.of_nat (length (Pagination.paginatedData sortedData k p)) <= p) /\
    concat (map (fun k => Pagination.paginatedData sortedData k p)
                (Pagination.pagesUpTo
                   (Pagination.totalPages (Z.of_nat (length sortedData)) p)))
    = sortedData.
Proof.
  intros A sortedData p Hin.
  assert (Hp : 0 < p).
  { unfold Pagination.pageSizes in Hin. cbn in Hin.
    destruct Hin as [<-|[<-|[<-|[]]]]; lia. }
  split.
  - intros k Hk. now apply page_length.
  - now apply pages_cover.
Qed.

Lemma pagination_pages_partition_input_witness :
  (forall k, 1 <= k ->
     Z.of_nat (length (Pagination.paginatedData (map Z.of_nat (seq 0 25)) k 10)) <= 10) /\
  concat (map (fun k => Pagination.paginatedData (map Z.of_nat (seq 0 25)) k 10)
              (Pagination.pagesUpTo
                 (Pagination.totalPages
                    (Z.of_nat (length (map Z.of_nat (seq 0 25)))) 10)))
  = map Z.of_nat (seq 0 25).
Proof.
  apply (pagination_pages_partition_input Z (map Z.of_nat (seq 0 25)) 10).
  cbn. left. reflexivity.
Defined.

(** ** Stable sorting *)

Section SortFacts.

Context {A : Type}.
Variable compareFn : A -> A -> Z.

Let in_order := Js.in_order compareFn.

Hypothesis compareFn_total :
  forall a b, compareFn a b <= 0 \/ compareFn b a <= 0.

Lemma insert_stable_HdRel x y l :
  in_order y x -> HdRel in_order y l ->
  HdRel in_order y (Js.insert_stable compareFn x l).
Proof.
  intros Hyx Hl. destruct l as [|z l]; cbn.
  - now constructor.
  - destruct (compareFn x z <=? 0); constructor; trivial.
    now inversion Hl.
Qed.

Lemma insert_stable_Sorted x l :
  Sorted in_order l -> Sorted in_order (Js.insert_stable compareFn x l).
Proof.
  induction 1 as [|y l Hs IH Hhd]; cbn.
  - repeat constructor.
  - destruct (Z.leb_spec (compareFn x y) 0) as [Hle|Hgt].
    + repeat constructor; assumption.
    + constructor; [assumption|].
      apply insert_stable_HdRel; [|assumption].
      destruct (compareFn_total x y); [lia|assumption].
Qed.

Lemma sort_Sorted l : Sorted in_order (Js.sort compareFn l).
Proof.
  induction l as [|x l IH]; cbn; [constructor|].
  now apply insert_stable_Sorted.
Qed.

End SortFacts.

Section SortFactsAnyOrder.

Context {A : Type}.
Variable compareFn : A -> A -> Z.

Lemma insert_stable_Permutation x (l : list A) :
  Permutation (x :: l) (Js.insert_stable compareFn x l).
Proof.
  induction l as [|y l IH]; cbn; [reflexivity|].
  destruct (compareFn x y <=? 0); [reflexivity|].
  rewrite perm_swap. now constructor.
Qed.

Lemma sort_Permutation (l : list A) : Permutation l (Js.sort compareFn l).
Proof.
  induction l as [|x l IH]; cbn; [constructor|].
  rewrite <- insert_stable_Permutation. now constructor.
Qed.

(** Sorting leaves a sorted array as it is. *)
Lemma sort_fixes_Sorted (l : list A) :
  Sorted (Js.in_order compareFn) l -> Js.sort compareFn l = l.
Proof.
  induction 1 as [|x l Hs IH Hhd]; cbn; [reflexivity|].
  rewrite IH. destruct Hhd as [|y l Hxy]; cbn; [reflexivity|].
  unfold Js.in_order in Hxy.
  destruct (Z.leb_spec (compareFn x y) 0); [reflexivity|lia].
Qed.

End SortFactsAnyOrder.

(** ** The sortable-table hook *)

Section SortableTableFacts.

Import SortableTable.

Variables T K V : Type.
Variable K_eqb : K -> K -> bool.
Variable field : T -> K -> V.
Variable compareValues : V -> V -> Z.
Variable newColumnDirection : SortDirection.

Hypothesis K_eqb_refl : forall k, K_eqb k k = true.
Hypothesis compareValues_total :
  forall a b, compareValues a b <= 0 \/ compareValues b a <= 0.

Lemma compareRows_total column direction :
  forall a b,
    compareRows field compareValues column direction a b <= 0 \/
    compareRows field compareValues column direction b a <= 0.
Proof.
  intros a b. destruct direction; cbn; apply compareValues_total.
Qed.

Lemma sortRows_Sorted column direction data :
  Sorted (Js.in_order (compareRows field compareValues column direction))
         (sortRows field compareValues column direction data).
Proof. apply sort_Sorted, compareRows_total. Qed.

Lemma handleSort_twice_same_column column direction :
  handleSort K_eqb newColumnDirection column
    (handleSort K_eqb newColumnDirection column
       (useSortableTable column direction))
  = useSortableTable column direction.
Proof.
  unfold handleSort, useSortableTable. cbn.
  rewrite K_eqb_refl. cbn. rewrite K_eqb_refl.
  now destruct direction.
Qed.

End SortableTableFacts.

(** C2. Applying the sortable-table utility a second time with the same
    column and direction gives the array the first application gave. *)
Theorem sortRows_idempotent :
  forall (T K V : Type) (field : T -> K -> V) (compareValues : V -> V -> Z),
    (forall a b, compareValues a b <= 0 \/ compareValues b a <= 0) ->
    forall (data : list T) (column : K)
           (direction : SortableTable.SortDirection),
      SortableTable.sortRows field compareValues column direction
        (SortableTable.sortRows field compareValues column direction data)
      = SortableTable.sortRows field compareValues column direction data.
Proof.
  intros T K V field compareValues Htotal data column direction.
  unfold SortableTable.sortRows at 1.
  apply sort_fixes_Sorted, sortRows_Sorted, Htotal.
Qed.

Lemma sortRows_idempotent_witness :
  let rows := map SortableTable.datedRow [3; 1; 2; 1] in
  SortableTable.sortRows SortableTable.numField SortableTable.compareNumbers
    "date" SortableTable.desc
    (SortableTable.sortRows SortableTable.numField SortableTable.compareNumbers
       "date" SortableTable.desc rows)
  = SortableTable.sortRows SortableTable.numField SortableTable.compareNumbers
      "date" SortableTable.desc rows.
Proof.
  intro rows.
  apply (sortRows_idempotent _ _ _ SortableTable.numField
           SortableTable.compareNumbers).
  intros a b. unfold SortableTable.compareNumbers. lia.
Defined.

(** ** Lists: filters under permutation and sortedness *)

Section ListFacts.

Context {A : Type}.

Lemma filter_Permutation (f : A -> bool) (l l' : list A) :
  Permutation l l' -> Permutation (filter f l) (filter f l').
Proof.
  induction 1 as [|x l l' _ IH|x y l|l l' l'' _ IH1 _ IH2]; cbn.
  - constructor.
  - destruct (f x); [now constructor|assumption].
  - destruct (f x), (f y); try reflexivity. apply perm_swap.
  - now transitivity (filter f l').
Qed.

Lemma filter_StronglySorted (R : A -> A -> Prop) (f : A -> bool) (l : list A) :
  StronglySorted R l -> StronglySorted R (filter f l).
Proof.
  induction 1 as [|x l Hs IH Hall]; cbn; [constructor|].
  destruct (f x); [|assumption].
  constructor; [assumption|].
  rewrite Forall_forall in *. intros y Hy.
  apply filter_In in Hy. now apply Hall.
Qed.

Lemma Sorted_weaken (R R' : A -> A -> Prop) (l : list A) :
  (forall a b, R a b -> R' a b) -> Sorted R l -> Sorted R' l.
Proof.
  intros Himp. induction 1 as [|x l Hs IH Hhd]; constructor; trivial.
  destruct Hhd; constructor. now apply Himp.
Qed.

Lemma map_fixed (f : A -> A) (l : list A) :
  Forall (fun x => f x = x) l -> l = map f l.
Proof.
  induction 1 as [|x l Hx _ IH]; cbn [map]; [reflexivity|].
  f_equal; [symmetry; exact Hx|exact IH].
Qed.

Lemma filter_map_commute {B : Type} (g : A -> B) (f : B -> bool) (l : list A) :
  filter f (map g l) = map g (filter (fun x => f (g x)) l).
Proof.
  induction l as [|x l IH]; cbn; [reflexivity|].
  destruct (f (g x)); cbn; now rewrite IH.
Qed.

Lemma filter_filter_andb (f g : A -> bool) (l : list A) :
  filter g (filter f l) = filter (fun x => f x && g x) l.
Proof.
  induction l as [|x l IH]; cbn; [reflexivity|].
  destruct (f x); cbn; [destruct (g x)|]; now rewrite IH.
Qed.

End ListFacts.

(** ** The queue of pending approvals *)

Section PendingApprovalsFacts.

Import Effect AdminDashboard.

Lemma formatPendingApprovals_length browser mrMap pv pu pd pmv :
  length (formatPendingApprovals browser mrMap pv pu pd pmv) =
  (length (Js.or_nil pv) + length (Js.or_nil pu) + length (Js.or_nil pd)
   + length (Js.or_nil pmv))%nat.
Proof.
  unfold formatPendingApprovals. cbv zeta.
  rewrite !length_app.
  destruct pv, pu, pd, pmv; cbn [option_map Js.or_nil length];
    rewrite ?length_map; lia.
Qed.

Lemma throw_if_cases {S : Type} (e : option PostgrestError) mk (s : S) :
  (e = None /\ throw_if e mk s = (Normal tt, s)) \/
  (exists pe, e = Some pe /\ throw_if e mk s = (Abrupt (mk pe), s)).
Proof. destruct e as [pe|]; [right; eauto|left; auto]. Qed.

End PendingApprovalsFacts.

(** Unfolds the monadic plumbing of a run, and splits on the errors of
    the responses it meets. *)
Ltac io_simpl := cbn beta iota zeta delta [fst snd] in *.

Ltac run_io :=
  unfold Effect.exec, Effect.throws, Effect.try_catch_finally,
    Effect.try_finally, Effect.try_catch, Effect.bind, Effect.throw_if,
    Effect.ret, Effect.throw, Effect.modify, Effect.gets in *;
  io_simpl.

Ltac split_error r :=
  let E := fresh "E" in
  destruct r eqn:E; io_simpl; try discriminate.

(** C4. When [fetchPendingApprovals] gets its lists (no query of it
    fails), the queue it stores has as many entries as the four fetched
    lists together. *)
Theorem pendingApprovals_length_is_sum :
  forall (browser : AdminDashboard.Browser) (q : AdminDashboard.PendingQueries)
         (s : AdminDashboard.State),
    Effect.throws (AdminDashboard.fetchPendingApprovals_try browser q)
      (Effect.exec (AdminDashboard.setPendingLoading true) s) = false ->
    length (AdminDashboard.pendingApprovals
              (Effect.exec (AdminDashboard.fetchPendingApprovals browser q) s)) =
    (length (Js.or_nil (Effect.data (AdminDashboard.visits_pending q)))
     + length (Js.or_nil (Effect.data (AdminDashboard.profiles_pending q)))
     + length (Js.or_nil (Effect.data (AdminDashboard.doctors_unverified q)))
     + length (Js.or_nil (Effect.data (AdminDashboard.medical_visits_pending q))))%nat.
Proof.
  intros browser q s.
  unfold AdminDashboard.fetchPendingApprovals,
    AdminDashboard.fetchPendingApprovals_try,
    AdminDashboard.setPendingLoading, AdminDashboard.setPendingApprovals,
    AdminDashboard.setError.
  run_io.
  split_error (Effect.error (AdminDashboard.visits_pending q)).
  split_error (Effect.error (AdminDashboard.profiles_pending q)).
  split_error (Effect.error (AdminDashboard.doctors_unverified q)).
  split_error (Effect.error (AdminDashboard.medical_visits_pending q)).
  match goal with
  | |- context [if (0 <? ?n) then _ else _] => destruct (0 <? n); io_simpl
  end.
  - match goal with
    | |- context [Effect.error ?r] => split_error (Effect.error r)
    end.
    intros _. apply formatPendingApprovals_length.
  - intros _. apply formatPendingApprovals_length.
Qed.

(** ** The ranking of the MRs *)

Section RankingFacts.

Import Effect AdminDashboard.

Lemma rankMRs_Sorted mrsData approvedVisitsData orders :
  Sorted more_visits (rankMRs mrsData approvedVisitsData orders).
Proof.
  unfold rankMRs. cbv zeta.
  apply StronglySorted_Sorted, filter_StronglySorted.
  apply Sorted_StronglySorted.
  - intros a b c. unfold more_visits. lia.
  - apply (Sorted_weaken (Js.in_order byVisitsDesc)).
    + intros a b. unfold Js.in_order, byVisitsDesc, more_visits. lia.
    + apply sort_Sorted. intros a b. unfold byVisitsDesc. lia.
Qed.

Lemma performanceOf_visits full mr :
  MRPerformance.visits (performanceOf full mr) =
  Z.of_nat (length (filter (fun visit =>
                              String.eqb (Visit.mr_id visit) (MRProfile.id mr))
                           full)).
Proof. reflexivity. Qed.

Lemma rankMRs_Permutation mrs rows orders :
  Permutation
    (map (fun r => (MRPerformance.name r, MRPerformance.visits r))
         (rankMRs (Some mrs) (Some rows) orders))
    (map (fun mr =>
            (MRProfile.name mr,
             Z.of_nat (length (filter (fun v => String.eqb (ApprovedVisit.mr_id v)
                                                           (MRProfile.id mr))
                                      rows))))
         (filter (fun mr =>
                    0 <? Z.of_nat (length (filter
                           (fun v => String.eqb (ApprovedVisit.mr_id v)
                                                (MRProfile.id mr)) rows)))
                 mrs)).
Proof.
  unfold rankMRs. cbv zeta. cbn [option_map Js.or_nil].
  set (full := map _ rows).
  assert (Hcount : forall mr,
    MRPerformance.visits (performanceOf full mr) =
    Z.of_nat (length (filter (fun v => String.eqb (ApprovedVisit.mr_id v)
                                                  (MRProfile.id mr)) rows))).
  { intros mr. rewrite performanceOf_visits. subst full.
    rewrite filter_map_commute, length_map. reflexivity. }
  etransitivity.
  { apply Permutation_map, filter_Permutation, Permutation_sym,
      sort_Permutation. }
  rewrite filter_map_commute, map_map.
  erewrite filter_ext by (intros mr; rewrite Hcount; reflexivity).
  erewrite map_ext; [reflexivity|].
  intros mr. cbn beta. now rewrite Hcount.
Qed.

End RankingFacts.

Section RankingOnStore.

Import Effect AdminDashboard RemoteStore.

Variable db : Database.

Lemma store_count startDate endDate (p : Profile.t) :
  Z.of_nat
    (length
       (filter (fun v => String.eqb (ApprovedVisit.mr_id v) (Profile.id p))
          (map (fun v => ApprovedVisit.mk (VisitRow.id v) (VisitRow.mr_id v))
               (filter (approved_in startDate endDate) (visits db)))))
  = approvedVisitCount db startDate endDate (Profile.id p).
Proof.
  unfold approvedVisitCount.
  rewrite filter_map_commute, length_map, filter_filter_andb. reflexivity.
Qed.

(** On a reachable store the function returns, leaves the state alone,
    and its result is the ranking of the fetched rows. *)
Lemma fetchAndProcessMRPerformance_on_store {S : Type} startDate endDate (s : S) :
  exists orders,
    fetchAndProcessMRPerformance (mrQueries db) startDate endDate s =
    (Normal
       (rankMRs
          (data (profiles_mr (mrQueries db)))
          (data (visits_approved (mrQueries db) startDate endDate))
          orders),
     s).
Proof.
  unfold fetchAndProcessMRPerformance. cbv zeta. run_io.
  match goal with
  | |- context [if (0 <? ?n) then _ else _] => destruct (0 <? n); io_simpl
  end; eexists; reflexivity.
Qed.

Lemma ranking_on_store startDate endDate orders :
  let ranking :=
    rankMRs (data (profiles_mr (mrQueries db)))
            (data (visits_approved (mrQueries db) startDate endDate)) orders in
  Sorted more_visits ranking /\
  Permutation
    (map (fun r => (MRPerformance.name r, MRPerformance.visits r)) ranking)
    (map (fun p => (Profile.name p,
                    approvedVisitCount db startDate endDate (Profile.id p)))
         (filter (fun p => is_mr p &&
                    (0 <? approvedVisitCount db startDate endDate (Profile.id p)))
                 (profiles db))).
Proof.
  intros ranking. split; [apply rankMRs_Sorted|].
  subst ranking. cbn [mrQueries profiles_mr visits_approved data ok].
  rewrite rankMRs_Permutation.
  rewrite filter_map_commute, map_map, filter_filter_andb.
  rewrite (filter_ext _
    (fun p => is_mr p &&
              (0 <? approvedVisitCount db startDate endDate (Profile.id p)))).
  2: { intros p. cbn [MRProfile.id]. now rewrite store_count. }
  rewrite (map_ext _
    (fun p => (Profile.name p,
               approvedVisitCount db startDate endDate (Profile.id p)))).
  - reflexivity.
  - intros p. cbn [MRProfile.id MRProfile.name]. now rewrite store_count.
Qed.

End RankingOnStore.

Section TopMRsOnStore.

Import Effect AdminDashboard RemoteStore.

Variable db : Database.
Variables today weeklyStartDate : Z.

(** After [fetchTopMRs] on a reachable store each cache holds the
    ranking of its window. *)
Lemma fetchTopMRs_caches (s : State) (f : Filter) :
  exists orders,
    topMRsFor f (exec (fetchTopMRs (mrQueries db) today weeklyStartDate) s) =
    rankMRs (data (profiles_mr (mrQueries db)))
            (data (visits_approved (mrQueries db)
                     (fst (windowOf f today weeklyStartDate))
                     (snd (windowOf f today weeklyStartDate))))
            orders.
Proof.
  unfold fetchTopMRs, fetchTopMRs_try.
  unfold exec, try_catch_finally, try_finally, try_catch, bind.
  unfold setTopMRsLoading at 1. unfold modify at 1.
  match goal with
  | |- context [fetchAndProcessMRPerformance _ None None ?st] =>
      destruct (fetchAndProcessMRPerformance_on_store db None None st)
        as [o1 ->]
  end.
  match goal with
  | |- context [fetchAndProcessMRPerformance _ (Some weeklyStartDate) _ ?st] =>
      destruct (fetchAndProcessMRPerformance_on_store db
                  (Some weeklyStartDate) (Some today) st) as [o2 ->]
  end.
  match goal with
  | |- context [fetchAndProcessMRPerformance _ (Some today) (Some today) ?st] =>
      destruct (fetchAndProcessMRPerformance_on_store db
                  (Some today) (Some today) st) as [o3 ->]
  end.
  destruct f; cbn; eexists; reflexivity.
Qed.

End TopMRsOnStore.

(** C5. For each of the three windows the ranking the dashboard holds
    after [fetchTopMRs] is in non-increasing order of the visit counts,
    and its entries are exactly the MRs with at least one approved visit
    in the window, each with that number of visits. *)
Theorem topMRs_ranked_by_approved_visits :
  forall (db : RemoteStore.Database) (today weeklyStartDate : Z)
         (s : AdminDashboard.State) (filter : AdminDashboard.Filter),
    let startDate := fst (AdminDashboard.windowOf filter today weeklyStartDate) in
    let endDate := snd (AdminDashboard.windowOf filter today weeklyStartDate) in
    let ranking :=
      AdminDashboard.topMRsFor filter
        (Effect.exec
           (AdminDashboard.fetchTopMRs (RemoteStore.mrQueries db)
              today weeklyStartDate) s) in
    Sorted AdminDashboard.more_visits ranking /\
    Permutation
      (map (fun r => (AdminDashboard.MRPerformance.name r,
                      AdminDashboard.MRPerformance.visits r)) ranking)
      (map (fun p => (RemoteStore.Profile.name p,
                      RemoteStore.approvedVisitCount db startDate endDate
                        (RemoteStore.Profile.id p)))
           (List.filter
              (fun p => RemoteStore.is_mr p &&
                        (0 <? RemoteStore.approvedVisitCount db startDate endDate
                                (RemoteStore.Profile.id p)))
              (RemoteStore.profiles db))).
Proof.
  intros db today weeklyStartDate s f startDate endDate ranking.
  destruct (fetchTopMRs_caches db today weeklyStartDate s f) as [orders Heq].
  subst ranking. rewrite Heq.
  apply ranking_on_store.
Qed.

(** ** Strings: month keys and their parsing *)

Section MonthKeyFacts.

Import AdminDashboard.

Lemma split_digits (d : Decimal.uint) :
  Js.split " " (NilEmpty.string_of_uint d) = [NilEmpty.string_of_uint d].
Proof.
  induction d; cbn [NilEmpty.string_of_uint Js.split]; try reflexivity;
    rewrite IHd; reflexivity.
Qed.

Lemma split_formatMonthYear (my : Month * nat) :
  Js.split " " (formatMonthYear my) =
  [monthShort (fst my); Js.decimal (snd my)].
Proof.
  destruct my as [m y]. unfold formatMonthYear, Js.decimal. cbn [fst snd].
  destruct m; cbn [monthShort String.append Js.split Ascii.eqb Bool.eqb];
    rewrite split_digits; reflexivity.
Qed.

Lemma parse_digits_of_uint (d : Decimal.uint) (acc : nat) :
  Js.parse_digits acc (NilEmpty.string_of_uint d) = Nat.of_uint_acc d acc.
Proof.
  revert acc.
  induction d; intros acc;
    cbn [NilEmpty.string_of_uint Js.parse_digits Nat.of_uint_acc];
    try reflexivity;
    change (Js.digit_value _) with (Some 0%nat) ||
    change (Js.digit_value _) with (Some 1%nat) ||
    change (Js.digit_value _) with (Some 2%nat) ||
    change (Js.digit_value _) with (Some 3%nat) ||
    change (Js.digit_value _) with (Some 4%nat) ||
    change (Js.digit_value _) with (Some 5%nat) ||
    change (Js.digit_value _) with (Some 6%nat) ||
    change (Js.digit_value _) with (Some 7%nat) ||
    change (Js.digit_value _) with (Some 8%nat) ||
    change (Js.digit_value _) with (Some 9%nat);
    cbv iota beta; rewrite IHd; f_equal;
    rewrite Nat.tail_mul_spec; lia.
Qed.

Lemma decimal_starts_with_digit (y : nat) :
  exists c rest v, Js.decimal y = String c rest /\ Js.digit_value c = Some v.
Proof.
  unfold Js.decimal.
  destruct (Nat.to_uint y) as [|d|d|d|d|d|d|d|d|d|d] eqn:E;
    cbn [NilEmpty.string_of_uint]; try (do 3 eexists; split; reflexivity).
  exfalso. pose proof (DecimalNat.Unsigned.of_to y) as H.
  rewrite E in H. cbn in H. subst y. discriminate E.
Qed.

Lemma parseInt_decimal (y : nat) :
  Js.parseInt (Some (Js.decimal y)) = Some (Z.of_nat y).
Proof.
  destruct (decimal_starts_with_digit y) as (c & rest & v & Hs & Hc).
  unfold Js.parseInt. rewrite Hs, Hc, <- Hs.
  unfold Js.decimal. rewrite parse_digits_of_uint.
  change (Nat.of_uint_acc (Nat.to_uint y) 0) with (Nat.of_uint (Nat.to_uint y)).
  now rewrite DecimalNat.Unsigned.of_to.
Qed.

Lemma monthMap_monthShort (m : Month) :
  Js.obj_get monthMap (monthShort m) = Some (monthIndex m).
Proof. destruct m; reflexivity. Qed.

Lemma monthIndex_inj (m m' : Month) : monthIndex m = monthIndex m' -> m = m'.
Proof. destruct m, m'; cbn; intros H; try reflexivity; discriminate H. Qed.

Lemma monthIndex_range (m : Month) : 0 <= monthIndex m <= 11.
Proof. destruct m; cbn; lia. Qed.

(** The month and the year can be read back from a key. *)
Lemma formatMonthYear_inj (my my' : Month * nat) :
  formatMonthYear my = formatMonthYear my' -> my = my'.
Proof.
  intros H.
  assert (Hs : Js.split " " (formatMonthYear my) =
               Js.split " " (formatMonthYear my')) by now rewrite H.
  rewrite !split_formatMonthYear in Hs.
  injection Hs as Hm Hy.
  destruct my as [m y], my' as [m' y']. cbn [fst snd] in *.
  f_equal.
  - apply monthIndex_inj.
    pose proof (monthMap_monthShort m) as H1.
    pose proof (monthMap_monthShort m') as H2.
    rewrite Hm in H1. congruence.
  - pose proof (parseInt_decimal y) as H1.
    pose proof (parseInt_decimal y') as H2.
    rewrite Hy in H1. rewrite H1 in H2. injection H2. lia.
Qed.

(** The instant the comparator computes for a key of the year 100 or
    later is the number of its month. *)
Lemma monthTime_bucket (my : Month * nat) (n : Z) :
  (100 <= snd my)%nat ->
  monthTime (bucket my n) = Some (monthNumber my).
Proof.
  intros Hy. unfold monthTime, bucket. cbn [VisitTrendItem.month].
  cbv zeta. rewrite split_formatMonthYear. cbn [nth_error].
  rewrite parseInt_decimal, monthMap_monthShort.
  unfold monthStart, monthNumber.
  destruct (Z.leb_spec (Z.of_nat (snd my)) 99); [lia|].
  now rewrite andb_false_r.
Qed.

Lemma monthNumber_inj (a b : Month * nat) :
  monthNumber a = monthNumber b -> a = b.
Proof.
  destruct a as [m y], b as [m' y']. unfold monthNumber. cbn [fst snd].
  intros H. pose proof (monthIndex_range m). pose proof (monthIndex_range m').
  assert (y = y') by lia. subst y'. f_equal.
  apply monthIndex_inj. lia.
Qed.

Lemma sameMonth_spec (a b : Month * nat) : sameMonth a b = true <-> a = b.
Proof.
  destruct a as [m y], b as [m' y']. unfold sameMonth. cbn [fst snd].
  rewrite andb_true_iff, Z.eqb_eq, Nat.eqb_eq. split.
  - intros [Hm ->]. f_equal. now apply monthIndex_inj.
  - intros H. injection H as -> ->. auto.
Qed.

End MonthKeyFacts.

(** ** Objects as dictionaries *)

Section ObjFacts.

Context {V : Type}.
Implicit Types (o : Js.Obj V) (k : string) (v : V).

Lemma obj_get_set_same o k v : Js.obj_get (Js.obj_set o k v) k = Some v.
Proof.
  induction o as [|[k' w] o IH]; cbn.
  - now rewrite String.eqb_refl.
  - destruct (String.eqb k' k) eqn:E; cbn; rewrite E; [reflexivity|exact IH].
Qed.

Lemma obj_get_set_other o k k' v :
  k <> k' -> Js.obj_get (Js.obj_set o k v) k' = Js.obj_get o k'.
Proof.
  intros Hne. induction o as [|[k0 w] o IH]; cbn.
  - destruct (String.eqb_spec k k'); [contradiction|reflexivity].
  - destruct (String.eqb_spec k0 k) as [->|Hk]; cbn.
    + destruct (String.eqb_spec k k'); [contradiction|reflexivity].
    + destruct (String.eqb k0 k'); [reflexivity|exact IH].
Qed.

Lemma obj_get_In o k : In k (Js.obj_keys o) <-> Js.obj_get o k <> None.
Proof.
  induction o as [|[k0 w] o IH]; cbn.
  - split; [intros []|congruence].
  - destruct (String.eqb_spec k0 k) as [->|Hk].
    + split; [discriminate|auto].
    + rewrite <- IH. split; [intros [?|?]; [contradiction|assumption]|auto].
Qed.

Lemma obj_keys_set_present o k v :
  Js.obj_get o k <> None -> Js.obj_keys (Js.obj_set o k v) = Js.obj_keys o.
Proof.
  induction o as [|[k0 w] o IH]; cbn; [congruence|].
  destruct (String.eqb_spec k0 k) as [->|Hk]; cbn; [reflexivity|].
  intros H. f_equal. now apply IH.
Qed.

Lemma obj_keys_set_absent o k v :
  Js.obj_get o k = None -> Js.obj_keys (Js.obj_set o k v) = Js.obj_keys o ++ [k].
Proof.
  induction o as [|[k0 w] o IH]; cbn; [reflexivity|].
  destruct (String.eqb_spec k0 k) as [->|Hk]; cbn; [discriminate|].
  intros H. f_equal. now apply IH.
Qed.

End ObjFacts.

(** ** The monthly buckets *)

Section MonthlyDataFacts.

Import AdminDashboard.

Variable browser : Browser.

Local Ltac fold_key v :=
  change (toLocaleMonthYear browser (date v)) with (monthKey browser v).

Lemma countVisit_same md v :
  Js.obj_get (countVisit browser md v) (monthKey browser v) =
  Some (match Js.obj_get md (monthKey browser v) with
        | Some c => MonthCounts.mk (MonthCounts.visits c + 1)
                                   (MonthCounts.orders c + 1)
        | None => MonthCounts.mk 1 1
        end).
Proof.
  unfold countVisit. cbv zeta. fold_key v.
  destruct (Js.obj_get md (monthKey browser v)) as [c|] eqn:E.
  - rewrite E. rewrite !obj_get_set_same. reflexivity.
  - rewrite !obj_get_set_same. reflexivity.
Qed.

Lemma countVisit_other md v k :
  monthKey browser v <> k -> Js.obj_get (countVisit browser md v) k = Js.obj_get md k.
Proof.
  intros Hne. unfold countVisit. cbv zeta. fold_key v.
  destruct (Js.obj_get md (monthKey browser v)) as [c|] eqn:E.
  - rewrite E, obj_get_set_same.
    now rewrite !obj_get_set_other by assumption.
  - rewrite !obj_get_set_same.
    now rewrite !obj_get_set_other by assumption.
Qed.

Lemma countVisit_keys md v :
  Js.obj_keys (countVisit browser md v) =
  match Js.obj_get md (monthKey browser v) with
  | Some _ => Js.obj_keys md
  | None => Js.obj_keys md ++ [monthKey browser v]
  end.
Proof.
  unfold countVisit. cbv zeta. fold_key v.
  destruct (Js.obj_get md (monthKey browser v)) as [c|] eqn:E.
  - rewrite E, obj_get_set_same.
    rewrite obj_keys_set_present by (rewrite obj_get_set_same; discriminate).
    rewrite obj_keys_set_present by congruence. reflexivity.
  - rewrite !obj_get_set_same.
    rewrite !obj_keys_set_present by (rewrite obj_get_set_same; discriminate).
    now apply obj_keys_set_absent.
Qed.

Lemma keyCount_snoc k vs v :
  keyCount browser k (vs ++ [v]) =
  keyCount browser k vs + (if String.eqb (monthKey browser v) k then 1 else 0).
Proof.
  unfold keyCount. rewrite filter_app, length_app. cbn [filter].
  destruct (String.eqb (monthKey browser v) k); cbn [length]; lia.
Qed.

Lemma keyCount_nonneg k vs : 0 <= keyCount browser k vs.
Proof. unfold keyCount. lia. Qed.

Lemma counted_step md vs v :
  counted browser md vs -> counted browser (countVisit browser md v) (vs ++ [v]).
Proof.
  intros [Hnd Hget]. split.
  - rewrite countVisit_keys.
    destruct (Js.obj_get md (monthKey browser v)) eqn:E; [assumption|].
    apply NoDup_app; [assumption|repeat constructor; intros []|].
    intros k Hin [<-|[]]. apply obj_get_In in Hin. contradiction.
  - intros k. rewrite keyCount_snoc.
    pose proof (keyCount_nonneg k vs) as Hk.
    destruct (String.eqb_spec (monthKey browser v) k) as [<-|Hne].
    + rewrite countVisit_same, Hget.
      destruct (Z.eqb_spec (keyCount browser (monthKey browser v) vs) 0) as [H0|H0].
      * rewrite H0. reflexivity.
      * destruct (Z.eqb_spec (keyCount browser (monthKey browser v) vs + 1) 0); [lia|reflexivity].
    + rewrite countVisit_other by assumption. rewrite Hget, Z.add_0_r.
      reflexivity.
Qed.

Lemma fold_counted vs :
  counted browser (fold_left (countVisit browser) vs []) vs.
Proof.
  induction vs as [|v vs IH] using rev_ind.
  - split; [constructor|]. intros k. reflexivity.
  - rewrite fold_left_app. cbn [fold_left]. now apply counted_step.
Qed.

Lemma counted_keys md vs k :
  counted browser md vs -> (In k (Js.obj_keys md) <-> In k (map (monthKey browser) vs)).
Proof.
  intros [_ Hget]. rewrite obj_get_In, Hget.
  unfold keyCount. rewrite in_map_iff. split.
  - intros H.
    destruct (filter (fun v => String.eqb (monthKey browser v) k) vs) as [|v l] eqn:E.
    + cbn in H. congruence.
    + assert (Hin : In v (filter (fun v => String.eqb (monthKey browser v) k) vs))
        by (rewrite E; now left).
      apply filter_In in Hin. destruct Hin as [Hin Hk].
      apply String.eqb_eq in Hk. eauto.
  - intros (v & Hk & Hin).
    assert (Hf : In v (filter (fun v => String.eqb (monthKey browser v) k) vs)).
    { apply filter_In. split; [assumption|]. now apply String.eqb_eq. }
    destruct (filter (fun v => String.eqb (monthKey browser v) k) vs); [destruct Hf|].
    cbn [length]. destruct (Z.eqb_spec (Z.of_nat (S (length l))) 0); [lia|].
    discriminate.
Qed.

(** The array built from the object, before it is sorted. *)
Lemma trend_items md vs :
  counted browser md vs ->
  map (fun month =>
         match Js.obj_get md month with
         | Some c => VisitTrendItem.mk month (MonthCounts.visits c)
                                       (MonthCounts.orders c)
         | None => VisitTrendItem.mk month 0 0
         end) (Js.obj_keys md)
  = map (fun month => VisitTrendItem.mk month (keyCount browser month vs)
                                        (keyCount browser month vs))
        (Js.obj_keys md).
Proof.
  intros [_ Hget]. apply map_ext. intros k. rewrite Hget.
  destruct (Z.eqb_spec (keyCount browser k vs) 0) as [->|]; reflexivity.
Qed.

(** Consistency is a property of the values of the array, not of their
    order. *)
Lemma consistent_Permutation {A : Type} (compareFn : A -> A -> Z)
    (l l' : list A) :
  Permutation l l' -> Js.consistent compareFn l -> Js.consistent compareFn l'.
Proof.
  intros Hperm Hc a b c Ha Hb Hc'.
  apply Hc; eapply Permutation_in; try eassumption;
    now apply Permutation_sym.
Qed.

Lemma compareTrend_total (a b : VisitTrendItem.t) :
  compareTrend a b <= 0 \/ compareTrend b a <= 0.
Proof. unfold compareTrend. destruct (monthTime a), (monthTime b); lia. Qed.

Hypothesis conforming : sortsAsSpecified browser.

(** The trend of any fetched list: a rearrangement of one item per key,
    with the number of visits counted under the key in both columns. *)
Lemma visitTrendOf_items (vs : list VisitData) :
  exists keys,
    NoDup keys /\
    (forall k, In k keys <-> In k (map (monthKey browser) vs)) /\
    visitTrendOf browser (Some vs) =
    map (fun month => VisitTrendItem.mk month (keyCount browser month vs)
                                        (keyCount browser month vs)) keys.
Proof.
  pose proof (fold_counted vs) as Hc.
  unfold visitTrendOf. cbv zeta. cbn [Js.or_nil].
  set (md := fold_left (countVisit browser) vs []) in *.
  rewrite (trend_items md vs Hc).
  set (g := fun month => VisitTrendItem.mk month (keyCount browser month vs)
                                           (keyCount browser month vs)).
  set (arr := map g (Js.obj_keys md)).
  destruct (conforming compareTrend arr) as [Hperm _].
  exists (map VisitTrendItem.month (arraySort browser compareTrend arr)).
  assert (Hkeys : Permutation (Js.obj_keys md)
                    (map VisitTrendItem.month
                       (arraySort browser compareTrend arr))).
  { rewrite <- Hperm. subst arr. rewrite map_map. cbn. now rewrite map_id. }
  split; [|split].
  - eapply Permutation_NoDup; [exact Hkeys|apply Hc].
  - intros k. rewrite <- (counted_keys md vs k Hc).
    split; apply Permutation_in; [now apply Permutation_sym|assumption].
  - rewrite map_map.
    assert (Hall : Forall (fun x => g (VisitTrendItem.month x) = x)
                          (arraySort browser compareTrend arr)).
    { eapply Permutation_Forall; [exact Hperm|].
      subst arr. apply Forall_forall. intros x Hx.
      apply in_map_iff in Hx. destruct Hx as (k & <- & _). reflexivity. }
    exact (map_fixed _ _ Hall).
Qed.

(** When the comparator is consistent for the buckets, the trend is
    sorted by it. *)
Lemma visitTrendOf_Sorted (allVisits : option (list VisitData)) :
  Js.consistent compareTrend (visitTrendOf browser allVisits) ->
  Sorted (Js.in_order compareTrend) (visitTrendOf browser allVisits).
Proof.
  unfold visitTrendOf. cbv zeta.
  match goal with
  | |- context [arraySort browser compareTrend ?a] => set (arr := a)
  end.
  destruct (conforming compareTrend arr) as [Hperm Hsort].
  intros Hc. rewrite Hsort.
  - apply sort_Sorted, compareTrend_total.
  - eapply consistent_Permutation; [apply Permutation_sym; exact Hperm|exact Hc].
Qed.

(** Every fetched row is counted under exactly one key. *)
Lemma total_indicator (keys : list string) (x : string) :
  NoDup keys -> In x keys ->
  total (map (fun k => if String.eqb x k then 1 else 0) keys) = 1.
Proof.
  induction 1 as [|k keys Hnotin Hnd IH]; intros Hin; [destruct Hin|].
  cbn [map total fold_right]. fold (total (map (fun k => if String.eqb x k then 1 else 0) keys)).
  destruct (String.eqb_spec x k) as [->|Hne].
  - assert (Hzero : total (map (fun k0 => if String.eqb k k0 then 1 else 0) keys) = 0).
    { clear IH Hnd Hin. induction keys as [|k0 keys IHk]; [reflexivity|].
      cbn [map total fold_right].
      fold (total (map (fun k1 => if String.eqb k k1 then 1 else 0) keys)).
      destruct (String.eqb_spec k k0) as [->|_].
      - exfalso. apply Hnotin. now left.
      - rewrite IHk; [reflexivity|]. intros H. apply Hnotin. now right. }
    rewrite Hzero. reflexivity.
  - destruct Hin as [->|Hin]; [contradiction|]. now rewrite IH.
Qed.

Lemma total_keyCount (keys : list string) (vs : list VisitData) :
  NoDup keys ->
  (forall v, In v vs -> In (monthKey browser v) keys) ->
  total (map (fun k => keyCount browser k vs) keys) = Z.of_nat (length vs).
Proof.
  intros Hnd. induction vs as [|v vs IH]; intros Hin.
  - cbn [length]. unfold keyCount. cbn [filter length].
    induction keys as [|k keys IHk]; [reflexivity|].
    cbn [map total fold_right].
    inversion Hnd; subst. unfold total in IHk. now rewrite IHk.
  - assert (Hsplit : forall ks,
      total (map (fun k => keyCount browser k (v :: vs)) ks) =
      total (map (fun k => if String.eqb (monthKey browser v) k then 1 else 0) ks)
      + total (map (fun k => keyCount browser k vs) ks)).
    { induction ks as [|k ks IHk]; [reflexivity|].
      cbn [map total fold_right]. unfold total in IHk. rewrite IHk.
      unfold keyCount. cbn [filter].
      destruct (String.eqb (monthKey browser v) k); cbn [length]; lia. }
    rewrite Hsplit, total_indicator, IH.
    + cbn [length]. lia.
    + intros w Hw. apply Hin. now right.
    + exact Hnd.
    + apply Hin. now left.
Qed.

End MonthlyDataFacts.

(** ** The visit trend *)

Section VisitTrendFacts.

Import Effect AdminDashboard.

Variable browser : Browser.
Hypothesis conforming : sortsAsSpecified browser.
Hypothesis apart : printsMonthsApart browser.

Lemma monthKey_wellDated v my :
  localMonthYear browser (date v) = Some my ->
  monthKey browser v = monthYearText browser my.
Proof.
  intros H. unfold monthKey, toLocaleMonthYear. now rewrite H.
Qed.

Lemma keys_are_months (keys : list string) :
  (forall k, In k keys ->
     exists my, (100 <= snd my)%nat /\ k = monthYearText browser my) ->
  exists months,
    keys = map (monthYearText browser) months /\
    Forall (fun my => (100 <= snd my)%nat) months.
Proof.
  induction keys as [|k keys IH]; intros H.
  - exists []. split; constructor.
  - destruct (H k (or_introl eq_refl)) as (my & Hy & ->).
    destruct IH as (months & -> & Hall); [intros; apply H; now right|].
    exists (my :: months). split; [reflexivity|now constructor].
Qed.

Lemma keyCount_visitsIn (vs : list VisitData) (my : Month * nat) :
  Forall (wellDated browser) vs ->
  keyCount browser (monthYearText browser my) vs = visitsIn browser vs my.
Proof.
  intros Hall. unfold keyCount, visitsIn. do 2 f_equal.
  apply filter_ext_in. intros v Hv.
  rewrite Forall_forall in Hall.
  destruct (Hall v Hv) as (my' & Hmy & _).
  unfold fallsIn. rewrite Hmy, (monthKey_wellDated v my' Hmy).
  destruct (String.eqb_spec (monthYearText browser my')
                            (monthYearText browser my)) as [E|E].
  - apply apart in E. symmetry. now apply sameMonth_spec.
  - symmetry. apply not_true_is_false. rewrite sameMonth_spec.
    intros ->. now apply E.
Qed.

Lemma trend_order_months (months : list (Month * nat)) (n : Month * nat -> Z) :
  Forall (fun my => (100 <= snd my)%nat) months ->
  Sorted (Js.in_order compareTrend) (map (fun my => bucket my (n my)) months) ->
  Sorted (fun a b => monthNumber a <= monthNumber b) months.
Proof.
  induction 1 as [|a months Ha Hall IH]; cbn [map]; intros Hs;
    [constructor|].
  inversion Hs as [|x l Hs' Hhd]; subst.
  constructor; [now apply IH|].
  destruct Hall as [|b months Hb Hall]; cbn [map] in Hhd; constructor.
  inversion Hhd as [|y l' Hab]; subst.
  unfold Js.in_order, compareTrend in Hab.
  rewrite !monthTime_bucket in Hab by assumption. lia.
Qed.

Lemma sorted_distinct_strict (months : list (Month * nat)) :
  Sorted (fun a b => monthNumber a <= monthNumber b) months ->
  NoDup months ->
  StronglySorted earlier months.
Proof.
  intros Hs Hnd.
  apply Sorted_StronglySorted in Hs; [|intros a b c; lia].
  induction Hs as [|a l Hs IH Hall]; [constructor|].
  inversion Hnd as [|x l' Hnotin Hnd']; subst.
  constructor; [now apply IH|].
  rewrite Forall_forall in *. intros b Hb. unfold earlier.
  specialize (Hall b Hb).
  destruct (Z.eq_dec (monthNumber a) (monthNumber b)) as [E|E]; [|lia].
  apply monthNumber_inj in E. subst b. contradiction.
Qed.

(** On keys the comparator can read, it is the difference of two month
    numbers: a consistent comparator. *)
Lemma compareTrend_consistent (months : list (Month * nat))
    (n : Month * nat -> Z) :
  Forall (fun my => (100 <= snd my)%nat) months ->
  Js.consistent compareTrend (map (fun my => bucket my (n my)) months).
Proof.
  intros Hall a b c Ha Hb Hc.
  rewrite Forall_forall in Hall.
  apply in_map_iff in Ha, Hb, Hc.
  destruct Ha as (ma & <- & Ha), Hb as (mb & <- & Hb), Hc as (mc & <- & Hc).
  unfold compareTrend.
  rewrite !monthTime_bucket by now apply Hall.
  repeat split; lia.
Qed.

(** The series computed from well-dated visits: one bucket for each
    month with a visit. *)
Lemma visitTrendOf_by_month (vs : list VisitData) :
  Forall (wellDated browser) vs ->
  exists months,
    visitTrendOf browser (Some vs) =
    map (fun my => bucketOf browser my (visitsIn browser vs my)) months /\
    NoDup months /\
    Forall (fun my => (100 <= snd my)%nat) months /\
    (forall my, In my months <->
       exists v, In v vs /\ localMonthYear browser (date v) = Some my).
Proof.
  intros Hall.
  destruct (visitTrendOf_items browser conforming vs) as (keys & Hnd & Hin & Heq).
  assert (Hvalid : forall k, In k keys ->
            exists my, (100 <= snd my)%nat /\ k = monthYearText browser my).
  { intros k Hk. apply Hin, in_map_iff in Hk. destruct Hk as (v & <- & Hv).
    rewrite Forall_forall in Hall. destruct (Hall v Hv) as (my & Hmy & Hy).
    exists my. split; [assumption|now apply monthKey_wellDated]. }
  destruct (keys_are_months keys Hvalid) as (months & -> & Hyears).
  exists months. split; [|split; [|split]].
  - rewrite Heq, map_map. apply map_ext. intros my. unfold bucketOf.
    now rewrite keyCount_visitsIn.
  - now apply NoDup_map_inv in Hnd.
  - exact Hyears.
  - intros my. split.
    + intros Hmy.
      assert (Hk : In (monthYearText browser my)
                      (map (monthYearText browser) months))
        by now apply in_map.
      apply Hin, in_map_iff in Hk. destruct Hk as (v & Hkey & Hv).
      exists v. split; [assumption|].
      rewrite Forall_forall in Hall. destruct (Hall v Hv) as (my' & Hmy' & _).
      rewrite (monthKey_wellDated v my' Hmy') in Hkey.
      apply apart in Hkey. now subst my'.
    + intros (v & Hv & Hmy).
      assert (Hk : In (monthYearText browser my)
                      (map (monthYearText browser) months)).
      { apply Hin, in_map_iff. exists v. split; [|assumption].
        now apply monthKey_wellDated. }
      apply in_map_iff in Hk. destruct Hk as (my' & E & Hin').
      apply apart in E. now subst my'.
Qed.

(** With the keys of [en-US] the buckets stand in the order of their
    months. *)
Lemma visitTrendOf_in_order (allVisits : option (list VisitData))
    (months : list (Month * nat)) (n : Month * nat -> Z) :
  printsEnglishMonths browser ->
  visitTrendOf browser allVisits =
    map (fun my => bucketOf browser my (n my)) months ->
  NoDup months ->
  Forall (fun my => (100 <= snd my)%nat) months ->
  StronglySorted earlier months.
Proof.
  intros english Htrend Hnd Hyears.
  assert (Hbuckets : visitTrendOf browser allVisits =
                     map (fun my => bucket my (n my)) months).
  { rewrite Htrend. apply map_ext. intros my. unfold bucketOf, bucket.
    now rewrite english. }
  apply sorted_distinct_strict; [|exact Hnd].
  apply (trend_order_months months n Hyears).
  rewrite <- Hbuckets. apply (visitTrendOf_Sorted browser conforming).
  rewrite Hbuckets. now apply compareTrend_consistent.
Qed.

(** What a fetch without a failed query leaves in the state. *)
Lemma fetchCoreDashboardData_success (q : CoreQueries) (s : State) :
  countError (count_mrs q) = None ->
  countError (count_doctors q) = None ->
  countError (count_visits q) = None ->
  countError (count_medicals q) = None ->
  Effect.error (visits_since q) = None ->
  visitTrend (exec (fetchCoreDashboardData browser q) s) =
  visitTrendOf browser (Effect.data (visits_since q)).
Proof.
  intros H1 H2 H3 H4 H5.
  unfold fetchCoreDashboardData, fetchCoreDashboardData_try.
  rewrite H1, H2, H3, H4, H5. reflexivity.
Qed.

End VisitTrendFacts.

Section SampleBrowsers.

Import AdminDashboard.

Lemma sample_sortsAsSpecified : sortsAsSpecified Sample.browser.
Proof.
  intros compareFn arr. split; [apply sort_Permutation|reflexivity].
Qed.

Lemma sample_printsMonthsApart : printsMonthsApart Sample.browser.
Proof. intros my my'. apply formatMonthYear_inj. Qed.

Lemma british_sortsAsSpecified : sortsAsSpecified Sample.britishBrowser.
Proof.
  intros compareFn arr. split; [apply sort_Permutation|reflexivity].
Qed.

(** In [en-GB] a bucket of September in front of a bucket of August
    stays there, whatever engine sorts the array: no key compares
    smaller or greater than the key of September. *)
Lemma september_stays_in_front (engine : Browser) :
  sortsAsSpecified engine ->
  arraySort engine compareTrend
    [bucketOf Sample.britishBrowser (Sep, 2024%nat) 1;
     bucketOf Sample.britishBrowser (Aug, 2024%nat) 1]
  = [bucketOf Sample.britishBrowser (Sep, 2024%nat) 1;
     bucketOf Sample.britishBrowser (Aug, 2024%nat) 1].
Proof.
  intros Hsort.
  destruct (Hsort compareTrend
              [bucketOf Sample.britishBrowser (Sep, 2024%nat) 1;
               bucketOf Sample.britishBrowser (Aug, 2024%nat) 1])
    as [_ Hstable].
  rewrite Hstable; [vm_compute; reflexivity|].
  intros a b c [<-|[<-|[]]] [<-|[<-|[]]] [<-|[<-|[]]];
    vm_compute; repeat split; intros; congruence.
Qed.

End SampleBrowsers.




Example visitTrend_sample :
  AdminDashboard.visitTrend
    (Effect.exec
       (AdminDashboard.fetchCoreDashboardData Sample.browser Sample.coreOk)
       AdminDashboard.initialState)
  = [AdminDashboard.VisitTrendItem.mk "Dec 2023" 1 1;
     AdminDashboard.VisitTrendItem.mk "Jan 2024" 2 2;
     AdminDashboard.VisitTrendItem.mk "Mar 2024" 1 1].
Proof. vm_compute. reflexivity. Qed.

Lemma pendingApprovals_length_is_sum_witness :
  length (AdminDashboard.pendingApprovals
            (Effect.exec
               (AdminDashboard.fetchPendingApprovals Sample.browser
                  Sample.pendingOk)
               AdminDashboard.initialState)) =
  (length (Js.or_nil (Effect.data
             (AdminDashboard.visits_pending Sample.pendingOk)))
   + length (Js.or_nil (Effect.data
               (AdminDashboard.profiles_pending Sample.pendingOk)))
   + length (Js.or_nil (Effect.data
               (AdminDashboard.doctors_unverified Sample.pendingOk)))
   + length (Js.or_nil (Effect.data
               (AdminDashboard.medical_visits_pending Sample.pendingOk))))%nat.
Proof.
  apply (pendingApprovals_length_is_sum Sample.browser Sample.pendingOk
           AdminDashboard.initialState).
  reflexivity.
Defined.

(** C10. In the trend computed from any fetched rows there is exactly
    one bucket for each month key under which a fetched row is counted,
    every fetched row is counted in the bucket of its key, and every
    bucket has the same number in its orders column as in its visits
    column: the number of fetched rows counted under its key.  So both
    columns add up to the number of fetched rows. *)
Theorem visitTrend_orders_equal_visits :
  forall (browser : AdminDashboard.Browser)
         (allVisits : option (list AdminDashboard.VisitData)),
    AdminDashboard.sortsAsSpecified browser ->
    let rows := Js.or_nil allVisits in
    let trend := AdminDashboard.visitTrendOf browser allVisits in
    Forall (fun item =>
              AdminDashboard.VisitTrendItem.orders item =
              AdminDashboard.VisitTrendItem.visits item /\
              AdminDashboard.VisitTrendItem.visits item =
              AdminDashboard.keyCount browser
                (AdminDashboard.VisitTrendItem.month item) rows)
           trend /\
    NoDup (map AdminDashboard.VisitTrendItem.month trend) /\
    (forall row, In row rows ->
       exists item, In item trend /\
         AdminDashboard.VisitTrendItem.month item =
         AdminDashboard.monthKey browser row) /\
    AdminDashboard.total (map AdminDashboard.VisitTrendItem.visits trend) =
      Z.of_nat (length rows) /\
    AdminDashboard.total (map AdminDashboard.VisitTrendItem.orders trend) =
      Z.of_nat (length rows).
Proof.
  intros browser allVisits Hsort rows trend.
  assert (Hsome : trend = AdminDashboard.visitTrendOf browser (Some rows)).
  { subst trend rows. destruct allVisits; reflexivity. }
  rewrite Hsome. clear Hsome trend.
  destruct (visitTrendOf_items browser Hsort rows) as (keys & Hnd & Hin & ->).
  rewrite !map_map. cbn [AdminDashboard.VisitTrendItem.month
    AdminDashboard.VisitTrendItem.visits AdminDashboard.VisitTrendItem.orders].
  rewrite map_id.
  assert (Htotal : AdminDashboard.total
            (map (fun k => AdminDashboard.keyCount browser k rows) keys) =
            Z.of_nat (length rows)).
  { apply total_keyCount; [exact Hnd|].
    intros v Hv. apply Hin. now apply in_map. }
  repeat split; try assumption.
  - apply Forall_forall. intros item Hitem.
    apply in_map_iff in Hitem. destruct Hitem as (k & <- & _).
    cbn. split; reflexivity.
  - intros row Hrow.
    assert (Hk : In (AdminDashboard.monthKey browser row) keys)
      by (apply Hin; now apply in_map).
    eexists. split; [apply in_map_iff; eexists; split; [reflexivity|exact Hk]|].
    reflexivity.
Qed.

Lemma visitTrend_orders_equal_visits_witness :
  let rows := Js.or_nil (Some Sample.visitDates) in
  let trend := AdminDashboard.visitTrendOf Sample.browser
                 (Some Sample.visitDates) in
  Forall (fun item =>
            AdminDashboard.VisitTrendItem.orders item =
            AdminDashboard.VisitTrendItem.visits item /\
            AdminDashboard.VisitTrendItem.visits item =
            AdminDashboard.keyCount Sample.browser
              (AdminDashboard.VisitTrendItem.month item) rows)
         trend /\
  NoDup (map AdminDashboard.VisitTrendItem.month trend) /\
  (forall row, In row rows ->
     exists item, In item trend /\
       AdminDashboard.VisitTrendItem.month item =
       AdminDashboard.monthKey Sample.browser row) /\
  AdminDashboard.total (map AdminDashboard.VisitTrendItem.visits trend) =
    Z.of_nat (length rows) /\
  AdminDashboard.total (map AdminDashboard.VisitTrendItem.orders trend) =
    Z.of_nat (length rows).
Proof.
  apply (visitTrend_orders_equal_visits Sample.browser
           (Some Sample.visitDates)).
  apply sample_sortsAsSpecified.
Defined.

(** ** Failures of the core fetch *)

Section CoreFailureFacts.

Import Effect AdminDashboard.

Variable browser : Browser.

Lemma fetchCoreDashboardData_count_failure q s message :
  countFailure q = Some message ->
  exec (fetchCoreDashboardData browser q) s =
  exec (setCoreLoading false)
    (exec (setError (Some ("Failed to fetch dashboard data: " +++ message)))
       (exec (setError None) (exec (setCoreLoading true) s))).
Proof.
  unfold countFailure, fetchCoreDashboardData, fetchCoreDashboardData_try.
  destruct (countError (count_mrs q)) as [e1|];
    [intros [= <-]; reflexivity|].
  destruct (countError (count_doctors q)) as [e2|];
    [intros [= <-]; reflexivity|].
  destruct (countError (count_visits q)) as [e3|];
    [intros [= <-]; reflexivity|].
  destruct (countError (count_medicals q)) as [e4|];
    [intros [= <-]; reflexivity|].
  discriminate.
Qed.

Lemma fetchCoreDashboardData_trend_failure q s message :
  countFailure q = None ->
  trendFailure q = Some message ->
  exec (fetchCoreDashboardData browser q) s =
  exec (setCoreLoading false)
    (exec (setError (Some ("Failed to fetch dashboard data: " +++ message)))
       (exec (setStats (fetchedStats q))
          (exec (setError None) (exec (setCoreLoading true) s)))).
Proof.
  unfold countFailure, trendFailure, fetchCoreDashboardData,
    fetchCoreDashboardData_try.
  destruct (countError (count_mrs q)) as [e1|]; [discriminate|].
  destruct (countError (count_doctors q)) as [e2|]; [discriminate|].
  destruct (countError (count_visits q)) as [e3|]; [discriminate|].
  destruct (countError (count_medicals q)) as [e4|]; [discriminate|].
  intros _.
  destruct (Effect.error (visits_since q)) as [e5|]; [|discriminate].
  intros [= <-]. reflexivity.
Qed.

End CoreFailureFacts.

(** C8, as the specification states it, fails: when the four counts
    arrive and only the trend query fails, the stats have already been
    replaced by the counts of that fetch. *)
Lemma trend_failure_still_updates_stats :
  AdminDashboard.coreFailure Sample.trendFails <> None /\
  AdminDashboard.stats
    (Effect.exec
       (AdminDashboard.fetchCoreDashboardData Sample.browser Sample.trendFails)
       AdminDashboard.initialState)
  <> AdminDashboard.stats AdminDashboard.initialState.
Proof. split; vm_compute; discriminate. Qed.

(** C8, amended. When a core query fails, the page-level error becomes
    the message of that failure, the loading flag of the core group is
    cleared, and the visit trend keeps its value; the stats keep their
    value when a count query failed, and hold the counts of this fetch
    when only the trend query failed. *)
Theorem core_failure_sets_error_keeps_trend :
  forall (browser : AdminDashboard.Browser) (q : AdminDashboard.CoreQueries)
         (s : AdminDashboard.State) (message : string),
    AdminDashboard.coreFailure q = Some message ->
    let s' := Effect.exec (AdminDashboard.fetchCoreDashboardData browser q) s in
    AdminDashboard.error s' =
      Some ("Failed to fetch dashboard data: " +++ message) /\
    AdminDashboard.coreLoading s' = false /\
    AdminDashboard.visitTrend s' = AdminDashboard.visitTrend s /\
    AdminDashboard.stats s' =
      match AdminDashboard.countFailure q with
      | Some _ => AdminDashboard.stats s
      | None => AdminDashboard.fetchedStats q
      end.
Proof.
  intros browser q s message Hfail s'. subst s'.
  unfold AdminDashboard.coreFailure in Hfail.
  destruct (AdminDashboard.countFailure q) as [m|] eqn:Hc.
  - injection Hfail as ->.
    rewrite (fetchCoreDashboardData_count_failure browser q s message Hc).
    repeat split.
  - rewrite (fetchCoreDashboardData_trend_failure browser q s message Hc Hfail).
    repeat split.
Qed.

Lemma core_failure_sets_error_keeps_trend_witness :
  let s' := Effect.exec
              (AdminDashboard.fetchCoreDashboardData Sample.browser
                 Sample.countFails) AdminDashboard.initialState in
  AdminDashboard.error s' =
    Some ("Failed to fetch dashboard data: " +++
          "Failed to fetch doctors count: connection refused") /\
  AdminDashboard.coreLoading s' = false /\
  AdminDashboard.visitTrend s' =
    AdminDashboard.visitTrend AdminDashboard.initialState /\
  AdminDashboard.stats s' =
    match AdminDashboard.countFailure Sample.countFails with
    | Some _ => AdminDashboard.stats AdminDashboard.initialState
    | None => AdminDashboard.fetchedStats Sample.countFails
    end.
Proof.
  apply (core_failure_sets_error_keeps_trend Sample.browser Sample.countFails
           AdminDashboard.initialState
           "Failed to fetch doctors count: connection refused").
  reflexivity.
Defined.

(** ** Searching with a term of white space *)

Section WhiteSpaceSearch.

Lemma white_space_code (w : ascii) :
  Js.is_white_space w = true -> (nat_of_ascii w <= 32)%nat.
Proof.
  unfold Js.is_white_space. cbv zeta.
  rewrite orb_true_iff, andb_true_iff, !Nat.leb_le, Nat.eqb_eq. lia.
Qed.

(** Lower-casing neither makes nor unmakes a white-space character. *)
Lemma lower_char_white_space (w c : ascii) :
  Js.is_white_space w = true -> (w = Js.lower_char c <-> w = c).
Proof.
  intros Hw. apply white_space_code in Hw.
  unfold Js.lower_char, Js.is_upper.
  destruct ((65 <=? nat_of_ascii c)%nat && (nat_of_ascii c <=? 90)%nat)
    eqn:Hup; [|reflexivity].
  apply andb_true_iff in Hup. destruct Hup as [H1 H2].
  apply Nat.leb_le in H1, H2.
  split; intros ->.
  - rewrite nat_ascii_embedding in Hw by lia. lia.
  - lia.
Qed.

Lemma toLowerCase_white_space (t : string) :
  Js.whitespace_only t = true -> Js.toLowerCase t = t.
Proof.
  induction t as [|w t IH]; cbn; [reflexivity|].
  rewrite andb_true_iff. intros [Hw Ht]. rewrite (IH Ht). f_equal.
  symmetry. now apply lower_char_white_space.
Qed.

Lemma starts_with_toLowerCase (t s : string) :
  Js.whitespace_only t = true ->
  Js.starts_with t (Js.toLowerCase s) = Js.starts_with t s.
Proof.
  revert s. induction t as [|w t IH]; intros s; [reflexivity|].
  cbn [Js.whitespace_only]. rewrite andb_true_iff. intros [Hw Ht].
  destruct s as [|c s]; cbn [Js.toLowerCase Js.starts_with]; [reflexivity|].
  rewrite (IH s Ht). f_equal.
  pose proof (lower_char_white_space w c Hw) as Hiff.
  destruct (Ascii.eqb_spec w (Js.lower_char c)) as [E|E],
           (Ascii.eqb_spec w c) as [E'|E']; tauto.
Qed.

Lemma includes_toLowerCase (t s : string) :
  Js.whitespace_only t = true ->
  Js.includes (Js.toLowerCase s) (Js.toLowerCase t) = Js.includes s t.
Proof.
  intros Ht. rewrite (toLowerCase_white_space t Ht).
  induction s as [|c s IH]; cbn [Js.toLowerCase Js.includes].
  - change EmptyString with (Js.toLowerCase EmptyString) at 1.
    now rewrite starts_with_toLowerCase.
  - change (String (Js.lower_char c) (Js.toLowerCase s))
      with (Js.toLowerCase (String c s)).
    now rewrite starts_with_toLowerCase, IH.
Qed.

Lemma includes_empty (s : string) : Js.includes s EmptyString = true.
Proof. destruct s; reflexivity. Qed.

(** A callback that does not throw on the elements of the array makes
    [filter] the filter of lists. *)
Lemma filter_throwing_normal {A : Type}
    (callbackFn : A -> Effect.Completion bool) (f : A -> bool) (arr : list A) :
  Forall (fun x => callbackFn x = Effect.Normal (f x)) arr ->
  Rows.filter_throwing callbackFn arr = Effect.Normal (filter f arr).
Proof.
  induction 1 as [|x arr Hx _ IH]; cbn [Rows.filter_throwing filter];
    [reflexivity|].
  now rewrite Hx, IH.
Qed.

Lemma lazy_or_normal (a b : bool) :
  Rows.lazy_or (Effect.Normal a) (Effect.Normal b) = Effect.Normal (a || b).
Proof. now destruct a. Qed.

Lemma lowerIncludes_white_space (text t : string) :
  Js.whitespace_only t = true ->
  Rows.lowerIncludes (Some text) t = Effect.Normal (Js.includes text t).
Proof. intros Ht. cbn. now rewrite includes_toLowerCase. Qed.

Lemma lowerIncludes_empty (text : string) (rest : Effect.Completion bool) :
  Rows.lazy_or (Rows.lowerIncludes (Some text) EmptyString) rest =
  Effect.Normal true.
Proof.
  cbn [Rows.lowerIncludes Js.toLowerCase]. now rewrite includes_empty.
Qed.

End WhiteSpaceSearch.

(** C7, as the specification states it, fails: the term is not trimmed,
    so a single space selects the doctors that have a space in a
    searched field.  For the two sample doctors that is the first one
    only. *)
Lemma whitespace_search_proper_subset :
  Js.whitespace_only " " = true /\
  DoctorsList.filteredDoctors Sample.twoDoctors " " =
    Effect.Normal (firstn 1 Sample.twoDoctors) /\
  DoctorsManagement.filteredDoctors Sample.twoDoctors " " =
    Effect.Normal (firstn 1 Sample.twoDoctors) /\
  firstn 1 Sample.twoDoctors <> Sample.twoDoctors /\
  firstn 1 Sample.twoDoctors <> [].
Proof. repeat split; try reflexivity; vm_compute; discriminate. Qed.

(** C7, amended. For a term of white space only and doctors that have
    an address (and, on the admin screen, an area), both searches
    return, in their order, exactly the doctors in which the term occurs
    as it was typed in one of the searched fields; for the empty term
    that is the full list, whatever the doctors. *)
Theorem whitespace_search_selects_mentions :
  forall (doctors : list Doctor.t) (searchTerm : string),
    Js.whitespace_only searchTerm = true ->
    (Forall (fun doctor => Doctor.address doctor <> None) doctors ->
     DoctorsList.filteredDoctors doctors searchTerm =
       Effect.Normal (filter (DoctorsList.mentions searchTerm) doctors)) /\
    (Forall (fun doctor => Doctor.address doctor <> None /\
                           Doctor.area doctor <> None) doctors ->
     DoctorsManagement.filteredDoctors doctors searchTerm =
       Effect.Normal (filter (DoctorsManagement.mentions searchTerm) doctors)) /\
    (searchTerm = EmptyString ->
       DoctorsList.filteredDoctors doctors searchTerm =
         Effect.Normal doctors /\
       DoctorsManagement.filteredDoctors doctors searchTerm =
         Effect.Normal doctors).
Proof.
  intros doctors t Ht. split; [|split].
  - intros Hall. apply filter_throwing_normal.
    eapply Forall_impl; [|exact Hall]. cbv beta. intros d Haddress.
    destruct (Doctor.address d) as [address|] eqn:E; [|congruence].
    rewrite !lowerIncludes_white_space, !lazy_or_normal by assumption.
    unfold DoctorsList.mentions. rewrite E. cbn [Rows.occursIn].
    now rewrite !orb_assoc.
  - intros Hall. apply filter_throwing_normal.
    eapply Forall_impl; [|exact Hall]. cbv beta. intros d [Haddress Harea].
    destruct (Doctor.address d) as [address|] eqn:E; [|congruence].
    destruct (Doctor.area d) as [area|] eqn:E'; [|congruence].
    rewrite !lowerIncludes_white_space, !lazy_or_normal by assumption.
    unfold DoctorsManagement.mentions. rewrite E, E'. cbn [Rows.occursIn].
    now rewrite !orb_assoc.
  - intros ->. split.
    + unfold DoctorsList.filteredDoctors.
      rewrite <- (filter_true doctors) at 2.
      apply filter_throwing_normal, Forall_forall. intros d _.
      apply lowerIncludes_empty.
    + unfold DoctorsManagement.filteredDoctors.
      rewrite <- (filter_true doctors) at 2.
      apply filter_throwing_normal, Forall_forall. intros d _.
      apply lowerIncludes_empty.
Qed.

Lemma whitespace_search_selects_mentions_witness :
  DoctorsList.filteredDoctors Sample.twoDoctors " " =
    Effect.Normal (filter (DoctorsList.mentions " ") Sample.twoDoctors) /\
  DoctorsManagement.filteredDoctors Sample.twoDoctors " " =
    Effect.Normal (filter (DoctorsManagement.mentions " ") Sample.twoDoctors).
Proof.
  destruct (whitespace_search_selects_mentions Sample.twoDoctors " ")
    as (Hlist & Hadmin & _); [reflexivity|].
  split.
  - apply Hlist. repeat constructor; discriminate.
  - apply Hadmin. repeat constructor; discriminate.
Defined.

(** On the admin screen a doctor without an area ends the search with a
    [TypeError] unless another field holds the term; the list of the MR
    does not read the area. *)
Example search_reads_a_null_area :
  DoctorsManagement.filteredDoctors [Sample.doctorWithoutArea] " " =
    Effect.Abrupt Rows.typeError /\
  DoctorsManagement.filteredDoctors [Sample.doctorWithoutArea] "kiran" =
    Effect.Normal [Sample.doctorWithoutArea] /\
  DoctorsList.filteredDoctors [Sample.doctorWithoutArea] " " =
    Effect.Normal [].
Proof. repeat split. Qed.

(** ** Loading flags *)

Section IoFacts.

Import Effect.

Context {S : Type}.

Lemma exec_bind_modify {A : Type} (f : S -> S) (k : Io S A) (s : S) :
  exec (modify f ;; k) s = exec k (f s).
Proof. reflexivity. Qed.

Lemma exec_bind_gets {A B : Type} (g : S -> A) (k : A -> Io S B) (s : S) :
  exec (x <- gets g ;; k x) s = exec (k (g s)) s.
Proof. reflexivity. Qed.

(** A finalizer that only writes the state is applied to whatever state
    the [try] and the [catch] leave. *)
Lemma exec_finally_modify {A : Type} (body : Io S A)
    (handler : Thrown -> Io S A) (f : S -> S) (s : S) :
  exec (try_catch_finally body handler (modify f)) s =
  f (exec (try_catch body handler) s).
Proof.
  unfold exec, try_catch_finally, try_finally, modify.
  destruct (try_catch body handler s) as [r s']. reflexivity.
Qed.

(** A [catch] that only runs when the body throws. *)
Lemma exec_catch_thrown {A : Type} (body : Io S A)
    (handler : Thrown -> Io S A) (s s' : S) (e : Thrown) :
  body s = (Abrupt e, s') ->
  exec (try_catch body handler) s = exec (handler e) s'.
Proof. intros H. unfold exec, try_catch. now rewrite H. Qed.

End IoFacts.

Section DashboardFlags.

Import Effect AdminDashboard.

Lemma coreLoading_cleared browser q s :
  coreLoading (exec (fetchCoreDashboardData browser q) s) = false.
Proof.
  unfold fetchCoreDashboardData, setCoreLoading, setError.
  rewrite !exec_bind_modify, exec_finally_modify. reflexivity.
Qed.

Lemma pendingLoading_cleared browser q s :
  pendingLoading (exec (fetchPendingApprovals browser q) s) = false.
Proof.
  unfold fetchPendingApprovals, setPendingLoading.
  rewrite !exec_bind_modify, exec_finally_modify. reflexivity.
Qed.

Lemma topMRsLoading_cleared q today weeklyStartDate s :
  topMRsLoading (exec (fetchTopMRs q today weeklyStartDate) s) = false.
Proof.
  unfold fetchTopMRs, setTopMRsLoading.
  rewrite !exec_bind_modify, exec_finally_modify. reflexivity.
Qed.

Lemma handleDecision_failure decision browser m core id type e s :
  mutate m (fst (decision type)) (snd (decision type)) id = Some e ->
  loading (exec (handleDecision decision browser m core id type) s) = false.
Proof.
  intros Hfail. unfold handleDecision, setLoading, setError.
  rewrite !exec_bind_modify.
  erewrite exec_catch_thrown.
  - rewrite exec_bind_modify. reflexivity.
  - unfold handleDecision_try. destruct (decision type) as [table change].
    cbn [fst snd] in Hfail. unfold bind. rewrite Hfail. reflexivity.
Qed.

Lemma handleBulk_loading_cleared handleOne s :
  loading (exec (handleBulk handleOne) s) = false.
Proof.
  unfold handleBulk, setLoading, setError.
  rewrite !exec_bind_gets, !exec_bind_modify, exec_finally_modify.
  reflexivity.
Qed.

End DashboardFlags.

Section PageFlags.

Import Effect.

Lemma report_fetchReports_loading_cleared role selectedMr q s :
  ReportPage.loading (exec (ReportPage.fetchReports role selectedMr q) s)
  = false.
Proof.
  unfold ReportPage.fetchReports, ReportPage.setLoading, ReportPage.setError.
  rewrite !exec_bind_modify, exec_finally_modify. reflexivity.
Qed.

Lemma fetchDoctors_loading_cleared q s :
  DoctorsList.isLoading (exec (DoctorsList.fetchDoctors q) s) = false.
Proof.
  unfold DoctorsList.fetchDoctors, DoctorsList.setIsLoading.
  rewrite exec_finally_modify. reflexivity.
Qed.

Lemma fetchDoctorsAndUsers_loading_cleared q s :
  DoctorsManagement.isLoading
    (exec (DoctorsManagement.fetchDoctorsAndUsers q) s) = false.
Proof.
  unfold DoctorsManagement.fetchDoctorsAndUsers,
    DoctorsManagement.setIsLoading.
  rewrite exec_finally_modify. reflexivity.
Qed.

Lemma fetchMedicals_loading_cleared q s :
  MedicalsManagement.isLoading
    (exec (MedicalsManagement.fetchMedicals q) s) = false.
Proof.
  unfold MedicalsManagement.fetchMedicals, MedicalsManagement.setIsLoading.
  rewrite exec_finally_modify. reflexivity.
Qed.

Lemma medical_fetchReports_loading_cleared role selectedMr q s :
  MedicalVisitsReportPage.loading
    (exec (MedicalVisitsReportPage.fetchReports role selectedMr q true) s)
  = false.
Proof.
  unfold MedicalVisitsReportPage.fetchReports,
    MedicalVisitsReportPage.setLoading, MedicalVisitsReportPage.setError.
  rewrite !exec_bind_modify, exec_finally_modify. reflexivity.
Qed.

(** The handler of [fetchFilterOptions] and every statement of its [try]
    block leave the loading flag as it is. *)
Lemma fetchFilterOptions_try_keeps_loading role q mrId s :
  ReportPage.loading
    (exec (try_catch (ReportPage.fetchFilterOptions_try role q mrId)
             (fun err =>
                ReportPage.setError
                  (Some (Js.or_else (Some (messageOf err))
                           "Failed to load filter options.")) ;;
                ReportPage.setMrOptions [] ;;
                ReportPage.setDoctorOptions [] ;;
                ReportPage.setMedicineOptions [])) s)
  = ReportPage.loading s.
Proof.
  unfold ReportPage.fetchFilterOptions_try, ReportPage.expect_array,
    ReportPage.setError, ReportPage.setMrOptions,
    ReportPage.setDoctorOptions, ReportPage.setMedicineOptions.
  unfold exec, try_catch, bind, modify, ret, throw.
  destruct (error (ReportPage.profiles_mr q)),
           (data (ReportPage.profiles_mr q)); try reflexivity.
  destruct (Rows.is_admin role && String.eqb mrId "all").
  - destruct (error (ReportPage.doctors_all q)),
             (data (ReportPage.doctors_all q)); try reflexivity.
    destruct (error (ReportPage.medicines_all q)),
             (data (ReportPage.medicines_all q)); reflexivity.
  - destruct (error (ReportPage.visits_of_mr q mrId)),
             (data (ReportPage.visits_of_mr q mrId)); reflexivity.
Qed.

Lemma fetchFilterOptions_leaves_loading role q mrId s :
  ReportPage.loading (exec (ReportPage.fetchFilterOptions role q mrId) s)
  = true.
Proof.
  unfold ReportPage.fetchFilterOptions, ReportPage.setLoading.
  rewrite exec_bind_modify.
  change (ret tt) with (@modify ReportPage.State (fun s => s)).
  rewrite exec_finally_modify.
  now rewrite fetchFilterOptions_try_keeps_loading.
Qed.

End PageFlags.

(** C9, as the specification states it, fails for [fetchFilterOptions]
    of the visit report page: its [finally] block is empty on purpose,
    so when the query for the MR options fails the loading flag it set
    is still set when it completes. *)
Lemma fetchFilterOptions_failure_keeps_loading :
  Effect.throws
    (ReportPage.fetchFilterOptions_try Rows.admin Sample.reportDown "all")
    (Effect.exec (ReportPage.setLoading true) Sample.reportInitial) = true /\
  ReportPage.loading
    (Effect.exec (ReportPage.fetchFilterOptions Rows.admin Sample.reportDown "all")
       Sample.reportInitial) = true.
Proof. split; reflexivity. Qed.

(** C9, amended. Every data-fetching operation but [fetchFilterOptions]
    of the visit report page has cleared the loading flag it set by the
    time it completes after a failure: the fetches with a [finally]
    block clear it on every path, [handleApprove] and [handleReject]
    clear it in their [catch] block.  [fetchFilterOptions] leaves the
    flag set on every path; [fetchReports] clears it later. *)
Theorem loading_flags_cleared_after_failure :
  (forall browser q s,
     AdminDashboard.coreLoading
       (Effect.exec (AdminDashboard.fetchCoreDashboardData browser q) s)
     = false) /\
  (forall browser q s,
     AdminDashboard.pendingLoading
       (Effect.exec (AdminDashboard.fetchPendingApprovals browser q) s)
     = false) /\
  (forall q today weeklyStartDate s,
     AdminDashboard.topMRsLoading
       (Effect.exec (AdminDashboard.fetchTopMRs q today weeklyStartDate) s)
     = false) /\
  (forall browser m core id type e s,
     AdminDashboard.mutate m (fst (AdminDashboard.approval type))
       (snd (AdminDashboard.approval type)) id = Some e ->
     AdminDashboard.loading
       (Effect.exec (AdminDashboard.handleApprove browser m core id type) s)
     = false) /\
  (forall browser m core id type e s,
     AdminDashboard.mutate m (fst (AdminDashboard.rejection type))
       (snd (AdminDashboard.rejection type)) id = Some e ->
     AdminDashboard.loading
       (Effect.exec (AdminDashboard.handleReject browser m core id type) s)
     = false) /\
  (forall browser m core s,
     AdminDashboard.loading
       (Effect.exec (AdminDashboard.handleBulkApprove browser m core) s)
     = false) /\
  (forall browser m core s,
     AdminDashboard.loading
       (Effect.exec (AdminDashboard.handleBulkReject browser m core) s)
     = false) /\
  (forall role selectedMr q s,
     ReportPage.loading
       (Effect.exec (ReportPage.fetchReports role selectedMr q) s) = false) /\
  (forall q s,
     DoctorsList.isLoading (Effect.exec (DoctorsList.fetchDoctors q) s)
     = false) /\
  (forall q s,
     DoctorsManagement.isLoading
       (Effect.exec (DoctorsManagement.fetchDoctorsAndUsers q) s) = false) /\
  (forall q s,
     MedicalsManagement.isLoading
       (Effect.exec (MedicalsManagement.fetchMedicals q) s) = false) /\
  (forall role selectedMr q s,
     MedicalVisitsReportPage.loading
       (Effect.exec
          (MedicalVisitsReportPage.fetchReports role selectedMr q true) s)
     = false) /\
  (forall role q mrId s,
     ReportPage.loading
       (Effect.exec (ReportPage.fetchFilterOptions role q mrId) s) = true).
Proof.
  repeat split; intros.
  - apply coreLoading_cleared.
  - apply pendingLoading_cleared.
  - apply topMRsLoading_cleared.
  - eapply handleDecision_failure; eassumption.
  - eapply handleDecision_failure; eassumption.
  - apply handleBulk_loading_cleared.
  - apply handleBulk_loading_cleared.
  - apply report_fetchReports_loading_cleared.
  - apply fetchDoctors_loading_cleared.
  - apply fetchDoctorsAndUsers_loading_cleared.
  - apply fetchMedicals_loading_cleared.
  - apply medical_fetchReports_loading_cleared.
  - apply fetchFilterOptions_leaves_loading.
Qed.

Example handleApprove_failure_sample :
  AdminDashboard.loading
    (Effect.exec
       (AdminDashboard.handleApprove Sample.browser Sample.mutationsFail
          Sample.coreOk "v1" AdminDashboard.Visit)
       AdminDashboard.initialState) = false /\
  AdminDashboard.error
    (Effect.exec
       (AdminDashboard.handleApprove Sample.browser Sample.mutationsFail
          Sample.coreOk "v1" AdminDashboard.Visit)
       AdminDashboard.initialState) = Some "[object Object]".
Proof. split; reflexivity. Qed.

Lemma loading_flags_cleared_after_failure_witness :
  AdminDashboard.loading
    (Effect.exec
       (AdminDashboard.handleApprove Sample.browser Sample.mutationsFail
          Sample.coreOk "v1" AdminDashboard.Visit)
       AdminDashboard.initialState) = false /\
  ReportPage.loading
    (Effect.exec
       (ReportPage.fetchReports Rows.admin "all" Sample.reportDown)
       Sample.reportInitial) = false.
Proof.
  pose proof loading_flags_cleared_after_failure as H.
  destruct H as (_ & _ & _ & Happrove & _ & _ & _ & Hreports & _).
  split.
  - apply (Happrove Sample.browser Sample.mutationsFail Sample.coreOk "v1"
             AdminDashboard.Visit Sample.unreachable).
    reflexivity.
  - apply Hreports.
Defined.

(** ** The embedding at work on the sample data *)

Example sort_is_stable :
  Js.sort (fun a b => fst a - fst b)
          [(2, "a"); (1, "b"); (2, "c"); (1, "d")]
  = [(1, "b"); (1, "d"); (2, "a"); (2, "c")].
Proof. reflexivity. Qed.

Example slice_counts_from_the_end :
  Js.slice [1; 2; 3; 4; 5] (-2) 10 = [4; 5].
Proof. reflexivity. Qed.

Example second_page_of_25 :
  Pagination.paginatedData (map Z.of_nat (seq 0 25)) 3 10 = [20; 21; 22; 23; 24].
Proof. reflexivity. Qed.

Example ranking_all_time :
  AdminDashboard.topMRsFor AdminDashboard.all
    (Effect.exec
       (AdminDashboard.fetchTopMRs (RemoteStore.mrQueries Sample.database)
          172800000 (-432000000))
       AdminDashboard.initialState)
  = [AdminDashboard.MRPerformance.mk "Meera" 2 10;
     AdminDashboard.MRPerformance.mk "Ravi" 1 1].
Proof. vm_compute. reflexivity. Qed.

Example ranking_daily :
  AdminDashboard.topMRsFor AdminDashboard.daily
    (Effect.exec
       (AdminDashboard.fetchTopMRs (RemoteStore.mrQueries Sample.database)
          172800000 (-432000000))
       AdminDashboard.initialState)
  = [AdminDashboard.MRPerformance.mk "Meera" 1 0].
Proof. vm_compute. reflexivity. Qed.

Example pending_queue_sample :
  map AdminDashboard.pa_name
    (AdminDashboard.pendingApprovals
       (Effect.exec
          (AdminDashboard.fetchPendingApprovals Sample.browser Sample.pendingOk)
          AdminDashboard.initialState))
  = ["Ravi"; "Unknown MR"; "Asha"; "Dr. Kulkarni"; "Dr. Shah"; "Dr. Patil";
     "Ravi"].
Proof. vm_compute. reflexivity. Qed.

Example search_by_space :
  DoctorsList.filteredDoctors Sample.twoDoctors " "
  = Effect.Normal (firstn 1 Sample.twoDoctors).
Proof. vm_compute. reflexivity. Qed.

Example toggles_from_the_report_default :
  SortableTable.sortDirection
    (SortableTable.handleSort String.eqb SortableTable.asc "date"
       (SortableTable.handleSort String.eqb SortableTable.asc "date"
          (SortableTable.useSortableTable "date" SortableTable.desc)))
  = SortableTable.desc.
Proof. reflexivity. Qed.

(* ================================================================== *)
(** * Part III: further properties of the code *)
(* ================================================================== *)

(** ** Pages and the pager *)

Section PageBounds.

Context {A : Type}.
Implicit Types (arr : list A) (p k : Z).

Lemma paginatedData_length arr p k :
  0 < p -> 1 <= k ->
  Z.of_nat (length (Pagination.paginatedData arr k p)) =
  Z.min p (Z.max 0 (Z.of_nat (length arr) - (k - 1) * p)).
Proof.
  intros Hp Hk. rewrite page_is_chunk by assumption.
  rewrite length_firstn, length_skipn.
  assert (0 <= (k - 1) * p) by nia. lia.
Qed.

(** X1. The page [k >= 1] of [n] records holds exactly the records that
    are left after the [k - 1] pages before it, up to the page size: a
    page before the last one is full, the last one holds the rest, and
    a page after the last one is empty. *)
Theorem page_length_exact arr p k :
  0 < p -> 1 <= k ->
  Z.of_nat (length (Pagination.paginatedData arr k p)) =
  Z.min p (Z.max 0 (Z.of_nat (length arr) - (k - 1) * p)).
Proof. exact (paginatedData_length arr p k). Qed.

End PageBounds.

Lemma page_length_exact_witness :
  Z.of_nat (length (Pagination.paginatedData (map Z.of_nat (seq 0 25)) 3 10)) =
  Z.min 10 (Z.max 0 (Z.of_nat (length (map Z.of_nat (seq 0 25))) - (3 - 1) * 10)).
Proof.
  apply (page_length_exact (map Z.of_nat (seq 0 25)) 10 3); lia.
Defined.

Section PagerFacts.

Import Pager.

Lemma totalPages_nonneg_of (n p : Z) :
  0 < p -> 0 <= n -> 0 <= Pagination.totalPages n p.
Proof.
  intros Hp Hn. pose proof (totalPages_covers n p Hp Hn). nia.
Qed.

Lemma previous_inRange s : inRange s -> inRange (previous s).
Proof.
  unfold inRange, previous, totalPages. intros H.
  destruct (Z.ltb_spec 1 (currentPage s)); cbn; lia.
Qed.

Lemma next_inRange s : inRange s -> inRange (next s).
Proof.
  unfold inRange, next, totalPages. intros H.
  destruct (Z.ltb_spec (currentPage s)
              (Pagination.totalPages (total s) (itemsPerPage s))); cbn; lia.
Qed.

Lemma handlePageNavigation_inRange s :
  inRange s -> inRange (handlePageNavigation s).
Proof.
  unfold inRange, handlePageNavigation, totalPages. cbv zeta. intros H.
  destruct (JsText.parseInt (pageInputValue s)) as [page|]; [|assumption].
  destruct (JsText.truthy_number (Some page)); cbn [andb]; [|assumption].
  destruct (Z.leb_spec 1 page); cbn [andb]; [|assumption].
  destruct (Z.leb_spec page (Pagination.totalPages (total s) (itemsPerPage s)));
    [|assumption].
  cbn. lia.
Qed.

End PagerFacts.

(** X2. The buttons of the pager never leave the pages there are: from
    a page between 1 and the number of pages, the previous and the next
    button, the page dialog with any text typed into it, and the
    page-size select that goes back to page 1 all end on such a page
    again. *)
Theorem pager_stays_in_range :
  forall s : Pager.State,
    Pager.inRange s ->
    Pager.inRange (Pager.previous s) /\
    Pager.inRange (Pager.next s) /\
    Pager.inRange (Pager.handlePageNavigation s) /\
    Pager.inRange (Pager.openPageDialog s) /\
    forall value, Pager.inRange (Pager.changeItemsPerPage value s).
Proof.
  intros s H. split; [now apply previous_inRange|].
  split; [now apply next_inRange|].
  split; [now apply handlePageNavigation_inRange|].
  split; [exact H|].
  intros value. unfold Pager.inRange. cbn. lia.
Qed.

Lemma pager_stays_in_range_witness :
  Pager.inRange (Pager.previous (Pager.mkState 2 10 25 true "3")) /\
  Pager.inRange (Pager.next (Pager.mkState 2 10 25 true "3")) /\
  Pager.inRange (Pager.handlePageNavigation (Pager.mkState 2 10 25 true "3")) /\
  Pager.inRange (Pager.openPageDialog (Pager.mkState 2 10 25 true "3")) /\
  forall value,
    Pager.inRange (Pager.changeItemsPerPage value (Pager.mkState 2 10 25 true "3")).
Proof.
  apply (pager_stays_in_range (Pager.mkState 2 10 25 true "3")).
  unfold Pager.inRange. vm_compute. split; discriminate.
Defined.

Example page_dialog_accepts_a_page :
  Pager.handlePageNavigation (Pager.mkState 1 10 25 true " 3rd")
  = Pager.mkState 3 10 25 false "".
Proof. reflexivity. Qed.

Example page_dialog_refuses_a_page_too_far :
  Pager.handlePageNavigation (Pager.mkState 1 10 25 true "4")
  = Pager.mkState 1 10 25 true "4".
Proof. reflexivity. Qed.

Section PagerItemsFacts.

Import Pager.

Lemma range_three (a : Z) : range a (a + 2) = [a; a + 1; a + 2].
Proof.
  unfold range. replace (a + 2 - a + 1) with 3 by lia.
  change (Z.to_nat 3) with 3%nat. cbn [seq map].
  change (Z.of_nat 0) with 0. now rewrite Z.add_0_r.
Qed.

Local Ltac pages_tac :=
  repeat match goal with
         | |- _ /\ _ => split
         | |- StronglySorted _ _ => constructor
         | |- Forall _ _ => constructor
         | |- In _ _ => cbn [In]; lia
         | |- (length _ <= _)%nat => cbn [length]; lia
         | |- @eq (list Z) _ _ => reflexivity
         | |- _ => lia
         end.

Lemma items_few (totalPages currentPage : Z) :
  1 <= currentPage <= totalPages -> totalPages <= 5 ->
  let pages := linkedPages (items totalPages currentPage) in
  StronglySorted Z.lt pages /\
  Forall (fun i => 1 <= i <= totalPages) pages /\
  In 1 pages /\ In currentPage pages /\ In totalPages pages /\
  (length pages <= 5)%nat /\
  activePages (items totalPages currentPage) = [currentPage].
Proof.
  intros Hc Ht.
  assert (Hcases : totalPages = 1 \/ totalPages = 2 \/ totalPages = 3 \/
                   totalPages = 4 \/ totalPages = 5) by lia.
  assert (Hcur : currentPage = 1 \/ currentPage = 2 \/ currentPage = 3 \/
                 currentPage = 4 \/ currentPage = 5) by lia.
  destruct Hcases as [-> | [-> | [-> | [-> | ->]]]];
    destruct Hcur as [-> | [-> | [-> | [-> | ->]]]]; try lia;
    cbv [items range linkedPages activePages flat_map map seq app
         Z.leb Z.eqb Z.compare Pos.compare Pos.compare_cont Pos.eqb
         Z.sub Z.add Z.opp Z.pos_sub Z.to_nat Pos.to_nat Pos.iter_op
         Pos.succ Pos.add Pos.pred_double Z.succ_double Z.pred_double
         Z.double Nat.add Z.of_nat Pos.of_succ_nat];
    pages_tac.
Qed.

Lemma range_of_three (a b : Z) : b = a + 2 -> range a b = [a; a + 1; a + 2].
Proof. intros ->. apply range_three. Qed.

(** The three shapes of the pager when there are more than five pages. *)
Lemma items_at_the_start (totalPages currentPage : Z) :
  5 < totalPages -> currentPage <= 2 ->
  items totalPages currentPage =
  [PageLink 1 (currentPage =? 1); PageLink 2 (currentPage =? 2);
   PageLink 3 (currentPage =? 3); Ellipsis;
   PageLink totalPages (currentPage =? totalPages)].
Proof.
  intros Ht Hc. unfold items. cbv zeta.
  destruct (Z.leb_spec totalPages 5); [lia|].
  destruct (Z.leb_spec currentPage 2); [|lia].
  destruct (Z.leb_spec (totalPages - 1) currentPage); [lia|].
  destruct (Z.ltb_spec 1 1); [lia|].
  destruct (Z.ltb_spec 3 totalPages); [|lia].
  destruct (Z.ltb_spec 3 (totalPages - 1)); [|lia].
  reflexivity.
Qed.

Lemma items_at_the_end (totalPages currentPage : Z) :
  5 < totalPages -> totalPages - 1 <= currentPage ->
  items totalPages currentPage =
  [PageLink 1 (currentPage =? 1); Ellipsis;
   PageLink (totalPages - 2) (currentPage =? totalPages - 2);
   PageLink (totalPages - 2 + 1) (currentPage =? totalPages - 2 + 1);
   PageLink (totalPages - 2 + 2) (currentPage =? totalPages - 2 + 2)].
Proof.
  intros Ht Hc. unfold items. cbv zeta.
  destruct (Z.leb_spec totalPages 5); [lia|].
  destruct (Z.leb_spec (totalPages - 1) currentPage); [|lia].
  destruct (Z.ltb_spec 1 (totalPages - 2)); [|lia].
  destruct (Z.ltb_spec 2 (totalPages - 2)); [|lia].
  destruct (Z.ltb_spec totalPages totalPages); [lia|].
  rewrite (range_of_three (totalPages - 2) totalPages) by lia.
  destruct (currentPage <=? 2); rewrite app_nil_r; reflexivity.
Qed.

Lemma items_in_the_middle (totalPages currentPage : Z) :
  5 < totalPages -> 2 < currentPage < totalPages - 1 ->
  items totalPages currentPage =
  PageLink 1 (currentPage =? 1)
  :: (if 2 <? currentPage - 1 then [Ellipsis] else [])
  ++ [PageLink (currentPage - 1) (currentPage =? currentPage - 1);
      PageLink (currentPage - 1 + 1) (currentPage =? currentPage - 1 + 1);
      PageLink (currentPage - 1 + 2) (currentPage =? currentPage - 1 + 2)]
  ++ (if currentPage + 1 <? totalPages - 1 then [Ellipsis] else [])
  ++ [PageLink totalPages (currentPage =? totalPages)].
Proof.
  intros Ht Hc. unfold items. cbv zeta.
  destruct (Z.leb_spec totalPages 5); [lia|].
  destruct (Z.leb_spec currentPage 2); [lia|].
  destruct (Z.leb_spec (totalPages - 1) currentPage); [lia|].
  rewrite Z.max_r, Z.min_r by lia.
  rewrite (range_of_three (currentPage - 1) (currentPage + 1)) by lia.
  destruct (Z.ltb_spec 1 (currentPage - 1)); [|lia].
  destruct (Z.ltb_spec (currentPage + 1) totalPages); [|lia].
  reflexivity.
Qed.

Lemma items_many (totalPages currentPage : Z) :
  1 <= currentPage <= totalPages -> 5 < totalPages ->
  let pages := linkedPages (items totalPages currentPage) in
  StronglySorted Z.lt pages /\
  Forall (fun i => 1 <= i <= totalPages) pages /\
  In 1 pages /\ In currentPage pages /\ In totalPages pages /\
  (length pages <= 5)%nat /\
  activePages (items totalPages currentPage) = [currentPage].
Proof.
  intros Hc Ht.
  destruct (Z.le_gt_cases currentPage 2) as [Hlow|Hlow];
    [|destruct (Z.le_gt_cases (totalPages - 1) currentPage) as [Hhigh|Hhigh]].
  - rewrite items_at_the_start by assumption.
    cbn [linkedPages activePages flat_map app].
    destruct (Z.eqb_spec currentPage 1), (Z.eqb_spec currentPage 2),
             (Z.eqb_spec currentPage 3),
             (Z.eqb_spec currentPage totalPages); try lia;
      cbn [app]; pages_tac; f_equal; lia.
  - rewrite items_at_the_end by assumption.
    cbn [linkedPages activePages flat_map app].
    destruct (Z.eqb_spec currentPage 1),
             (Z.eqb_spec currentPage (totalPages - 2)),
             (Z.eqb_spec currentPage (totalPages - 2 + 1)),
             (Z.eqb_spec currentPage (totalPages - 2 + 2)); try lia;
      cbn [app]; pages_tac; f_equal; lia.
  - rewrite items_in_the_middle by lia.
    destruct (Z.eqb_spec currentPage 1),
             (Z.eqb_spec currentPage (currentPage - 1)),
             (Z.eqb_spec currentPage (currentPage - 1 + 1)),
             (Z.eqb_spec currentPage (currentPage - 1 + 2)),
             (Z.eqb_spec currentPage totalPages); try lia;
      destruct (2 <? currentPage - 1), (currentPage + 1 <? totalPages - 1);
      cbn [linkedPages activePages flat_map app];
      pages_tac; f_equal; lia.
Qed.

End PagerItemsFacts.

(** X3. On a page between 1 and the number of pages, the pager of the
    report pages shows at most five page links, in increasing order and
    all between 1 and the number of pages; the first page, the current
    page and the last page are among them, and the current page is the
    one link shown as active. *)
Theorem pager_items_cover_ends_and_current :
  forall totalPages currentPage : Z,
    1 <= currentPage <= totalPages ->
    let pages := Pager.linkedPages (Pager.items totalPages currentPage) in
    StronglySorted Z.lt pages /\
    Forall (fun i => 1 <= i <= totalPages) pages /\
    In 1 pages /\ In currentPage pages /\ In totalPages pages /\
    (length pages <= 5)%nat /\
    Pager.activePages (Pager.items totalPages currentPage) = [currentPage].
Proof.
  intros totalPages currentPage Hc.
  destruct (Z.le_gt_cases totalPages 5).
  - now apply items_few.
  - apply items_many; lia.
Qed.

Lemma pager_items_cover_ends_and_current_witness :
  let pages := Pager.linkedPages (Pager.items 12 6) in
  StronglySorted Z.lt pages /\
  Forall (fun i => 1 <= i <= 12) pages /\
  In 1 pages /\ In 6 pages /\ In 12 pages /\
  (length pages <= 5)%nat /\
  Pager.activePages (Pager.items 12 6) = [6].
Proof.
  apply (pager_items_cover_ends_and_current 12 6). lia.
Defined.

Example pager_items_in_the_middle :
  Pager.items 12 6 =
  [Pager.PageLink 1 false; Pager.Ellipsis; Pager.PageLink 5 false;
   Pager.PageLink 6 true; Pager.PageLink 7 false; Pager.Ellipsis;
   Pager.PageLink 12 false].
Proof. reflexivity. Qed.

(** X4. The page-size select of the visit report page keeps the current
    page: when that page lies after the last page of the new size, the
    table shows no row, whatever the data; the select of the other
    screens goes to page 1 and shows the first records. *)
Theorem page_size_change_can_empty_the_report :
  forall (A : Type) (data : list A) (s : Pager.State) (value : Z),
    0 < value ->
    Pagination.totalPages (Z.of_nat (length data)) value < Pager.currentPage s ->
    Pager.shown data (Pager.changeItemsPerPage_keepingPage value s) = [] /\
    Pager.shown data (Pager.changeItemsPerPage value s)
    = firstn (Z.to_nat value) data.
Proof.
  intros A data s value Hv Hbeyond. unfold Pager.shown. cbn. split.
  - pose proof (totalPages_covers (Z.of_nat (length data)) value Hv
                  ltac:(lia)) as Hcover.
    pose proof (totalPages_nonneg_of (Z.of_nat (length data)) value Hv
                  ltac:(lia)) as Hnn.
    apply length_zero_iff_nil.
    pose proof (paginatedData_length data value (Pager.currentPage s) Hv
                  ltac:(lia)) as Hlen.
    assert (Z.of_nat (length data) - (Pager.currentPage s - 1) * value <= 0)
      by nia.
    lia.
  - rewrite page_is_chunk by lia. reflexivity.
Qed.

Lemma page_size_change_can_empty_the_report_witness :
  Pager.shown (map Z.of_nat (seq 0 45))
    (Pager.changeItemsPerPage_keepingPage 100 (Pager.mkState 5 10 45 false ""))
  = [] /\
  Pager.shown (map Z.of_nat (seq 0 45))
    (Pager.changeItemsPerPage 100 (Pager.mkState 5 10 45 false ""))
  = firstn (Z.to_nat 100) (map Z.of_nat (seq 0 45)).
Proof.
  apply (page_size_change_can_empty_the_report Z (map Z.of_nat (seq 0 45))
           (Pager.mkState 5 10 45 false "") 100).
  - lia.
  - vm_compute. reflexivity.
Defined.

(** ** The selection of pending approvals *)

Section SelectionFacts.

Import Effect AdminDashboard DashboardSelection.

Lemma Set_has_In s x : Set_has s x = true <-> In x s.
Proof.
  unfold Set_has. rewrite existsb_exists. split.
  - intros (y & Hy & E). apply String.eqb_eq in E. now subst.
  - intros H. exists x. split; [assumption|apply String.eqb_refl].
Qed.

Lemma Set_add_In s x y : In y (Js.Set_add s x) <-> In y s \/ y = x.
Proof.
  unfold Js.Set_add. fold (Set_has s x).
  destruct (Set_has s x) eqn:E.
  - apply Set_has_In in E. split; [auto|]. intros [H| ->]; assumption.
  - rewrite in_app_iff. cbn. intuition.
Qed.

Lemma Set_add_NoDup s x : NoDup s -> NoDup (Js.Set_add s x).
Proof.
  intros H. unfold Js.Set_add. fold (Set_has s x).
  destruct (Set_has s x) eqn:E; [assumption|].
  apply NoDup_app; [assumption|repeat constructor; intros []|].
  intros y Hy [<-|[]].
  apply Set_has_In in Hy. congruence.
Qed.

Lemma Set_delete_In s x y : In y (Set_delete s x) <-> In y s /\ y <> x.
Proof.
  unfold Set_delete. rewrite filter_In, negb_true_iff.
  destruct (String.eqb_spec x y); intuition congruence.
Qed.

Lemma Set_delete_NoDup s x : NoDup s -> NoDup (Set_delete s x).
Proof. apply NoDup_filter. Qed.

Lemma add_all_In (items : list PendingApproval) (s : list string) y :
  In y (fold_left (fun set item => Js.Set_add set (pa_id item)) items s) <->
  In y s \/ exists item, In item items /\ pa_id item = y.
Proof.
  revert s. induction items as [|item items IH]; intros s; cbn [fold_left].
  - split; [auto|]. intros [H|(item & [] & _)]. exact H.
  - rewrite IH, Set_add_In. split.
    + intros [[H|Hy]|(i & Hi & E)].
      * now left.
      * right. exists item. split; [now left|congruence].
      * right. exists i. split; [now right|assumption].
    + intros [H|(i & [Hi|Hi] & E)].
      * left. now left.
      * subst i. left. right. congruence.
      * right. exists i. split; assumption.
Qed.

Lemma add_all_NoDup (items : list PendingApproval) (s : list string) :
  NoDup s ->
  NoDup (fold_left (fun set item => Js.Set_add set (pa_id item)) items s).
Proof.
  revert s. induction items as [|item items IH]; intros s H; cbn [fold_left];
    [assumption|].
  apply IH. now apply Set_add_NoDup.
Qed.

End SelectionFacts.

(** X5. A click on the checkbox of an item flips whether the item is
    selected and leaves every other item as it was; the selection never
    holds an id twice. *)
Theorem handleItemSelect_toggles :
  forall (id : string) (s : AdminDashboard.State),
    NoDup (AdminDashboard.selectedItems s) ->
    let s' := Effect.exec (DashboardSelection.handleItemSelect id) s in
    NoDup (AdminDashboard.selectedItems s') /\
    (In id (AdminDashboard.selectedItems s') <->
     ~ In id (AdminDashboard.selectedItems s)) /\
    (forall other, other <> id ->
       (In other (AdminDashboard.selectedItems s') <->
        In other (AdminDashboard.selectedItems s))) /\
    AdminDashboard.pendingApprovals s' = AdminDashboard.pendingApprovals s.
Proof.
  intros id s Hnd s'. subst s'.
  unfold DashboardSelection.handleItemSelect.
  rewrite exec_bind_gets. cbn.
  destruct (DashboardSelection.Set_has (AdminDashboard.selectedItems s) id)
    eqn:E.
  - apply Set_has_In in E. split; [|split; [|split]].
    + now apply Set_delete_NoDup.
    + rewrite Set_delete_In. tauto.
    + intros other Hother. rewrite Set_delete_In. tauto.
    + reflexivity.
  - assert (Hnot : ~ In id (AdminDashboard.selectedItems s))
      by (rewrite <- Set_has_In; congruence).
    split; [|split; [|split]].
    + now apply Set_add_NoDup.
    + rewrite Set_add_In. tauto.
    + intros other Hother. rewrite Set_add_In. tauto.
    + reflexivity.
Qed.

Lemma handleItemSelect_toggles_witness :
  let s := AdminDashboard.initialState in
  let s' := Effect.exec (DashboardSelection.handleItemSelect "v1") s in
  NoDup (AdminDashboard.selectedItems s') /\
  (In "v1" (AdminDashboard.selectedItems s') <->
   ~ In "v1" (AdminDashboard.selectedItems s)) /\
  (forall other, other <> "v1" ->
     (In other (AdminDashboard.selectedItems s') <->
      In other (AdminDashboard.selectedItems s))) /\
  AdminDashboard.pendingApprovals s' = AdminDashboard.pendingApprovals s.
Proof.
  apply (handleItemSelect_toggles "v1" AdminDashboard.initialState).
  cbn. constructor.
Defined.



(** ** The queue of pending approvals, on every path *)



Section PendingQueueFacts.

Import Effect AdminDashboard.

Lemma formatPendingApprovals_ids browser mrMap pv pu pd pmv :
  map (fun a => (pa_id a, pa_type a))
      (formatPendingApprovals browser mrMap pv pu pd pmv) =
  map (fun v => (PendingVisitData.id v, Visit)) (Js.or_nil pv)
  ++ map (fun u => (PendingUser.id u, User)) (Js.or_nil pu)
  ++ map (fun d => (PendingDoctor.id d, Doctor)) (Js.or_nil pd)
  ++ map (fun v => (PendingMedicalVisit.id v, MedicalVisit)) (Js.or_nil pmv).
Proof.
  unfold formatPendingApprovals. cbv zeta.
  rewrite !map_app.
  destruct pv, pu, pd, pmv; cbn [option_map Js.or_nil map];
    rewrite ?map_map; reflexivity.
Qed.

End PendingQueueFacts.

(** X8. When no query of [fetchPendingApprovals] fails, the queue holds
    the fetched rows in the order visits, users, doctors, medical
    visits, each with the id of its row and the type of its table, and
    the page-level error is left as it was: an error shown before the
    fetch is still shown after it. *)
Theorem fetchPendingApprovals_success_queue :
  forall (browser : AdminDashboard.Browser) (q : AdminDashboard.PendingQueries)
         (s : AdminDashboard.State),
    Effect.throws (AdminDashboard.fetchPendingApprovals_try browser q)
      (Effect.exec (AdminDashboard.setPendingLoading true) s) = false ->
    let s' := Effect.exec (AdminDashboard.fetchPendingApprovals browser q) s in
    map (fun a => (AdminDashboard.pa_id a, AdminDashboard.pa_type a))
        (AdminDashboard.pendingApprovals s') =
    map (fun v => (AdminDashboard.PendingVisitData.id v, AdminDashboard.Visit))
        (Js.or_nil (Effect.data (AdminDashboard.visits_pending q)))
    ++ map (fun u => (AdminDashboard.PendingUser.id u, AdminDashboard.User))
           (Js.or_nil (Effect.data (AdminDashboard.profiles_pending q)))
    ++ map (fun d => (AdminDashboard.PendingDoctor.id d, AdminDashboard.Doctor))
           (Js.or_nil (Effect.data (AdminDashboard.doctors_unverified q)))
    ++ map (fun v => (AdminDashboard.PendingMedicalVisit.id v,
                      AdminDashboard.MedicalVisit))
           (Js.or_nil (Effect.data (AdminDashboard.medical_visits_pending q))) /\
    AdminDashboard.error s' = AdminDashboard.error s /\
    AdminDashboard.pendingLoading s' = false.
Proof.
  intros browser q s.
  unfold AdminDashboard.fetchPendingApprovals,
    AdminDashboard.fetchPendingApprovals_try,
    AdminDashboard.setPendingLoading, AdminDashboard.setPendingApprovals,
    AdminDashboard.setError.
  run_io.
  split_error (Effect.error (AdminDashboard.visits_pending q)).
  split_error (Effect.error (AdminDashboard.profiles_pending q)).
  split_error (Effect.error (AdminDashboard.doctors_unverified q)).
  split_error (Effect.error (AdminDashboard.medical_visits_pending q)).
  match goal with
  | |- context [if (0 <? ?n) then _ else _] => destruct (0 <? n); io_simpl
  end.
  - match goal with
    | |- context [Effect.error ?r] => split_error (Effect.error r)
    end.
    intros _. split; [apply formatPendingApprovals_ids|split; reflexivity].
  - intros _. split; [apply formatPendingApprovals_ids|split; reflexivity].
Qed.

Lemma fetchPendingApprovals_success_queue_witness :
  let q := Sample.pendingOk in
  let s := AdminDashboard.initialState in
  let s' := Effect.exec (AdminDashboard.fetchPendingApprovals Sample.browser q) s in
  map (fun a => (AdminDashboard.pa_id a, AdminDashboard.pa_type a))
      (AdminDashboard.pendingApprovals s') =
  map (fun v => (AdminDashboard.PendingVisitData.id v, AdminDashboard.Visit))
      (Js.or_nil (Effect.data (AdminDashboard.visits_pending q)))
  ++ map (fun u => (AdminDashboard.PendingUser.id u, AdminDashboard.User))
         (Js.or_nil (Effect.data (AdminDashboard.profiles_pending q)))
  ++ map (fun d => (AdminDashboard.PendingDoctor.id d, AdminDashboard.Doctor))
         (Js.or_nil (Effect.data (AdminDashboard.doctors_unverified q)))
  ++ map (fun v => (AdminDashboard.PendingMedicalVisit.id v,
                    AdminDashboard.MedicalVisit))
         (Js.or_nil (Effect.data (AdminDashboard.medical_visits_pending q))) /\
  AdminDashboard.error s' = AdminDashboard.error s /\
  AdminDashboard.pendingLoading s' = false.
Proof.
  apply (fetchPendingApprovals_success_queue Sample.browser Sample.pendingOk
           AdminDashboard.initialState).
  reflexivity.
Defined.

(** ** The ranking: failures, order values, empty windows *)

Section TopMRsFailure.

Import Effect AdminDashboard.

(** The helper never writes the state, and what it throws is the error
    object of a query, thrown as it is. *)
Lemma fetchAndProcessMRPerformance_cases {S : Type} q startDate endDate (s : S) :
  (exists ranking,
     fetchAndProcessMRPerformance q startDate endDate s = (Normal ranking, s)) \/
  (exists e,
     fetchAndProcessMRPerformance q startDate endDate s = (Abrupt (Rethrown e), s)).
Proof.
  unfold fetchAndProcessMRPerformance. cbv zeta. run_io.
  destruct (Effect.error (profiles_mr q)) as [e|]; io_simpl; [right; eauto|].
  destruct (Effect.error (visits_approved q startDate endDate)) as [e|];
    io_simpl; [right; eauto|].
  match goal with
  | |- context [if (0 <? ?n) then _ else _] => destruct (0 <? n); io_simpl
  end; [|left; eauto].
  match goal with
  | |- context [Effect.error ?r] => destruct (Effect.error r) as [e|]; io_simpl
  end; [right; eauto|left; eauto].
Qed.

(** The [try] block of [fetchTopMRs] either writes the three caches
    and the ranking, or throws before it has written anything. *)
Lemma fetchTopMRs_try_cases q today weeklyStartDate (s : State) :
  (exists s', fetchTopMRs_try q today weeklyStartDate s = (Normal tt, s')) \/
  (exists e,
     fetchTopMRs_try q today weeklyStartDate s = (Abrupt (Rethrown e), s)).
Proof.
  unfold fetchTopMRs_try, bind.
  destruct (fetchAndProcessMRPerformance_cases q None None s)
    as [[r1 ->]|[e ->]]; [|right; eauto].
  destruct (fetchAndProcessMRPerformance_cases q (Some weeklyStartDate)
              (Some today) s) as [[r2 ->]|[e ->]]; [|right; eauto].
  destruct (fetchAndProcessMRPerformance_cases q (Some today) (Some today) s)
    as [[r3 ->]|[e ->]]; [|right; eauto].
  left. eexists. reflexivity.
Qed.

End TopMRsFailure.



Section OrderValueFacts.

Import Effect AdminDashboard RemoteStore.

Lemma fold_left_add {A : Type} (f : A -> Z) (l : list A) (a0 : Z) :
  fold_left (fun sum x => sum + f x) l a0 = a0 + Totals.Zsum (map f l).
Proof.
  revert a0. induction l as [|x l IH]; intros a0; cbn; [lia|].
  rewrite IH. unfold Totals.Zsum. lia.
Qed.

Lemma sum_quantities_Zsum (orders : list VisitOrder) :
  sum_quantities orders = Totals.Zsum (map quantity orders).
Proof. unfold sum_quantities. now rewrite fold_left_add. Qed.

(** What the map built from the order rows holds under a visit id: the
    quantities of the rows of that visit, in the order of the rows. *)
Lemma groupOrders_get (orders : list OrderRow.t) (k : string) :
  Js.or_nil (Js.obj_get (groupOrders orders) k) =
  map (fun o => mkVisitOrder (OrderRow.quantity o))
      (filter (fun o => String.eqb (OrderRow.visit_id o) k) orders).
Proof.
  unfold groupOrders.
  induction orders as [|x orders IH] using rev_ind; [reflexivity|].
  rewrite fold_left_app. cbn [fold_left].
  match type of IH with
  | context [Js.obj_get ?m0 k] => set (m := m0) in *
  end.
  rewrite filter_app, map_app. cbn [filter].
  destruct (String.eqb_spec (OrderRow.visit_id x) k) as [<-|Hne].
  - cbn [map]. rewrite <- IH.
    destruct (Js.obj_get m (OrderRow.visit_id x)) as [l|] eqn:E;
      rewrite ?obj_get_set_same; cbn [Js.or_nil];
      rewrite ?obj_get_set_same, ?E; reflexivity.
  - cbn [map]. rewrite app_nil_r, <- IH.
    rewrite obj_get_set_other by assumption.
    destruct (Js.obj_get m (OrderRow.visit_id x)); [reflexivity|].
    now rewrite obj_get_set_other by assumption.
Qed.

Variable db : Database.

(** The order rows the store answers with hold every order of every
    approved visit of the window. *)
Lemma fetchAndProcessMRPerformance_on_store_orders {S : Type}
    startDate endDate (s : S) :
  exists orders,
    fetchAndProcessMRPerformance (mrQueries db) startDate endDate s =
    (Normal
       (rankMRs
          (data (profiles_mr (mrQueries db)))
          (data (visits_approved (mrQueries db) startDate endDate))
          orders),
     s) /\
    forall v, In v (filter (approved_in startDate endDate) (visits db)) ->
      filter (fun o => String.eqb (OrderRow.visit_id o) (VisitRow.id v)) orders =
      filter (fun o => String.eqb (OrderRow.visit_id o) (VisitRow.id v))
             (visit_orders db).
Proof.
  unfold fetchAndProcessMRPerformance. cbv zeta. run_io.
  cbn [mrQueries profiles_mr visits_approved visit_orders_in data error ok
       option_map Js.or_nil].
  match goal with
  | |- context [if (0 <? ?n) then _ else _] => destruct (0 <? n) eqn:En; io_simpl
  end; eexists; (split; [reflexivity|]).
  - intros v Hv. rewrite filter_filter_andb. apply filter_ext.
    intros o. destruct (String.eqb_spec (OrderRow.visit_id o) (VisitRow.id v))
      as [E|E]; [|apply andb_false_r].
    rewrite andb_true_r. apply existsb_exists.
    exists (VisitRow.id v). split; [|now apply String.eqb_eq].
    rewrite map_map. cbn. apply in_map_iff. eauto.
  - intros v Hv. exfalso.
    rewrite !length_map in En.
    destruct (filter (approved_in startDate endDate) (visits db));
      [destruct Hv|cbn in En; lia].
Qed.

Lemma performanceOf_on_store startDate endDate orders (p : Profile.t) :
  (forall v, In v (filter (approved_in startDate endDate) (visits db)) ->
     filter (fun o => String.eqb (OrderRow.visit_id o) (VisitRow.id v)) orders =
     filter (fun o => String.eqb (OrderRow.visit_id o) (VisitRow.id v))
            (visit_orders db)) ->
  performanceOf
    (map (fun v => Visit.mk (ApprovedVisit.id v) (ApprovedVisit.mr_id v)
                     (Js.or_nil (Js.obj_get (groupOrders orders)
                                            (ApprovedVisit.id v))))
         (map (fun v => ApprovedVisit.mk (VisitRow.id v) (VisitRow.mr_id v))
              (filter (approved_in startDate endDate) (visits db))))
    (MRProfile.mk (Profile.id p) (Profile.name p))
  = MRPerformance.mk (Profile.name p)
      (approvedVisitCount db startDate endDate (Profile.id p))
      (Totals.orderTotal db startDate endDate (Profile.id p)).
Proof.
  intros Horders. unfold performanceOf. cbv zeta.
  cbn [MRProfile.id MRProfile.name].
  rewrite map_map. cbn [ApprovedVisit.id ApprovedVisit.mr_id].
  rewrite filter_map_commute. cbn [Visit.mr_id].
  rewrite filter_filter_andb. f_equal.
  - rewrite length_map. reflexivity.
  - rewrite fold_left_add, map_map. cbn [Visit.visit_orders].
    unfold Totals.orderTotal. rewrite Z.add_0_l. f_equal.
    apply map_ext_in. intros v Hv.
    apply filter_In in Hv. destruct Hv as [Hv Hb].
    apply andb_true_iff in Hb. destruct Hb as [Hb _].
    assert (Hin : In v (filter (approved_in startDate endDate) (visits db)))
      by (apply filter_In; auto).
    rewrite sum_quantities_Zsum, groupOrders_get, map_map.
    cbn [quantity]. unfold Totals.quantitiesOf.
    now rewrite (Horders v Hin).
Qed.

Lemma filter_nil_Forall {A : Type} (f : A -> bool) (l : list A) :
  Forall (fun x => f x = false) l -> filter f l = [].
Proof.
  induction 1 as [|x l Hx _ IH]; cbn; [reflexivity|]. now rewrite Hx.
Qed.

Lemma rankMRs_no_visits mrsData approvedVisitsData orders :
  Js.or_nil approvedVisitsData = [] ->
  rankMRs mrsData approvedVisitsData orders = [].
Proof.
  intros Hnone. unfold rankMRs. cbv zeta.
  assert (Hfull : Js.or_nil
            (option_map
               (map (fun v => Visit.mk (ApprovedVisit.id v) (ApprovedVisit.mr_id v)
                       (Js.or_nil (Js.obj_get (groupOrders orders)
                                              (ApprovedVisit.id v)))))
               approvedVisitsData) = []).
  { destruct approvedVisitsData as [rows|]; [|reflexivity].
    cbn in Hnone. subst rows. reflexivity. }
  rewrite Hfull. apply filter_nil_Forall.
  eapply Permutation_Forall; [apply sort_Permutation|].
  destruct mrsData as [mrs|]; [|constructor].
  cbn [option_map Js.or_nil]. apply Forall_forall. intros r Hr.
  apply in_map_iff in Hr. destruct Hr as (mr & <- & _). reflexivity.
Qed.

End OrderValueFacts.

(** X10. On a reachable store [fetchAndProcessMRPerformance] returns
    without writing the state, and what it returns is, up to the order of
    MRs with equally many visits, one entry for each MR with at least one
    approved visit in the window: the name of the MR, the number of those
    visits, and as order value the sum of the quantities of all orders of
    those visits. *)
Theorem ranking_order_values_on_store :
  forall (S : Type) (db : RemoteStore.Database) (startDate endDate : option Z)
         (s : S),
    exists ranking,
      AdminDashboard.fetchAndProcessMRPerformance (RemoteStore.mrQueries db)
        startDate endDate s = (Effect.Normal ranking, s) /\
      Sorted AdminDashboard.more_visits ranking /\
      Permutation ranking
        (map (fun p =>
                AdminDashboard.MRPerformance.mk (RemoteStore.Profile.name p)
                  (RemoteStore.approvedVisitCount db startDate endDate
                     (RemoteStore.Profile.id p))
                  (Totals.orderTotal db startDate endDate
                     (RemoteStore.Profile.id p)))
             (List.filter
                (fun p => RemoteStore.is_mr p &&
                          (0 <? RemoteStore.approvedVisitCount db startDate
                                  endDate (RemoteStore.Profile.id p)))
                (RemoteStore.profiles db))).
Proof.
  intros S db startDate endDate s.
  destruct (fetchAndProcessMRPerformance_on_store_orders db startDate endDate s)
    as (orders & Heq & Horders).
  eexists. split; [exact Heq|]. split; [apply rankMRs_Sorted|].
  cbn [RemoteStore.mrQueries AdminDashboard.profiles_mr
       AdminDashboard.visits_approved Effect.data Effect.ok].
  unfold AdminDashboard.rankMRs. cbv zeta. cbn [option_map Js.or_nil].
  etransitivity.
  { apply filter_Permutation, Permutation_sym, sort_Permutation. }
  rewrite map_map.
  rewrite (map_ext _
    (fun p => AdminDashboard.MRPerformance.mk (RemoteStore.Profile.name p)
                (RemoteStore.approvedVisitCount db startDate endDate
                   (RemoteStore.Profile.id p))
                (Totals.orderTotal db startDate endDate
                   (RemoteStore.Profile.id p))))
    by (intros p; now apply performanceOf_on_store).
  rewrite filter_map_commute, filter_filter_andb. reflexivity.
Qed.

(** X11. When the window holds no approved visit, the ranking is empty
    and the query for the orders is not made: whatever the store would
    answer to it, also a failure, the function returns the empty list and
    leaves the state alone. *)
Theorem no_approved_visits_no_orders_query :
  forall (S : Type) (q : AdminDashboard.MRQueries) (startDate endDate : option Z)
         (s : S),
    Effect.error (AdminDashboard.profiles_mr q) = None ->
    Effect.error (AdminDashboard.visits_approved q startDate endDate) = None ->
    Js.or_nil (Effect.data (AdminDashboard.visits_approved q startDate endDate))
      = [] ->
    AdminDashboard.fetchAndProcessMRPerformance q startDate endDate s
    = (Effect.Normal [], s).
Proof.
  intros S q startDate endDate s Hmrs Hvisits Hnone.
  unfold AdminDashboard.fetchAndProcessMRPerformance. cbv zeta.
  rewrite Hmrs, Hvisits.
  assert (Hids : Js.or_nil
            (option_map (map AdminDashboard.ApprovedVisit.id)
               (Effect.data
                  (AdminDashboard.visits_approved q startDate endDate))) = []).
  { destruct (Effect.data (AdminDashboard.visits_approved q startDate endDate))
      as [rows|]; [|reflexivity].
    cbn in Hnone. subst rows. reflexivity. }
  rewrite Hids. run_io. cbn [length Z.of_nat Z.ltb Z.compare].
  io_simpl. now rewrite rankMRs_no_visits.
Qed.

Lemma no_approved_visits_no_orders_query_witness :
  AdminDashboard.fetchAndProcessMRPerformance
    (AdminDashboard.mkMRQueries
       (Effect.ok [AdminDashboard.MRProfile.mk "u1" "Meera"])
       (fun _ _ => Effect.ok [])
       (fun _ => Effect.failed Sample.unreachable))
    None None AdminDashboard.initialState
  = (Effect.Normal [], AdminDashboard.initialState).
Proof.
  apply (no_approved_visits_no_orders_query AdminDashboard.State
           (AdminDashboard.mkMRQueries
              (Effect.ok [AdminDashboard.MRProfile.mk "u1" "Meera"])
              (fun _ _ => Effect.ok [])
              (fun _ => Effect.failed Sample.unreachable))
           None None AdminDashboard.initialState); reflexivity.
Defined.

(** ** Approving and rejecting, one item and many *)

Section DecisionFacts.

Import Effect AdminDashboard.

Variable decision : ApprovalType -> Table * Change.
Variable browser : Browser.
Variable m : Mutations.
Variable core : CoreQueries.

(** The core fetch writes the stats, the trend, the error and its own
    loading flag, and nothing else, on every path. *)
Lemma fetchCoreDashboardData_writes q (s : State) :
  exists stats' trend',
    exec (fetchCoreDashboardData browser q) s =
    mkState stats' trend' (topMRs s) (allTopMRsDataCache s)
      (weeklyTopMRsDataCache s) (dailyTopMRsDataCache s) (pendingApprovals s)
      (loading s)
      (option_map (fun message => "Failed to fetch dashboard data: " +++ message)
                  (coreFailure q))
      (selectedItems s) (isSelectionModalOpen s) false (pendingLoading s)
      (topMRsLoading s).
Proof.
  unfold fetchCoreDashboardData, fetchCoreDashboardData_try, coreFailure,
    countFailure, trendFailure.
  unfold exec, try_catch_finally, try_finally, try_catch, bind, throw_if,
    throw, ret, setCoreLoading, setError, setStats, setVisitTrend, modify.
  destruct (countError (count_mrs q)); [do 2 eexists; reflexivity|].
  destruct (countError (count_doctors q)); [do 2 eexists; reflexivity|].
  destruct (countError (count_visits q)); [do 2 eexists; reflexivity|].
  destruct (countError (count_medicals q)); [do 2 eexists; reflexivity|].
  destruct (Effect.error (visits_since q)); do 2 eexists; reflexivity.
Qed.

Lemma fetchCoreDashboardData_frame q (s : State) :
  let s' := exec (fetchCoreDashboardData browser q) s in
  pendingApprovals s' = pendingApprovals s /\
  selectedItems s' = selectedItems s /\
  isSelectionModalOpen s' = isSelectionModalOpen s /\
  loading s' = loading s.
Proof.
  cbv zeta. destruct (fetchCoreDashboardData_writes q s) as (st & tr & ->).
  cbn. auto.
Qed.

(** The error the core fetch leaves: none, or the message of the first
    query that failed. *)
Lemma fetchCoreDashboardData_error q (s : State) :
  AdminDashboard.error (exec (fetchCoreDashboardData browser q) s) =
  option_map (fun message => "Failed to fetch dashboard data: " +++ message)
             (coreFailure q).
Proof.
  destruct (fetchCoreDashboardData_writes q s) as (st & tr & ->). reflexivity.
Qed.

(** The state a decision on one item leaves. *)
Lemma handleDecision_exec id type (s : State) :
  exec (handleDecision decision browser m core id type) s =
  match mutate m (fst (decision type)) (snd (decision type)) id with
  | Some e =>
      exec (setLoading false)
        (exec (setError (Some (errorMessage (Rethrown e))))
           (exec (setError None) (exec (setLoading true) s)))
  | None =>
      exec (fetchCoreDashboardData browser core)
        (exec (setError None) (exec (setLoading true) s))
  end.
Proof.
  unfold handleDecision, handleDecision_try.
  destruct (decision type) as [table change]. cbn [fst snd].
  unfold exec, try_catch, bind, throw_if, throw, ret, not_awaited,
    setLoading, setError, modify.
  destruct (mutate m table change id); reflexivity.
Qed.

(** Neither handler lets an exception out. *)
Lemma handleDecision_normal id type (s : State) :
  handleDecision decision browser m core id type s =
  (Normal tt, exec (handleDecision decision browser m core id type) s).
Proof.
  unfold handleDecision, handleDecision_try.
  destruct (decision type) as [table change].
  unfold exec, try_catch, bind, throw_if, throw, ret, not_awaited,
    setLoading, setError, modify.
  destruct (mutate m table change id); reflexivity.
Qed.

Lemma handleDecision_frame id type (s : State) :
  let s' := exec (handleDecision decision browser m core id type) s in
  pendingApprovals s' = pendingApprovals s /\
  selectedItems s' = selectedItems s /\
  isSelectionModalOpen s' = isSelectionModalOpen s.
Proof.
  cbv zeta. rewrite handleDecision_exec.
  destruct (mutate m (fst (decision type)) (snd (decision type)) id).
  - repeat split.
  - destruct (fetchCoreDashboardData_frame core
                (exec (setError None) (exec (setLoading true) s)))
      as (H1 & H2 & H3 & _).
    rewrite H1, H2, H3. repeat split.
Qed.

Lemma handleDecision_error id type (s : State) :
  AdminDashboard.error (exec (handleDecision decision browser m core id type) s) =
  match mutate m (fst (decision type)) (snd (decision type)) id with
  | Some e => Some (errorMessage (Rethrown e))
  | None =>
      option_map (fun message => "Failed to fetch dashboard data: " +++ message)
                 (coreFailure core)
  end.
Proof.
  rewrite handleDecision_exec.
  destruct (mutate m (fst (decision type)) (snd (decision type)) id);
    [reflexivity|apply fetchCoreDashboardData_error].
Qed.

(** The body of the loop of the bulk actions. *)
Let handleSelected (queue : list PendingApproval) (id : string)
    : Io State unit :=
  match find (fun approval => String.eqb (pa_id approval) id) queue with
  | Some item => handleDecision decision browser m core id (pa_type item)
  | None => ret tt
  end.

Lemma handleSelected_normal queue id (s : State) :
  handleSelected queue id s = (Normal tt, exec (handleSelected queue id) s).
Proof.
  unfold handleSelected.
  destruct (find _ queue); [apply handleDecision_normal|reflexivity].
Qed.

Lemma handleSelected_frame queue id (s : State) :
  let s' := exec (handleSelected queue id) s in
  pendingApprovals s' = pendingApprovals s /\
  selectedItems s' = selectedItems s /\
  isSelectionModalOpen s' = isSelectionModalOpen s.
Proof.
  unfold handleSelected.
  destruct (find _ queue); [apply handleDecision_frame|repeat split].
Qed.

Lemma forEach_normal {A : Type} (body : A -> Io State unit) (items : list A) :
  (forall x s, body x s = (Normal tt, exec (body x) s)) ->
  forall s, forEach items body s = (Normal tt, exec (forEach items body) s).
Proof.
  intros Hbody. induction items as [|x items IH]; intros s; [reflexivity|].
  cbn [forEach]. unfold exec, bind. rewrite Hbody, IH. reflexivity.
Qed.

Lemma forEach_snoc {A : Type} (body : A -> Io State unit) (items : list A)
    (x : A) :
  (forall x s, body x s = (Normal tt, exec (body x) s)) ->
  forall s, exec (forEach (items ++ [x]) body) s =
            exec (body x) (exec (forEach items body) s).
Proof.
  intros Hbody. induction items as [|y items IH]; intros s.
  - cbn [app forEach]. unfold exec, bind. rewrite Hbody. reflexivity.
  - cbn [app forEach]. unfold exec at 1 3, bind. rewrite Hbody.
    cbn [snd]. fold (exec (forEach (items ++ [x]) body) (exec (body y) s)).
    rewrite IH. reflexivity.
Qed.

Lemma forEach_frame {A B : Type} (body : A -> Io State unit) (items : list A)
    (g : State -> B) :
  (forall x s, body x s = (Normal tt, exec (body x) s)) ->
  (forall x s, g (exec (body x) s) = g s) ->
  forall s, g (exec (forEach items body) s) = g s.
Proof.
  intros Hbody Hg. induction items as [|x items IH]; intros s; [reflexivity|].
  cbn [forEach]. unfold exec at 1, bind. rewrite Hbody. cbn [snd].
  fold (exec (forEach items body) (exec (body x) s)).
  now rewrite IH, Hg.
Qed.

(** The state a bulk action leaves. *)
Lemma handleBulk_exec (s : State) :
  exec (handleBulk (handleDecision decision browser m core)) s =
  exec (setLoading false)
    (exec (setIsSelectionModalOpen false)
       (exec (setSelectedItems [])
          (exec (forEach (selectedItems s) (handleSelected (pendingApprovals s)))
             (exec (setError None) (exec (setLoading true) s))))).
Proof.
  unfold handleBulk.
  rewrite !exec_bind_gets.
  unfold setLoading at 1, setError at 1. rewrite !exec_bind_modify.
  unfold handleBulk_try.
  change (forEach (selectedItems s) _)
    with (forEach (selectedItems s) (handleSelected (pendingApprovals s))).
  unfold exec at 1, try_catch_finally, try_finally, try_catch, bind.
  rewrite (forEach_normal (handleSelected (pendingApprovals s))
             (selectedItems s) (handleSelected_normal (pendingApprovals s))).
  reflexivity.
Qed.

Lemma handleBulk_normal (s : State) :
  throws (handleBulk (handleDecision decision browser m core)) s = false.
Proof.
  unfold handleBulk, handleBulk_try, throws.
  unfold bind at 1 2 3 4, gets, setLoading at 1, setError at 1, modify.
  cbn [fst snd].
  change (forEach (selectedItems s) _)
    with (forEach (selectedItems s) (handleSelected (pendingApprovals s))).
  unfold try_catch_finally, try_finally, try_catch, bind.
  rewrite (forEach_normal (handleSelected (pendingApprovals s))
             (selectedItems s) (handleSelected_normal (pendingApprovals s))).
  reflexivity.
Qed.

Lemma handleBulk_outcome (s : State) :
  let s' := exec (handleBulk (handleDecision decision browser m core)) s in
  selectedItems s' = [] /\
  isSelectionModalOpen s' = false /\
  loading s' = false /\
  pendingApprovals s' = pendingApprovals s.
Proof.
  cbv zeta. rewrite handleBulk_exec. repeat split.
  cbn.
  rewrite (forEach_frame (handleSelected (pendingApprovals s)) (selectedItems s)
             pendingApprovals (handleSelected_normal (pendingApprovals s))).
  - reflexivity.
  - intros x s0. apply handleSelected_frame.
Qed.

Lemma handleBulk_error_of_last (s : State) earlier id item :
  selectedItems s = earlier ++ [id] ->
  find (fun approval => String.eqb (pa_id approval) id) (pendingApprovals s)
    = Some item ->
  AdminDashboard.error
    (exec (handleBulk (handleDecision decision browser m core)) s) =
  AdminDashboard.error
    (exec (handleDecision decision browser m core id (pa_type item)) s).
Proof.
  intros Hsel Hfind. rewrite handleBulk_exec, Hsel.
  rewrite (forEach_snoc (handleSelected (pendingApprovals s)) earlier id
             (handleSelected_normal (pendingApprovals s))).
  cbn [setLoading setIsSelectionModalOpen setSelectedItems exec modify snd
       AdminDashboard.error].
  unfold handleSelected at 1. rewrite Hfind.
  now rewrite !handleDecision_error.
Qed.

End DecisionFacts.

(** X12. [handleApprove] and [handleReject] (the two instances of
    [handleDecision]) let no exception out and change neither the queue
    nor the selection: the item decided on stays in the queue until the
    queue is fetched again.  When the write fails, the error is its
    message and [loading] is cleared; when it succeeds, the core data
    are fetched again, the error is that of this fetch, and [loading]
    stays set. *)
Theorem decision_keeps_the_queue :
  forall (decision : AdminDashboard.ApprovalType ->
                     AdminDashboard.Table * AdminDashboard.Change)
         (browser : AdminDashboard.Browser) (m : AdminDashboard.Mutations)
         (core : AdminDashboard.CoreQueries) (id : string)
         (type : AdminDashboard.ApprovalType) (s : AdminDashboard.State),
    let run := AdminDashboard.handleDecision decision browser m core id type in
    let s' := Effect.exec run s in
    Effect.throws run s = false /\
    AdminDashboard.pendingApprovals s' = AdminDashboard.pendingApprovals s /\
    AdminDashboard.selectedItems s' = AdminDashboard.selectedItems s /\
    match AdminDashboard.mutate m (fst (decision type)) (snd (decision type)) id
    with
    | Some e =>
        AdminDashboard.error s' = Some (Effect.errorMessage (Effect.Rethrown e)) /\
        AdminDashboard.loading s' = false /\
        AdminDashboard.stats s' = AdminDashboard.stats s /\
        AdminDashboard.visitTrend s' = AdminDashboard.visitTrend s
    | None =>
        AdminDashboard.error s' =
          option_map
            (fun message => "Failed to fetch dashboard data: " +++ message)
            (AdminDashboard.coreFailure core) /\
        AdminDashboard.loading s' = true /\
        AdminDashboard.coreLoading s' = false
    end.
Proof.
  intros decision browser m core id type s run s'. subst run s'.
  destruct (handleDecision_frame decision browser m core id type s)
    as (Hqueue & Hselected & _).
  split; [|split; [exact Hqueue|split; [exact Hselected|]]].
  - unfold Effect.throws. now rewrite handleDecision_normal.
  - pose proof (handleDecision_error decision browser m core id type s) as Herr.
    rewrite handleDecision_exec in *.
    destruct (AdminDashboard.mutate m (fst (decision type))
                (snd (decision type)) id) as [e|].
    + repeat split.
    + split; [exact Herr|].
      destruct (fetchCoreDashboardData_writes browser core
                  (Effect.exec (AdminDashboard.setError None)
                     (Effect.exec (AdminDashboard.setLoading true) s)))
        as (st & tr & ->).
      split; reflexivity.
Qed.

(** X13. A bulk action always ends with the selection emptied, the
    selection dialog closed and [loading] cleared, whether the writes
    succeeded or not, and it leaves the queue as it was: its [catch]
    block is never entered, because the handlers of the single items
    keep their exceptions. *)
Theorem bulk_action_clears_selection :
  forall (decision : AdminDashboard.ApprovalType ->
                     AdminDashboard.Table * AdminDashboard.Change)
         (browser : AdminDashboard.Browser) (m : AdminDashboard.Mutations)
         (core : AdminDashboard.CoreQueries) (s : AdminDashboard.State),
    let run := AdminDashboard.handleBulk
                 (AdminDashboard.handleDecision decision browser m core) in
    let s' := Effect.exec run s in
    Effect.throws run s = false /\
    AdminDashboard.selectedItems s' = [] /\
    AdminDashboard.isSelectionModalOpen s' = false /\
    AdminDashboard.loading s' = false /\
    AdminDashboard.pendingApprovals s' = AdminDashboard.pendingApprovals s.
Proof.
  intros decision browser m core s run s'. subst run s'.
  split; [apply handleBulk_normal|apply handleBulk_outcome].
Qed.



Example bulk_approve_hides_a_failed_write :
  AdminDashboard.error
    (Effect.exec
       (AdminDashboard.handleApprove Sample.browser Scenario.firstWriteFails
          Sample.coreOk "v1" AdminDashboard.Visit)
       Scenario.twoSelected) = Some "[object Object]" /\
  AdminDashboard.error
    (Effect.exec
       (AdminDashboard.handleBulkApprove Sample.browser
          Scenario.firstWriteFails Sample.coreOk)
       Scenario.twoSelected) = None.
Proof. split; vm_compute; reflexivity. Qed.

(** ** The layout shell *)

Section AppLayoutFacts.

Import Effect AppLayout.

Lemma leave_true (s : State) :
  leave true s =
  (Normal tt, mkState (user s) false "/" (navigations s ++ ["/"])).
Proof. reflexivity. Qed.

(** The run of [fetchUser] while the component is mounted, by whether a
    profile is let in. *)
Lemma fetchUser_mounted (q : Queries) (s : State) :
  fetchUser true q s =
  match accepted q with
  | None => leave true s
  | Some profile =>
      (Normal tt,
       if String.eqb (Profile.role profile) "admin" &&
          Js.starts_with "/mr" (pathname s)
       then mkState (Some profile) false "/admin/dashboard"
                    (navigations s ++ ["/admin/dashboard"])
       else if String.eqb (Profile.role profile) "mr" &&
               Js.starts_with "/admin" (pathname s)
       then mkState (Some profile) false "/mr/dashboard"
                    (navigations s ++ ["/mr/dashboard"])
       else mkState (Some profile) false (pathname s) (navigations s))
  end.
Proof.
  unfold fetchUser, fetchUser_try, accepted, try_catch, bind, await.
  destruct (getSession q) as [answer|e]; [|reflexivity].
  destruct (sessionError answer); [reflexivity|].
  destruct (session answer) as [user_id|]; [|reflexivity].
  destruct (profile_of q user_id) as [profile|e]; [|reflexivity].
  destruct (Effect.error profile); [destruct (Effect.data profile); reflexivity|].
  destruct (Effect.data profile) as [p|]; [|reflexivity].
  destruct (String.eqb (Profile.status p) "pending"); [reflexivity|].
  unfold setUser, setIsLoading, gets, navigate, modify, ret. cbn [pathname].
  destruct (String.eqb (Profile.role p) "admin" &&
            Js.starts_with "/mr" (pathname s)); [reflexivity|].
  destruct (String.eqb (Profile.role p) "mr" &&
            Js.starts_with "/admin" (pathname s)); reflexivity.
Qed.

Lemma accepted_not_pending (q : Queries) (profile : Profile.t) :
  accepted q = Some profile -> Profile.status profile <> "pending".
Proof.
  unfold accepted.
  destruct (getSession q) as [answer|]; [|discriminate].
  destruct (sessionError answer); [discriminate|].
  destruct (session answer) as [user_id|]; [|discriminate].
  destruct (profile_of q user_id) as [r|]; [|discriminate].
  destruct (Effect.error r); [destruct (Effect.data r); discriminate|].
  destruct (Effect.data r) as [p|]; [|discriminate].
  destruct (String.eqb_spec (Profile.status p) "pending"); [discriminate|].
  now intros [= <-].
Qed.

End AppLayoutFacts.

(** X15. Once its effect has been cleaned up, [fetchUser] writes
    nothing: whatever the session and the profile answer, also when a
    call rejects, the user context, the loading flag and the location
    are left as they were. *)
Theorem fetchUser_unmounted_writes_nothing :
  forall (q : AppLayout.Queries) (s : AppLayout.State),
    AppLayout.fetchUser false q s = (Effect.Normal tt, s).
Proof.
  intros q s.
  unfold AppLayout.fetchUser, AppLayout.fetchUser_try, Effect.try_catch,
    Effect.bind, AppLayout.await.
  destruct (AppLayout.getSession q) as [answer|e]; [|reflexivity].
  destruct (AppLayout.sessionError answer); [reflexivity|].
  destruct (AppLayout.session answer) as [user_id|]; [|reflexivity].
  destruct (AppLayout.profile_of q user_id) as [profile|e]; [|reflexivity].
  destruct (Effect.error profile);
    [destruct (Effect.data profile); reflexivity|].
  destruct (Effect.data profile) as [p|]; [|reflexivity].
  destruct (String.eqb (AppLayout.Profile.status p) "pending"); reflexivity.
Qed.

(** X16. While mounted, [fetchUser] always clears the loading flag and
    lets no exception out.  It puts a profile into the user context only
    when the session and the profile were fetched without an error and
    the account is not pending; in every other case it sends the
    browser to the login page and leaves the user context as it was. *)
Theorem fetchUser_accepts_no_pending_account :
  forall (q : AppLayout.Queries) (s : AppLayout.State),
    let s' := Effect.exec (AppLayout.fetchUser true q) s in
    Effect.throws (AppLayout.fetchUser true q) s = false /\
    AppLayout.isLoading s' = false /\
    match AppLayout.accepted q with
    | Some profile =>
        AppLayout.user s' = Some profile /\
        AppLayout.Profile.status profile <> "pending"
    | None =>
        AppLayout.user s' = AppLayout.user s /\
        AppLayout.pathname s' = "/" /\
        AppLayout.navigations s' = AppLayout.navigations s ++ ["/"]
    end.
Proof.
  intros q s s'. subst s'.
  unfold Effect.throws, Effect.exec. rewrite fetchUser_mounted.
  destruct (AppLayout.accepted q) as [profile|] eqn:E.
  - apply accepted_not_pending in E.
    destruct (String.eqb (AppLayout.Profile.role profile) "admin" &&
              Js.starts_with "/mr" (AppLayout.pathname s));
      [|destruct (String.eqb (AppLayout.Profile.role profile) "mr" &&
                  Js.starts_with "/admin" (AppLayout.pathname s))];
      repeat split; assumption.
  - rewrite leave_true. repeat split.
Qed.

(** X17. The redirect settles: after [fetchUser] has let a user in, the
    location is a page where a user of that role is left alone, the
    browser has been sent on at most once, and running [fetchUser]
    again with the same answers changes nothing. *)
Theorem fetchUser_redirect_settles :
  forall (q : AppLayout.Queries) (s : AppLayout.State)
         (profile : AppLayout.Profile.t),
    AppLayout.accepted q = Some profile ->
    let s' := Effect.exec (AppLayout.fetchUser true q) s in
    AppLayout.atHome (AppLayout.Profile.role profile) (AppLayout.pathname s')
      = true /\
    (length (AppLayout.navigations s') <= length (AppLayout.navigations s) + 1)%nat /\
    (AppLayout.atHome (AppLayout.Profile.role profile) (AppLayout.pathname s)
       = true -> AppLayout.pathname s' = AppLayout.pathname s /\
                 AppLayout.navigations s' = AppLayout.navigations s) /\
    Effect.exec (AppLayout.fetchUser true q) s' = s'.
Proof.
  intros q s profile Haccepted s'. subst s'.
  unfold Effect.exec. rewrite !fetchUser_mounted, Haccepted.
  unfold AppLayout.atHome.
  destruct (String.eqb_spec (AppLayout.Profile.role profile) "admin")
    as [Hadmin|Hadmin].
  - rewrite Hadmin. cbn [String.eqb Ascii.eqb Bool.eqb andb negb].
    destruct (Js.starts_with "/mr" (AppLayout.pathname s)) eqn:Hmr;
      cbn [snd AppLayout.pathname AppLayout.navigations andb negb].
    + repeat split; try discriminate.
      rewrite length_app. cbn. lia.
    + rewrite Hmr. repeat split. lia.
  - cbn [andb negb].
    destruct (String.eqb (AppLayout.Profile.role profile) "mr");
      cbn [andb negb].
    + destruct (Js.starts_with "/admin" (AppLayout.pathname s)) eqn:Had;
        cbn [snd AppLayout.pathname AppLayout.navigations andb negb].
      * repeat split; try discriminate.
        rewrite length_app. cbn. lia.
      * rewrite Had. repeat split. lia.
    + cbn [snd AppLayout.pathname AppLayout.navigations]. repeat split. lia.
Qed.

Lemma fetchUser_redirect_settles_witness :
  let profile := AppLayout.Profile.mk "a1" "Admin" "admin" "active" in
  let s' := Effect.exec (AppLayout.fetchUser true Scenario.adminSignedIn)
              Scenario.onMrPage in
  AppLayout.atHome (AppLayout.Profile.role profile) (AppLayout.pathname s')
    = true /\
  (length (AppLayout.navigations s')
   <= length (AppLayout.navigations Scenario.onMrPage) + 1)%nat /\
  (AppLayout.atHome (AppLayout.Profile.role profile)
     (AppLayout.pathname Scenario.onMrPage) = true ->
   AppLayout.pathname s' = AppLayout.pathname Scenario.onMrPage /\
   AppLayout.navigations s' = AppLayout.navigations Scenario.onMrPage) /\
  Effect.exec (AppLayout.fetchUser true Scenario.adminSignedIn) s' = s'.
Proof.
  apply (fetchUser_redirect_settles Scenario.adminSignedIn Scenario.onMrPage
           (AppLayout.Profile.mk "a1" "Admin" "admin" "active")).
  reflexivity.
Defined.

Example admin_is_moved_to_the_admin_dashboard :
  Effect.exec (AppLayout.fetchUser true Scenario.adminSignedIn)
    Scenario.onMrPage
  = AppLayout.mkState (Some (AppLayout.Profile.mk "a1" "Admin" "admin" "active"))
      false "/admin/dashboard" ["/admin/dashboard"].
Proof. reflexivity. Qed.

(** ** The reminder for doctors without an area *)

Section AreaReminderFacts.

Import Effect AreaReminderDialog.

Lemma dismissedRecently_own_date (clock : Clock) (now t0 : Z) :
  readsBack clock t0 ->
  dismissedRecently clock now (Some (toISOString clock t0)) = (now - t0 <? day).
Proof.
  intros [Hne Hread].
  unfold dismissedRecently.
  destruct (toISOString clock t0) as [|c rest] eqn:E; [congruence|].
  now rewrite Hread.
Qed.

Lemma remaining_after_update (doctors : list Doctor.t) (id : string) :
  NoDup (map Doctor.id doctors) -> In id (map Doctor.id doctors) ->
  S (length (filter (fun doc => negb (String.eqb (Doctor.id doc) id)) doctors))
  = length doctors.
Proof.
  induction doctors as [|d doctors IH]; cbn [map filter length];
    intros Hnd Hin; [destruct Hin|].
  inversion Hnd as [|x l Hnotin Hnd']; subst.
  destruct (String.eqb_spec (Doctor.id d) id) as [E|E]; cbn [negb length].
  - f_equal. subst id.
    assert (Hall : filter (fun doc => negb (String.eqb (Doctor.id doc) (Doctor.id d)))
                          doctors = doctors).
    { rewrite <- (filter_true doctors) at 2. apply filter_ext_in.
      intros doc Hdoc. destruct (String.eqb_spec (Doctor.id doc) (Doctor.id d))
        as [E|E]; [|reflexivity].
      exfalso. apply Hnotin. rewrite <- E. now apply in_map. }
    now rewrite Hall.
  - f_equal. apply IH; [assumption|].
    destruct Hin as [Hin|Hin]; [contradiction|assumption].
Qed.

End AreaReminderFacts.

(** X18. "Remind me later" closes the reminder and puts it off for a
    day: a check less than 24 hours later changes nothing, whatever the
    store would answer, and a check from 24 hours on opens the reminder
    again when the user still has doctors without an area. *)
Theorem remind_later_puts_off_for_a_day :
  forall (clock : AreaReminderDialog.Clock) (q : AreaReminderDialog.Queries)
         (s : AreaReminderDialog.State) (dismissedAt now : Z) (user_id : string),
    AreaReminderDialog.readsBack clock dismissedAt ->
    AreaReminderDialog.getUser q = Effect.Normal (Some user_id) ->
    let s1 := Effect.exec (AreaReminderDialog.handleRemindLater clock dismissedAt) s in
    let s2 := Effect.exec (AreaReminderDialog.checkDoctorsWithoutArea clock now q) s1 in
    AreaReminderDialog.isOpen s1 = false /\
    (now - dismissedAt < AreaReminderDialog.day -> s2 = s1) /\
    (AreaReminderDialog.day <= now - dismissedAt ->
     forall doctor rest,
       AreaReminderDialog.doctors_without_area q user_id
         = Effect.ok (doctor :: rest) ->
       AreaReminderDialog.isOpen s2 = true /\
       AreaReminderDialog.doctorsWithoutArea s2 = doctor :: rest).
Proof.
  intros clock q s t0 now user_id Hclock Huser s1 s2.
  assert (Hstored : Js.obj_get (AreaReminderDialog.localStorage s1)
                      "areaReminderDismissed"
                    = Some (AreaReminderDialog.toISOString clock t0)).
  { subst s1. cbn. apply obj_get_set_same. }
  assert (Hrun : s2 =
    if now - t0 <? AreaReminderDialog.day then s1
    else Effect.exec
           (let doctors := AreaReminderDialog.doctors_without_area q user_id in
            Effect.try_catch
              (Effect.throw_if (Effect.error doctors) Effect.Rethrown ;;
               match Effect.data doctors with
               | Some (doctor :: rest) =>
                   AreaReminderDialog.setDoctorsWithoutArea (doctor :: rest) ;;
                   AreaReminderDialog.setIsOpen true
               | _ => Effect.ret tt
               end)
              (fun _ => Effect.ret tt)) s1).
  { subst s2.
    unfold AreaReminderDialog.checkDoctorsWithoutArea,
      AreaReminderDialog.checkDoctorsWithoutArea_try.
    unfold Effect.exec at 1, Effect.try_catch at 1, Effect.bind at 1 2,
      AreaReminderDialog.await, Effect.gets.
    rewrite Huser, Hstored, (dismissedRecently_own_date clock now t0 Hclock).
    destruct (now - t0 <? AreaReminderDialog.day); reflexivity. }
  split; [reflexivity|]. split.
  - intros Hlt. rewrite Hrun.
    destruct (Z.ltb_spec (now - t0) AreaReminderDialog.day); [reflexivity|lia].
  - intros Hge doctor rest Hdoctors. rewrite Hrun.
    destruct (Z.ltb_spec (now - t0) AreaReminderDialog.day); [lia|].
    cbv zeta. rewrite Hdoctors. split; reflexivity.
Qed.

Lemma remind_later_puts_off_for_a_day_witness :
  let s1 := Effect.exec
              (AreaReminderDialog.handleRemindLater Scenario.decimalClock 1000)
              Scenario.reminderClosed in
  let s2 := Effect.exec
              (AreaReminderDialog.checkDoctorsWithoutArea Scenario.decimalClock
                 86401000 Scenario.oneDoctorLeft) s1 in
  AreaReminderDialog.isOpen s1 = false /\
  (86401000 - 1000 < AreaReminderDialog.day -> s2 = s1) /\
  (AreaReminderDialog.day <= 86401000 - 1000 ->
   forall doctor rest,
     AreaReminderDialog.doctors_without_area Scenario.oneDoctorLeft "mr1"
       = Effect.ok (doctor :: rest) ->
     AreaReminderDialog.isOpen s2 = true /\
     AreaReminderDialog.doctorsWithoutArea s2 = doctor :: rest).
Proof.
  apply (remind_later_puts_off_for_a_day Scenario.decimalClock
           Scenario.oneDoctorLeft Scenario.reminderClosed 1000 86401000 "mr1").
  - split; [discriminate|reflexivity].
  - reflexivity.
Defined.

(** X19. Saving the area of a doctor always clears [isSubmitting].
    When the store refuses the write, the list of doctors, both dialogs
    and the doctor being edited stay as they are and one error toast is
    raised.  When it accepts, the doctor leaves the list by its id, the
    edit dialog closes, and (the ids of the list being distinct and the
    doctor being on it) the reminder is open again afterwards exactly
    when doctors without an area remain. *)
Theorem area_update_reopens_while_doctors_remain :
  forall (q : AreaReminderDialog.Queries) (s : AreaReminderDialog.State)
         (d : Doctor.t),
    AreaReminderDialog.editingDoctor s = Some d ->
    NoDup (map Doctor.id (AreaReminderDialog.doctorsWithoutArea s)) ->
    In (Doctor.id d) (map Doctor.id (AreaReminderDialog.doctorsWithoutArea s)) ->
    let s' := Effect.exec (AreaReminderDialog.handleUpdateArea q) s in
    AreaReminderDialog.isSubmitting s' = false /\
    match AreaReminderDialog.update_area q (Doctor.id d) (Doctor.area d) with
    | Some _ =>
        AreaReminderDialog.doctorsWithoutArea s' =
          AreaReminderDialog.doctorsWithoutArea s /\
        AreaReminderDialog.isOpen s' = AreaReminderDialog.isOpen s /\
        AreaReminderDialog.isEditAreaDialogOpen s' =
          AreaReminderDialog.isEditAreaDialogOpen s /\
        AreaReminderDialog.editingDoctor s' = Some d /\
        AreaReminderDialog.toasts s' =
          AreaReminderDialog.toasts s ++ ["Failed to update area"]
    | None =>
        AreaReminderDialog.doctorsWithoutArea s' =
          filter (fun doc => negb (String.eqb (Doctor.id doc) (Doctor.id d)))
                 (AreaReminderDialog.doctorsWithoutArea s) /\
        S (length (AreaReminderDialog.doctorsWithoutArea s')) =
          length (AreaReminderDialog.doctorsWithoutArea s) /\
        (AreaReminderDialog.isOpen s' = true <->
         AreaReminderDialog.doctorsWithoutArea s' <> []) /\
        AreaReminderDialog.isEditAreaDialogOpen s' = false /\
        AreaReminderDialog.editingDoctor s' = None /\
        AreaReminderDialog.toasts s' =
          AreaReminderDialog.toasts s ++ ["Area updated successfully"]
    end.
Proof.
  intros q s d Hediting Hnd Hin s'. subst s'.
  pose proof (remaining_after_update
                (AreaReminderDialog.doctorsWithoutArea s) (Doctor.id d) Hnd Hin)
    as Hleft.
  unfold AreaReminderDialog.handleUpdateArea.
  rewrite !exec_bind_gets, Hediting.
  unfold AreaReminderDialog.setIsSubmitting at 2.
  rewrite exec_finally_modify.
  unfold AreaReminderDialog.handleUpdateArea_try.
  unfold Effect.exec, Effect.try_catch, Effect.bind, Effect.throw_if,
    Effect.throw, Effect.ret.
  destruct (AreaReminderDialog.update_area q (Doctor.id d) (Doctor.area d))
    as [e|].
  - cbn. repeat split; try reflexivity; exact Hediting.
  - destruct (Z.eqb_spec
                (Z.of_nat (length (AreaReminderDialog.doctorsWithoutArea s))) 1)
      as [Hone|Hmore]; cbn.
    + repeat split; try reflexivity; try assumption; try discriminate.
      intros Hsome. exfalso.
      destruct (filter _ (AreaReminderDialog.doctorsWithoutArea s));
        [now apply Hsome|cbn [length] in Hleft; lia].
    + repeat split; try reflexivity; try assumption.
      intros _ Hnil. rewrite Hnil in Hleft. cbn [length] in Hleft. lia.
Qed.

Lemma area_update_reopens_while_doctors_remain_witness :
  let q := Scenario.oneDoctorLeft in
  let s := Scenario.editingTheDoctor in
  let d := Sample.doctorWithoutArea in
  let s' := Effect.exec (AreaReminderDialog.handleUpdateArea q) s in
  AreaReminderDialog.isSubmitting s' = false /\
  match AreaReminderDialog.update_area q (Doctor.id d) (Doctor.area d) with
  | Some _ =>
      AreaReminderDialog.doctorsWithoutArea s' =
        AreaReminderDialog.doctorsWithoutArea s /\
      AreaReminderDialog.isOpen s' = AreaReminderDialog.isOpen s /\
      AreaReminderDialog.isEditAreaDialogOpen s' =
        AreaReminderDialog.isEditAreaDialogOpen s /\
      AreaReminderDialog.editingDoctor s' = Some d /\
      AreaReminderDialog.toasts s' =
        AreaReminderDialog.toasts s ++ ["Failed to update area"]
  | None =>
      AreaReminderDialog.doctorsWithoutArea s' =
        filter (fun doc => negb (String.eqb (Doctor.id doc) (Doctor.id d)))
               (AreaReminderDialog.doctorsWithoutArea s) /\
      S (length (AreaReminderDialog.doctorsWithoutArea s')) =
        length (AreaReminderDialog.doctorsWithoutArea s) /\
      (AreaReminderDialog.isOpen s' = true <->
       AreaReminderDialog.doctorsWithoutArea s' <> []) /\
      AreaReminderDialog.isEditAreaDialogOpen s' = false /\
      AreaReminderDialog.editingDoctor s' = None /\
      AreaReminderDialog.toasts s' =
        AreaReminderDialog.toasts s ++ ["Area updated successfully"]
  end.
Proof.
  apply (area_update_reopens_while_doctors_remain Scenario.oneDoctorLeft
           Scenario.editingTheDoctor Sample.doctorWithoutArea).
  - reflexivity.
  - cbn. repeat constructor. intros [].
  - cbn. now left.
Defined.

(** ** The report pages after a failed fetch *)

Section ReportFailureFacts.

Import Effect Rows.

(** Neither [try] block has written anything when it throws. *)
Lemma visit_fetchReports_try_throws role selectedMr q (s : ReportPage.State) :
  throws (ReportPage.fetchReports_try role selectedMr q) s = true ->
  exists e, ReportPage.fetchReports_try role selectedMr q s = (Abrupt e, s).
Proof.
  unfold ReportPage.fetchReports_try, throws, bind, throw_if, throw, ret,
    ReportPage.setProcessedData, modify.
  destruct (is_admin role).
  - destruct (Effect.error (ReportPage.visits_report q _)); [eauto|].
    destruct (Effect.error (ReportPage.profiles_in q _)); [eauto|].
    discriminate.
  - destruct (ReportPage.auth_user_id q) as [[|c r]|]; [eauto| |eauto].
    destruct (Effect.error (ReportPage.visits_report q _)); [eauto|].
    destruct (Effect.error (ReportPage.profiles_in q _)); [eauto|].
    discriminate.
Qed.

Lemma medical_fetchReports_try_throws role selectedMr q
    (s : MedicalVisitsReportPage.State) :
  throws (MedicalVisitsReportPage.fetchReports_try role selectedMr q) s = true ->
  exists e,
    MedicalVisitsReportPage.fetchReports_try role selectedMr q s = (Abrupt e, s).
Proof.
  unfold MedicalVisitsReportPage.fetchReports_try, throws, bind, throw_if,
    throw, ret, MedicalVisitsReportPage.setProcessedData, modify.
  destruct (is_admin role).
  - destruct (Effect.error (MedicalVisitsReportPage.medical_visits q _));
      [eauto|].
    destruct (Effect.error (MedicalVisitsReportPage.medical_visit_orders q));
      [eauto|].
    destruct (Effect.error (MedicalVisitsReportPage.medicals q)); [eauto|].
    discriminate.
  - destruct (MedicalVisitsReportPage.auth_user_id q) as [[|c r]|];
      [eauto| |eauto].
    destruct (Effect.error (MedicalVisitsReportPage.medical_visits q _));
      [eauto|].
    destruct (Effect.error (MedicalVisitsReportPage.medical_visit_orders q));
      [eauto|].
    destruct (Effect.error (MedicalVisitsReportPage.medicals q)); [eauto|].
    discriminate.
Qed.

End ReportFailureFacts.



(** ** Substrings *)

Section SubstringFacts.

Lemma append_assoc' (a b c : string) : (a +++ b) +++ c = a +++ (b +++ c).
Proof. induction a as [|x a IH]; cbn; [reflexivity|now rewrite IH]. Qed.

Lemma starts_with_spec (sub s : string) :
  Js.starts_with sub s = true <-> exists b, s = sub +++ b.
Proof.
  revert s. induction sub as [|x sub IH]; intros s; cbn.
  - split; [eauto|reflexivity].
  - destruct s as [|y s].
    + split; [discriminate|]. intros [b Hb]. discriminate Hb.
    + rewrite andb_true_iff, IH. split.
      * intros [Hxy [b ->]]. apply Ascii.eqb_eq in Hxy. subst y. eauto.
      * intros [b Hb]. injection Hb as -> ->.
        split; [apply Ascii.eqb_refl|eauto].
Qed.

Lemma includes_spec (s sub : string) :
  Js.includes s sub = true <-> exists a b, s = a +++ sub +++ b.
Proof.
  induction s as [|y s IH]; cbn [Js.includes].
  - rewrite orb_false_r, starts_with_spec. split.
    + intros [b ->]. exists EmptyString, b. reflexivity.
    + intros (a & b & H). destruct a as [|x a]; [eauto|discriminate H].
  - rewrite orb_true_iff, starts_with_spec, IH. split.
    + intros [[b ->]|(a & b & ->)].
      * exists EmptyString, b. reflexivity.
      * exists (String y a), b. reflexivity.
    + intros (a & b & H). destruct a as [|x a]; cbn in H.
      * left. eauto.
      * right. injection H as -> ->. eauto.
Qed.

Lemma toLowerCase_append (a b : string) :
  Js.toLowerCase (a +++ b) = Js.toLowerCase a +++ Js.toLowerCase b.
Proof. induction a as [|x a IH]; cbn; [reflexivity|now rewrite IH]. Qed.

(** A string that holds a term holds every part of the term, also
    after lower-casing. *)
Lemma includes_part (s t' t : string) :
  Js.includes t' t = true -> Js.includes s t' = true -> Js.includes s t = true.
Proof.
  rewrite !includes_spec. intros (a & b & ->) (c & d & ->).
  exists (c +++ a), (b +++ d). now rewrite !append_assoc'.
Qed.

Lemma includes_toLowerCase_part (t' t : string) :
  Js.includes t' t = true ->
  Js.includes (Js.toLowerCase t') (Js.toLowerCase t) = true.
Proof.
  rewrite !includes_spec. intros (a & b & ->).
  exists (Js.toLowerCase a), (Js.toLowerCase b).
  now rewrite !toLowerCase_append.
Qed.

End SubstringFacts.



(** ** Verifying and deleting a doctor *)

(** X22. [handleVerify] and [handleDelete] change the list on the page
    only after the store has accepted the write, and raise exactly one
    toast.  After a verification the list holds the same doctors in the
    same order, every doctor with the given id is verified and the other
    doctors are untouched; after a deletion no doctor with the given id
    is left and the other doctors keep their order.  When the store
    refuses, the list is the one it was. *)
Theorem verify_and_delete_follow_the_store :
  forall (w : DoctorActions.Writes) (id : string) (s : DoctorsManagement.State),
    (let s' := Effect.exec (DoctorActions.handleVerify w id) s in
     map Doctor.id (DoctorsManagement.doctors s') =
       map Doctor.id (DoctorsManagement.doctors s) /\
     length (DoctorsManagement.toasts s') =
       S (length (DoctorsManagement.toasts s)) /\
     match DoctorActions.update_is_verified w id with
     | Some _ => DoctorsManagement.doctors s' = DoctorsManagement.doctors s
     | None =>
         Forall (fun d => Doctor.id d = id -> Doctor.is_verified d = true)
                (DoctorsManagement.doctors s') /\
         (forall d, Doctor.id d <> id ->
            (In d (DoctorsManagement.doctors s') <->
             In d (DoctorsManagement.doctors s)))
     end) /\
    (let s' := Effect.exec (DoctorActions.handleDelete w id) s in
     length (DoctorsManagement.toasts s') =
       S (length (DoctorsManagement.toasts s)) /\
     match DoctorActions.delete_doctor w id with
     | Some _ => DoctorsManagement.doctors s' = DoctorsManagement.doctors s
     | None =>
         DoctorsManagement.doctors s' =
           filter (fun d => negb (String.eqb (Doctor.id d) id))
                  (DoctorsManagement.doctors s) /\
         ~ In id (map Doctor.id (DoctorsManagement.doctors s')) /\
         (forall d, Doctor.id d <> id ->
            (In d (DoctorsManagement.doctors s') <->
             In d (DoctorsManagement.doctors s)))
     end).
Proof.
  intros w id s. split.
  - cbv zeta. unfold DoctorActions.handleVerify.
    rewrite exec_bind_gets.
    unfold Effect.exec, Effect.try_catch, Effect.bind, Effect.throw_if,
      Effect.throw, Effect.ret, DoctorsManagement.setDoctors,
      DoctorActions.toast_success, DoctorsManagement.toast_error,
      Effect.modify, Rows.pushToast.
    destruct (DoctorActions.update_is_verified w id) as [e|]; cbn.
    + repeat split. rewrite length_app. cbn. lia.
    + split; [|split; [rewrite length_app; cbn; lia|split]].
      * rewrite map_map. apply map_ext. intros d.
        now destruct (String.eqb (Doctor.id d) id).
      * apply Forall_forall. intros d Hd Hid.
        apply in_map_iff in Hd. destruct Hd as (d0 & <- & _).
        destruct (String.eqb_spec (Doctor.id d0) id) as [E|E];
          [reflexivity|]. contradiction.
      * intros d Hid. rewrite in_map_iff. split.
        -- intros (d0 & Hd0 & Hin).
           destruct (String.eqb_spec (Doctor.id d0) id) as [E|E].
           ++ subst d. cbn in Hid. contradiction.
           ++ now subst d0.
        -- intros Hin. exists d. split; [|assumption].
           destruct (String.eqb_spec (Doctor.id d) id); [contradiction|].
           reflexivity.
  - cbv zeta. unfold DoctorActions.handleDelete.
    rewrite exec_bind_gets.
    unfold Effect.exec, Effect.try_catch, Effect.bind, Effect.throw_if,
      Effect.throw, Effect.ret, DoctorsManagement.setDoctors,
      DoctorActions.toast_success, DoctorsManagement.toast_error,
      Effect.modify, Rows.pushToast.
    destruct (DoctorActions.delete_doctor w id) as [e|]; cbn.
    + repeat split. rewrite length_app. cbn. lia.
    + split; [rewrite length_app; cbn; lia|]. split; [reflexivity|]. split.
      * rewrite in_map_iff. intros (d & Hid & Hd).
        apply filter_In in Hd. destruct Hd as [_ Hd].
        rewrite <- Hid, String.eqb_refl in Hd. discriminate.
      * intros d Hid. rewrite filter_In.
        destruct (String.eqb_spec (Doctor.id d) id); [contradiction|].
        cbn. tauto.
Qed.

(** ** Routes and the navigation bar *)

Section NavigationFacts.

Import MobileNavigation.

Lemma targets_cases (userRole : string) (user : option AppLayout.Profile.t) :
  (userRole = "admin" /\
   targets userRole user =
   ["/admin/dashboard"; "/admin/users"; "/admin/doctors"; "/admin/medicines";
    "/admin/reports?type=mr-medical"; "/admin/reports?type=doctors"]) \/
  (userRole = "mr" /\
   targets userRole user =
   (if isInactiveMr user then ["/mr/dashboard"]
    else ["/mr/dashboard"; "/mr/visits/new"; "/mr/medical-visits/new"])
   ++ ["/mr/doctors"; "/mr/visits"; "/mr/area"; "/mr/reports";
       "/mr/medical-reports"]) \/
  (userRole <> "admin" /\ userRole <> "mr" /\
   targets userRole user = map href mrNavItems).
Proof.
  unfold targets.
  destruct (String.eqb_spec userRole "admin") as [->|Hadmin].
  - left. split; reflexivity.
  - destruct (String.eqb_spec userRole "mr") as [->|Hmr].
    + right. left. split; [reflexivity|].
      destruct (isInactiveMr user) eqn:E; reflexivity.
    + right. right. split; [assumption|]. split; [assumption|].
      reflexivity.
Qed.

End NavigationFacts.

(** X23. Every target of the navigation bar is a route under the
    layout shell, and a page on which [fetchUser] leaves a user of the
    role alone: the bar never sends a user to a page from which the
    shell redirects.  An inactive MR is offered no target for logging a
    visit. *)
Theorem navigation_targets_are_routes_of_the_role :
  forall (userRole : string) (user : option AppLayout.Profile.t)
         (target : string),
    In target (MobileNavigation.targets userRole user) ->
    In (App.pathOf target) App.protectedRoutes /\
    AppLayout.atHome userRole (App.pathOf target) = true /\
    (MobileNavigation.isInactiveMr user = true ->
     target <> "/mr/visits/new" /\ target <> "/mr/medical-visits/new").
Proof.
  intros userRole user target Hin.
  destruct (targets_cases userRole user)
    as [[-> Heq]|[[-> Heq]|(Hadmin & Hmr & Heq)]]; rewrite Heq in Hin.
  - cbn in Hin.
    repeat (destruct Hin as [<-|Hin];
            [split; [vm_compute; tauto|split; [reflexivity|]];
             intros _; split; discriminate|]).
    destruct Hin.
  - destruct (MobileNavigation.isInactiveMr user) eqn:E; cbn in Hin;
      repeat (destruct Hin as [<-|Hin];
              [split; [vm_compute; tauto|split; [reflexivity|]];
               intros H; try discriminate H; split; discriminate|]);
      destruct Hin.
  - assert (Hhome : forall path, AppLayout.atHome userRole path = true).
    { intros path. unfold AppLayout.atHome.
      destruct (String.eqb_spec userRole "admin"); [contradiction|].
      destruct (String.eqb_spec userRole "mr"); [contradiction|].
      reflexivity. }
    cbn in Hin.
    repeat (destruct Hin as [<-|Hin];
            [split; [vm_compute; tauto|split; [apply Hhome|]];
             intros _; split; discriminate|]).
    destruct Hin.
Qed.

Lemma navigation_targets_are_routes_of_the_role_witness :
  In (App.pathOf "/admin/reports?type=doctors") App.protectedRoutes /\
  AppLayout.atHome "admin" (App.pathOf "/admin/reports?type=doctors") = true /\
  (MobileNavigation.isInactiveMr None = true ->
   "/admin/reports?type=doctors" <> "/mr/visits/new" /\
   "/admin/reports?type=doctors" <> "/mr/medical-visits/new").
Proof.
  apply (navigation_targets_are_routes_of_the_role "admin" None
           "/admin/reports?type=doctors").
  vm_compute. tauto.
Defined.

(** ** Adding a doctor *)

Section AddDoctorFacts.

Import AddDoctor.

Lemma handleAddDoctor_mr_incomplete (store : Store) (s : State) :
  incomplete (newDoctor s) = true ->
  OfMr.handleAddDoctor store s =
  (Effect.Normal tt,
   mkState (doctors s) (newDoctor s) false (isAddDoctorDialogOpen s)
     (toasts s ++
      ["Please fill in all required fields (Name, Specialty, Hospital, Address, Area)"])
     (inserts s)).
Proof.
  intros Hform. unfold OfMr.handleAddDoctor. run_io.
  rewrite Hform. reflexivity.
Qed.

Lemma handleAddDoctor_admin_incomplete (store : Store) (s : State) :
  incomplete (newDoctor s) = true ->
  OfAdmin.handleAddDoctor store s =
  (Effect.Normal tt,
   mkState (doctors s) (newDoctor s) false (isAddDoctorDialogOpen s)
     (toasts s ++ ["Please fill in all required fields"]) (inserts s)).
Proof.
  intros Hform. unfold OfAdmin.handleAddDoctor. run_io.
  rewrite Hform. reflexivity.
Qed.

Lemma handleAddDoctor_mr_sent (store : Store) (s : State) (user_id : string) :
  incomplete (newDoctor s) = false ->
  getUser store = Effect.Normal (Some user_id) ->
  Effect.error (insert store (OfMr.row (newDoctor s) user_id)) = None ->
  OfMr.handleAddDoctor store s =
  (Effect.Normal tt,
   match Effect.data (insert store (OfMr.row (newDoctor s) user_id)) with
   | Some (added :: _) =>
       mkState (doctors s ++ [added]) OfMr.emptyForm false false
         (toasts s ++ ["Doctor added successfully. Pending verification."])
         (inserts s ++ [OfMr.row (newDoctor s) user_id])
   | _ =>
       mkState (doctors s) (newDoctor s) false (isAddDoctorDialogOpen s)
         (toasts s ++ ["Failed to add doctor or retrieve added data."])
         (inserts s ++ [OfMr.row (newDoctor s) user_id])
   end).
Proof.
  intros Hform Huser Herror.
  unfold OfMr.handleAddDoctor, await, send. run_io.
  rewrite Hform, Huser. io_simpl. rewrite Herror. io_simpl.
  destruct (Effect.data (insert store (OfMr.row (newDoctor s) user_id)))
    as [[|added rest]|]; reflexivity.
Qed.

Lemma handleAddDoctor_admin_sent (store : Store) (s : State)
    (user_id : string) :
  incomplete (newDoctor s) = false ->
  getUser store = Effect.Normal (Some user_id) ->
  Effect.error (insert store (OfAdmin.row (newDoctor s) user_id)) = None ->
  OfAdmin.handleAddDoctor store s =
  (Effect.Normal tt,
   match Effect.data (insert store (OfAdmin.row (newDoctor s) user_id)) with
   | Some (added :: _) =>
       mkState (doctors s ++ [added]) OfAdmin.emptyForm false false
         (toasts s ++ ["Doctor added successfully"])
         (inserts s ++ [OfAdmin.row (newDoctor s) user_id])
   | _ =>
       mkState (doctors s) (newDoctor s) false (isAddDoctorDialogOpen s)
         (toasts s) (inserts s ++ [OfAdmin.row (newDoctor s) user_id])
   end).
Proof.
  intros Hform Huser Herror.
  unfold OfAdmin.handleAddDoctor, await, send. run_io.
  rewrite Hform, Huser. io_simpl. rewrite Herror. io_simpl.
  destruct (Effect.data (insert store (OfAdmin.row (newDoctor s) user_id)))
    as [[|added rest]|]; reflexivity.
Qed.

End AddDoctorFacts.

(** X24. With a required field of the form left empty (name,
    specialty, hospital, address or area), neither screen asks the store
    for anything: whatever the store would answer, the handler sends no
    row, leaves the doctors, the form and the dialog as they are, shows
    one message and ends with the submit button released. *)
Theorem incomplete_form_sends_nothing :
  forall (store : AddDoctor.Store) (s : AddDoctor.State),
    AddDoctor.incomplete (AddDoctor.newDoctor s) = true ->
    let afterMr := Effect.exec (AddDoctor.OfMr.handleAddDoctor store) s in
    let afterAdmin := Effect.exec (AddDoctor.OfAdmin.handleAddDoctor store) s in
    (AddDoctor.inserts afterMr = AddDoctor.inserts s /\
     AddDoctor.doctors afterMr = AddDoctor.doctors s /\
     AddDoctor.newDoctor afterMr = AddDoctor.newDoctor s /\
     AddDoctor.isAddDoctorDialogOpen afterMr = AddDoctor.isAddDoctorDialogOpen s /\
     AddDoctor.isSubmitting afterMr = false /\
     length (AddDoctor.toasts afterMr) = S (length (AddDoctor.toasts s))) /\
    (AddDoctor.inserts afterAdmin = AddDoctor.inserts s /\
     AddDoctor.doctors afterAdmin = AddDoctor.doctors s /\
     AddDoctor.newDoctor afterAdmin = AddDoctor.newDoctor s /\
     AddDoctor.isAddDoctorDialogOpen afterAdmin =
       AddDoctor.isAddDoctorDialogOpen s /\
     AddDoctor.isSubmitting afterAdmin = false /\
     AddDoctor.toasts afterAdmin =
       AddDoctor.toasts s ++ ["Please fill in all required fields"]).
Proof.
  intros store s Hform. cbv zeta. unfold Effect.exec.
  rewrite (handleAddDoctor_mr_incomplete store s Hform),
    (handleAddDoctor_admin_incomplete store s Hform).
  cbn [snd AddDoctor.inserts AddDoctor.doctors AddDoctor.newDoctor
       AddDoctor.isAddDoctorDialogOpen AddDoctor.isSubmitting AddDoctor.toasts].
  rewrite length_app, Nat.add_comm.
  repeat split; reflexivity.
Qed.

Lemma incomplete_form_sends_nothing_witness :
  AddDoctor.inserts
    (Effect.exec (AddDoctor.OfMr.handleAddDoctor Scenario.storesTheRow)
       (Scenario.addDialog Scenario.formWithoutArea)) = [] /\
  AddDoctor.inserts
    (Effect.exec (AddDoctor.OfAdmin.handleAddDoctor Scenario.storesTheRow)
       (Scenario.addDialog Scenario.formWithoutArea)) = [].
Proof.
  destruct (incomplete_form_sends_nothing Scenario.storesTheRow
              (Scenario.addDialog Scenario.formWithoutArea))
    as [[Hmr _] [Hadmin _]]; [reflexivity|].
  split; assumption.
Defined.

(** X25. With the form complete and the user known, a store that
    answers the insert with a row and no error makes both screens append
    exactly the answered row to the doctors, close the dialog, empty the
    form and release the submit button; one row was sent, carrying the
    user as [added_by] and the area of the form, unverified from the MR
    and verified from the admin. *)
Theorem added_doctor_is_the_answered_row :
  forall (store : AddDoctor.Store) (s : AddDoctor.State) (user_id : string)
         (mrRow adminRow : Doctor.t) (mrRest adminRest : list Doctor.t),
    AddDoctor.incomplete (AddDoctor.newDoctor s) = false ->
    AddDoctor.getUser store = Effect.Normal (Some user_id) ->
    AddDoctor.insert store (AddDoctor.OfMr.row (AddDoctor.newDoctor s) user_id) =
      Effect.ok (mrRow :: mrRest) ->
    AddDoctor.insert store
        (AddDoctor.OfAdmin.row (AddDoctor.newDoctor s) user_id) =
      Effect.ok (adminRow :: adminRest) ->
    let afterMr := Effect.exec (AddDoctor.OfMr.handleAddDoctor store) s in
    let afterAdmin := Effect.exec (AddDoctor.OfAdmin.handleAddDoctor store) s in
    (AddDoctor.doctors afterMr = AddDoctor.doctors s ++ [mrRow] /\
     AddDoctor.isAddDoctorDialogOpen afterMr = false /\
     AddDoctor.isSubmitting afterMr = false /\
     AddDoctor.newDoctor afterMr = AddDoctor.OfMr.emptyForm /\
     exists sent,
       AddDoctor.inserts afterMr = AddDoctor.inserts s ++ [sent] /\
       AddDoctor.ins_added_by sent = user_id /\
       AddDoctor.ins_area sent = AddDoctor.area (AddDoctor.newDoctor s) /\
       AddDoctor.ins_is_verified sent = false) /\
    (AddDoctor.doctors afterAdmin = AddDoctor.doctors s ++ [adminRow] /\
     AddDoctor.isAddDoctorDialogOpen afterAdmin = false /\
     AddDoctor.isSubmitting afterAdmin = false /\
     AddDoctor.newDoctor afterAdmin = AddDoctor.OfAdmin.emptyForm /\
     exists sent,
       AddDoctor.inserts afterAdmin = AddDoctor.inserts s ++ [sent] /\
       AddDoctor.ins_added_by sent = user_id /\
       AddDoctor.ins_area sent = AddDoctor.area (AddDoctor.newDoctor s) /\
       AddDoctor.ins_is_verified sent = true).
Proof.
  intros store s user_id mrRow adminRow mrRest adminRest
    Hform Huser Hmr Hadmin. cbv zeta. unfold Effect.exec.
  rewrite (handleAddDoctor_mr_sent store s user_id Hform Huser)
    by (rewrite Hmr; reflexivity).
  rewrite (handleAddDoctor_admin_sent store s user_id Hform Huser)
    by (rewrite Hadmin; reflexivity).
  rewrite Hmr, Hadmin. cbn.
  split; (split; [reflexivity|]; split; [reflexivity|]; split; [reflexivity|];
          split; [reflexivity|]; eexists; repeat split; reflexivity).
Qed.

Lemma added_doctor_is_the_answered_row_witness :
  AddDoctor.doctors
    (Effect.exec (AddDoctor.OfMr.handleAddDoctor Scenario.storesTheRow)
       (Scenario.addDialog Scenario.filledForm)) =
    Sample.twoDoctors ++ [Sample.doctorWithoutArea] /\
  AddDoctor.doctors
    (Effect.exec (AddDoctor.OfAdmin.handleAddDoctor Scenario.storesTheRow)
       (Scenario.addDialog Scenario.filledForm)) =
    Sample.twoDoctors ++ [Sample.doctorWithoutArea].
Proof.
  destruct (added_doctor_is_the_answered_row Scenario.storesTheRow
              (Scenario.addDialog Scenario.filledForm) "mr1"
              Sample.doctorWithoutArea Sample.doctorWithoutArea [] [])
    as [[Hmr _] [Hadmin _]]; try reflexivity.
  split; assumption.
Defined.

(** X26. With the form complete and the user known, a store that
    answers the insert with neither an error nor a row is reported by the
    screen of the MR ("Failed to add doctor or retrieve added data.") and
    passed over in silence by the screen of the admin: there the row was
    sent, and nothing but the released submit button shows it -- no
    message, the dialog as it was, the form still filled, the doctors
    unchanged. *)
Theorem empty_answer_is_silent_for_the_admin :
  forall (store : AddDoctor.Store) (s : AddDoctor.State) (user_id : string),
    AddDoctor.incomplete (AddDoctor.newDoctor s) = false ->
    AddDoctor.getUser store = Effect.Normal (Some user_id) ->
    (forall row, AddDoctor.insert store row = Effect.ok [] \/
                 AddDoctor.insert store row = Effect.mkResponse None None) ->
    Effect.exec (AddDoctor.OfMr.handleAddDoctor store) s =
      AddDoctor.mkState (AddDoctor.doctors s) (AddDoctor.newDoctor s) false
        (AddDoctor.isAddDoctorDialogOpen s)
        (AddDoctor.toasts s ++ ["Failed to add doctor or retrieve added data."])
        (AddDoctor.inserts s ++
         [AddDoctor.OfMr.row (AddDoctor.newDoctor s) user_id]) /\
    Effect.exec (AddDoctor.OfAdmin.handleAddDoctor store) s =
      AddDoctor.mkState (AddDoctor.doctors s) (AddDoctor.newDoctor s) false
        (AddDoctor.isAddDoctorDialogOpen s) (AddDoctor.toasts s)
        (AddDoctor.inserts s ++
         [AddDoctor.OfAdmin.row (AddDoctor.newDoctor s) user_id]).
Proof.
  intros store s user_id Hform Huser Hempty. unfold Effect.exec.
  rewrite (handleAddDoctor_mr_sent store s user_id Hform Huser)
    by (destruct (Hempty (AddDoctor.OfMr.row (AddDoctor.newDoctor s) user_id))
          as [-> | ->]; reflexivity).
  rewrite (handleAddDoctor_admin_sent store s user_id Hform Huser)
    by (destruct (Hempty (AddDoctor.OfAdmin.row (AddDoctor.newDoctor s) user_id))
          as [-> | ->]; reflexivity).
  split.
  - destruct (Hempty (AddDoctor.OfMr.row (AddDoctor.newDoctor s) user_id))
      as [-> | ->]; reflexivity.
  - destruct (Hempty (AddDoctor.OfAdmin.row (AddDoctor.newDoctor s) user_id))
      as [-> | ->]; reflexivity.
Qed.

Lemma empty_answer_is_silent_for_the_admin_witness :
  AddDoctor.toasts
    (Effect.exec (AddDoctor.OfMr.handleAddDoctor Scenario.storesNothing)
       (Scenario.addDialog Scenario.filledForm)) =
    ["Failed to add doctor or retrieve added data."] /\
  AddDoctor.toasts
    (Effect.exec (AddDoctor.OfAdmin.handleAddDoctor Scenario.storesNothing)
       (Scenario.addDialog Scenario.filledForm)) = [].
Proof.
  destruct (empty_answer_is_silent_for_the_admin Scenario.storesNothing
              (Scenario.addDialog Scenario.filledForm) "mr1")
    as [Hmr Hadmin]; try reflexivity.
  - intros row. left. reflexivity.
  - rewrite Hmr, Hadmin. split; reflexivity.
Defined.
